(** * CraveCart session handling: the token-refresh coordinators

  A shallow embedding of the three places of the repository that hold a
  bearer credential and refresh it:

  - [RestaurantPortal]: [UserService] of
    [web/restaurant-portal/src/services/userService.ts] (interceptors with
    the [isRefreshing] flag and the [refreshSubscribers] queue);
  - [AdminPortal]: the [AuthProvider] of the admin portal
    ([unnamed/part_000]: interceptors on the global axios, [refreshToken],
    [login], [logout] over [sessionStorage]);
  - [CustomerPortal]: the [AuthProvider] of
    [web/customer-portal/src/contexts/AuthContext.tsx] ([login], [logout],
    [loadUser], [refreshToken], the session timer, [isAuthenticated]).

  The code is asynchronous JavaScript.  An [async] function runs to its
  next [await] without interruption, so every [await] of a network call is
  a point where the function is suspended; the rest of the function is
  kept as a first-order continuation ([Cont]) next to the request that is
  on the wire.  The environment (server and network) is the source of
  events: it answers any request that is on the wire, in any order.

  What the model takes for granted:
  - axios runs the request interceptors of a call and puts the request on
    the wire before any answer of the network is handled, and calls made
    one after another go on the wire in that order;
  - an error with a response carries the configuration of its request
    ([error.config]), with the ad-hoc property [_retry] if it was set;
  - the body of a response has the fields of the endpoint contracts
    ([token], [refreshToken], [user], and [message] for an error), as
    strings and a user record; a token may be the empty string;
  - storage and React state setters do not throw;
  - logging ([console]) is left out; toasts and window events of the
    customer portal are kept as a ghost log. *)

From Stdlib Require Import ZArith QArith Qround Qabs Qpower Ascii String List
  Bool Lia.
From stdpp Require Import gmap strings list fin_maps.

Local Open Scope string_scope.
Local Open Scope list_scope.

(** ** The axios vocabulary shared by the three clients *)

Module Axios.

(** An axios request configuration.  [_retry] is the ad-hoc property that
    [userService.ts] adds to a configuration; it is absent ([false], the
    falsy [undefined]) on every configuration the application builds. *)
Record Request := mkRequest {
  url : string;
  method : string;
  headers : gmap string string;
  data : string;
  _retry : bool
}.

Definition set_headers (h : gmap string string) (c : Request) : Request :=
  {| url := url c; method := method c; headers := h;
     data := data c; _retry := _retry c |}.

Definition set_retry (b : bool) (c : Request) : Request :=
  {| url := url c; method := method c; headers := headers c;
     data := data c; _retry := b |}.

(** [`Bearer ${token}`] *)
Definition Bearer (token : string) : string := "Bearer " ++ token.

(** [config.headers.Authorization = `Bearer ${token}`] *)
Definition authorize (token : string) (c : Request) : Request :=
  set_headers (<["Authorization" := Bearer token]> (headers c)) c.

(** JavaScript truthiness of a string: only the empty string is falsy. *)
Definition truthy (s : string) : bool := negb (String.eqb s "").

(** Truthiness of [string | null]. *)
Definition truthy_opt (o : option string) : bool :=
  match o with Some s => truthy s | None => false end.

Record User := mkUser {
  user_id : string;
  user_name : string;
  user_email : string
}.

(** The body of a response, with the fields the clients read:
    [{token, refreshToken, user}] of the endpoints and the [message] of an
    error body ([error.response?.data?.message]). *)
Record Data := mkData {
  d_token : string;
  d_refreshToken : string;
  d_user : User;
  d_message : option string
}.

(** What the network does with a request: a 2xx response, or an error with
    [error.response?.status] ([None]: no response at all, a transport
    failure or a timeout) and [error.response?.data?.message]. *)
Inductive Response :=
| Fulfilled (d : Data)
| Failed (status : option nat) (message : option string).

(** The value a rejected promise carries. *)
Inductive Error :=
| AxiosError (status : option nat) (message : option string)
| JsError (message : string).

(** How a promise settles. *)
Inductive Outcome :=
| Resolved (d : Data)
| Rejected (e : Error).

(** [error.response?.status === 401] *)
Definition is401 (status : option nat) : bool :=
  match status with Some n => Nat.eqb n 401 | None => false end.

(** The answer of a server that does not accept the access token. *)
Definition unauthorized : Response := Failed (Some 401) None.

Definition json_headers : gmap string string :=
  {["Content-Type" := "application/json"]}.

End Axios.

Import Axios.

(** ** Restaurant portal: [UserService] *)

Module RestaurantPortal.

(** The suspended rest of an [async] function that awaits a request made
    through [this.axiosInstance]:
    - [KCaller id]: application code (promise number [id]);
    - [KRefresh originalRequest token k]: the interceptor at
      [await this.refreshToken(token)], inside [refreshToken] at its
      [await this.axiosInstance.post("/auth/refresh-token", ...)];
      [k] awaits the failed [originalRequest];
    - [KFallback originalRequest token error k]: the same, inside the
      [catch] of [refreshToken] at [await this.getCurrentUser()]. *)
Inductive Cont :=
| KCaller (id : nat)
| KRefresh (originalRequest : Request) (token : string) (k : Cont)
| KFallback (originalRequest : Request) (token : string) (error : Error)
            (k : Cont).

(** A subscriber is the closure
    [(token) => { originalRequest.headers.Authorization = ...;
                  resolve(this.axiosInstance(originalRequest)); }]:
    it captures [originalRequest] and the [resolve] of the promise the
    interceptor returned, that is the continuation of the failed call. *)
Abbreviation Subscriber := (Request * Cont)%type (only parsing).

Record State := mkState {
  isRefreshing : bool;
  refreshSubscribers : list Subscriber;
  localStorage : gmap string string;
  (** requests on the wire, oldest first, each with who awaits it *)
  pending : list (Request * Cont);
  (** every request ever put on the wire, in order (ghost) *)
  wire : list Request;
  (** the promises of the application that have settled (ghost) *)
  settled : list (nat * Outcome)
}.

Definition set_isRefreshing (b : bool) (s : State) : State :=
  mkState b (refreshSubscribers s) (localStorage s) (pending s) (wire s)
          (settled s).

Definition set_refreshSubscribers (q : list Subscriber) (s : State) : State :=
  mkState (isRefreshing s) q (localStorage s) (pending s) (wire s)
          (settled s).

Definition set_localStorage (m : gmap string string) (s : State) : State :=
  mkState (isRefreshing s) (refreshSubscribers s) m (pending s) (wire s)
          (settled s).

Definition set_pending (p : list (Request * Cont)) (s : State) : State :=
  mkState (isRefreshing s) (refreshSubscribers s) (localStorage s) p
          (wire s) (settled s).

Definition initial (storage : gmap string string) : State :=
  mkState false [] storage [] [] [].

(** The request interceptor (lines 118-125). *)
Definition requestInterceptor (storage : gmap string string)
    (config : Request) : Request :=
  match storage !! "token" with
  | Some token => if truthy token then authorize token config else config
  | None => config
  end.

(** [this.axiosInstance(config)]: the request interceptor, then the wire. *)
Definition axiosInstance (config : Request) (k : Cont) (s : State) : State :=
  let config' := requestInterceptor (localStorage s) config in
  mkState (isRefreshing s) (refreshSubscribers s) (localStorage s)
          (pending s ++ [(config', k)]) (wire s ++ [config']) (settled s).

(** [this.axiosInstance.post("/auth/refresh-token", { token })] *)
Definition refreshTokenRequest (token : string) : Request :=
  mkRequest "/auth/refresh-token" "post" json_headers token false.

(** [this.axiosInstance.get("/auth/me")] *)
Definition meRequest : Request :=
  mkRequest "/auth/me" "get" json_headers "" false.

(** [onTokenRefreshed(callback)] *)
Definition onTokenRefreshed (cb : Subscriber) (s : State) : State :=
  set_refreshSubscribers (refreshSubscribers s ++ [cb]) s.

(** One subscriber called with the token. *)
Definition callSubscriber (token : string) (s : State) (cb : Subscriber)
    : State :=
  axiosInstance (authorize token (fst cb)) (snd cb) s.

(** [notifySubscribersAboutTokenRefresh(token)] *)
Definition notifySubscribersAboutTokenRefresh (token : string) (s : State)
    : State :=
  set_refreshSubscribers []
    (fold_left (callSubscriber token) (refreshSubscribers s) s).

(** Lines 159-169: the interceptor after [refreshToken] resolved with
    [{token := newToken}]. *)
Definition refreshResolved (originalRequest : Request) (newToken : string)
    (k : Cont) (s : State) : State :=
  let s := set_localStorage (<["token" := newToken]> (localStorage s)) s in
  let originalRequest := authorize newToken originalRequest in
  let s := notifySubscribersAboutTokenRefresh newToken s in
  let s := set_isRefreshing false s in
  axiosInstance originalRequest k s.

(** Lines 170-172: the [catch] of the interceptor, before it rejects. *)
Definition refreshRejected (s : State) : State :=
  let s := set_isRefreshing false s in
  set_localStorage (delete "token" (localStorage s)) s.

(** A request settles and the function that awaited it goes on. *)
Fixpoint resume (k : Cont) (o : Outcome) (s : State) : State :=
  match k with
  | KCaller id =>
      mkState (isRefreshing s) (refreshSubscribers s) (localStorage s)
              (pending s) (wire s) (settled s ++ [(id, o)])
  | KRefresh originalRequest token k' =>
      match o with
      | Resolved d => refreshResolved originalRequest (d_token d) k' s
      | Rejected error =>
          (* refreshToken, line 229: await this.getCurrentUser() *)
          axiosInstance meRequest (KFallback originalRequest token error k') s
      end
  | KFallback originalRequest token error k' =>
      match o with
      | Resolved _ => refreshResolved originalRequest token k' s
      | Rejected _ => resume k' (Rejected error) (refreshRejected s)
      end
  end.

(** The error branch of the response interceptor (lines 134-181), run for
    a request [originalRequest] awaited by [k]. *)
Definition responseError (originalRequest : Request) (status : option nat)
    (message : option string) (k : Cont) (s : State) : State :=
  if is401 status && negb (_retry originalRequest) then
    if isRefreshing s then
      onTokenRefreshed (originalRequest, k) s
    else
      let originalRequest := set_retry true originalRequest in
      let s := set_isRefreshing true s in
      match localStorage s !! "token" with
      | Some token =>
          if truthy token then
            axiosInstance (refreshTokenRequest token)
                          (KRefresh originalRequest token k) s
          else
            resume k (Rejected (JsError "No token found")) (refreshRejected s)
      | None =>
          resume k (Rejected (JsError "No token found")) (refreshRejected s)
      end
  else resume k (Rejected (AxiosError status message)) s.

(** The response interceptor. *)
Definition responseInterceptor (originalRequest : Request) (r : Response)
    (k : Cont) (s : State) : State :=
  match r with
  | Fulfilled d => resume k (Resolved d) s
  | Failed status message => responseError originalRequest status message k s
  end.

(** What happens to the service: the application makes a call, or the
    network answers the request at position [i] of the wire. *)
Inductive Event :=
| Call (id : nat) (config : Request)
| Respond (i : nat) (r : Response).

Definition step (s : State) (ev : Event) : option State :=
  match ev with
  | Call id config => Some (axiosInstance config (KCaller id) s)
  | Respond i r =>
      match pending s !! i with
      | Some (req, k) =>
          Some (responseInterceptor req r k
                  (set_pending (delete i (pending s)) s))
      | None => None
      end
  end.

Fixpoint run (s : State) (evs : list Event) : option State :=
  match evs with
  | [] => Some s
  | ev :: evs' =>
      match step s ev with
      | Some s' => run s' evs'
      | None => None
      end
  end.

End RestaurantPortal.

(** ** Admin portal: [AuthProvider] over [sessionStorage] *)

Module AdminPortal.

(** What [storage.get] returns: [storage.set] writes [JSON.stringify] of a
    token (a string) or of the user object, and [storage.get] parses it
    back; the round trip is taken as the identity on these values. *)
Inductive Json :=
| JString (s : string)
| JUser (u : User).

(** Truthiness of [storage.get(key)]. *)
Definition truthy_json (j : Json) : bool :=
  match j with JString s => truthy s | JUser _ => true end.

(** A value inside a template literal. *)
Definition to_string (j : Json) : string :=
  match j with JString s => s | JUser _ => "[object Object]" end.

Definition to_string_opt (o : option Json) : string :=
  match o with Some j => to_string j | None => "null" end.

(** Modelled from the spec: the endpoint table [api.endpoints.auth] of
    [../config/api], which is not among the sources; the paths are the ones
    of the section EXTERNAL INTERFACES. *)
Module api.
Definition login : string := "/auth/login".
Definition refreshToken : string := "/auth/refresh-token".
Definition logout : string := "/auth/logout".
Definition me : string := "/auth/me".
End api.

(** What an awaited promise resolves with. *)
Inductive Value :=
| VResponse (d : Data)
| VToken (t : string)
| VVoid.

Inductive Result :=
| Ok (v : Value)
| Err (e : Error).

(** The suspended rest of an [async] function:
    - [KApp id]: application code awaiting promise number [id];
    - [KLogin k]: [login] at [await axios.post(login, ...)];
    - [KRefreshPost k]: [refreshToken] at [await axios.post(refreshToken, ...)];
    - [KRefreshCatch error k]: the [catch] of [refreshToken] at
      [await logout()], before [throw error];
    - [KLogoutPost k]: [logout] at [await axios.post(logout, ...)];
    - [KIntercept config k]: the response interceptor at
      [await refreshToken()], for the failed request [config] awaited by [k];
    - [KInterceptCatch refreshError k]: the [catch] of the interceptor at
      [await logout()], before [Promise.reject(refreshError)].
    In each, [k] awaits the function that is suspended. *)
Inductive Cont :=
| KApp (id : nat)
| KLogin (k : Cont)
| KRefreshPost (k : Cont)
| KRefreshCatch (error : Error) (k : Cont)
| KLogoutPost (k : Cont)
| KIntercept (config : Request) (k : Cont)
| KInterceptCatch (refreshError : Error) (k : Cont).

Record State := mkState {
  sessionStorage : gmap string Json;
  (** React state of the provider *)
  user : option User;
  isAuthenticated : bool;
  (** requests on the wire, oldest first, each with who awaits it *)
  pending : list (Request * Cont);
  (** every request ever put on the wire, in order (ghost) *)
  wire : list Request;
  (** the promises of the application that have settled (ghost) *)
  settled : list (nat * Result)
}.

(** [useState(storage.get("adminUser"))], [useState(!!storage.get("adminToken"))] *)
Definition initial (storage : gmap string Json) : State :=
  mkState storage
    (match storage !! "adminUser" with Some (JUser u) => Some u | _ => None end)
    (match storage !! "adminToken" with Some j => truthy_json j | None => false end)
    [] [] [].

Definition set_sessionStorage (m : gmap string Json) (s : State) : State :=
  mkState m (user s) (isAuthenticated s) (pending s) (wire s) (settled s).

Definition set_pending (p : list (Request * Cont)) (s : State) : State :=
  mkState (sessionStorage s) (user s) (isAuthenticated s) p (wire s)
          (settled s).

(** The request interceptor (lines 92-99). *)
Definition requestInterceptor (storage : gmap string Json)
    (config : Request) : Request :=
  match storage !! "adminToken" with
  | Some token =>
      if truthy_json token then authorize (to_string token) config else config
  | None => config
  end.

(** [axios(config)]: the request interceptor, then the wire. *)
Definition axios (config : Request) (k : Cont) (s : State) : State :=
  let config' := requestInterceptor (sessionStorage s) config in
  mkState (sessionStorage s) (user s) (isAuthenticated s)
          (pending s ++ [(config', k)]) (wire s ++ [config']) (settled s).

(** [axios.post(api.endpoints.auth.login, { email, password })] *)
Definition loginRequest (email password : string) : Request :=
  mkRequest api.login "post" ∅ (email ++ ":" ++ password) false.

(** [axios.post(api.endpoints.auth.refreshToken, { refreshToken })] *)
Definition refreshRequest (refreshToken : string) : Request :=
  mkRequest api.refreshToken "post" ∅ refreshToken false.

(** [axios.post(api.endpoints.auth.logout, null,
      { headers: { Authorization: `Bearer ${token}` } })] *)
Definition logoutRequest (token : string) : Request :=
  mkRequest api.logout "post" {["Authorization" := Bearer token]} "" false.

(** The [finally] of [logout] (lines 225-229). *)
Definition clearSession (s : State) : State :=
  mkState
    (delete "adminUser" (delete "refreshToken"
       (delete "adminToken" (sessionStorage s))))
    None false (pending s) (wire s) (settled s).

(** [logout()] awaited by [k].  With a token it suspends on the server call;
    without one it runs through its [finally] and [k] goes on at once:
    [after] is [k] resumed with the result of [logout]. *)
Definition logout (k : Cont) (after : State -> State) (s : State) : State :=
  match sessionStorage s !! "adminToken" with
  | Some token =>
      if truthy_json token then
        axios (logoutRequest (to_string token)) (KLogoutPost k) s
      else after (clearSession s)
  | None => after (clearSession s)
  end.

(** The [catch] of [refreshToken] (lines 162-166): [await logout()], then
    [throw error] to [k]. *)
Definition refreshCatch (error : Error) (k : Cont)
    (resume_k : Result -> State -> State) (s : State) : State :=
  logout (KRefreshCatch error k) (resume_k (Err error)) s.

(** [refreshToken()] awaited by [k] (lines 147-161, up to the [await]). *)
Definition refreshToken (k : Cont) (resume_k : Result -> State -> State)
    (s : State) : State :=
  match sessionStorage s !! "refreshToken" with
  | Some rt =>
      if truthy_json rt then
        axios (refreshRequest (to_string rt)) (KRefreshPost k) s
      else refreshCatch (JsError "No refresh token found") k resume_k s
  | None => refreshCatch (JsError "No refresh token found") k resume_k s
  end.

(** The success branch of [login] (lines 200-204). *)
Definition installSession (d : Data) (s : State) : State :=
  mkState
    (<["adminUser" := JUser (d_user d)]>
       (<["refreshToken" := JString (d_refreshToken d)]>
          (<["adminToken" := JString (d_token d)]> (sessionStorage s))))
    (Some (d_user d)) true (pending s) (wire s) (settled s).

(** The success branch of [refreshToken] (lines 157-158). *)
Definition storeTokens (d : Data) (s : State) : State :=
  set_sessionStorage
    (<["refreshToken" := JString (d_refreshToken d)]>
       (<["adminToken" := JString (d_token d)]> (sessionStorage s))) s.

(** An awaited promise settles and the suspended function goes on. *)
Fixpoint resume (k : Cont) (r : Result) (s : State) : State :=
  match k with
  | KApp id =>
      mkState (sessionStorage s) (user s) (isAuthenticated s) (pending s)
              (wire s) (settled s ++ [(id, r)])
  | KLogin k' =>
      match r with
      | Ok (VResponse d) =>
          if truthy (d_token d) then resume k' (Ok VVoid) (installSession d s)
          else resume k' (Err (JsError "Invalid email or password")) s
      | _ => resume k' (Err (JsError "Invalid email or password")) s
      end
  | KRefreshPost k' =>
      match r with
      | Ok (VResponse d) =>
          if truthy (d_token d) then
            resume k' (Ok (VToken (d_token d))) (storeTokens d s)
          else refreshCatch (JsError "No token in response") k' (resume k') s
      | Ok _ => refreshCatch (JsError "No token in response") k' (resume k') s
      | Err error => refreshCatch error k' (resume k') s
      end
  | KRefreshCatch error k' => resume k' (Err error) s
  | KLogoutPost k' => resume k' (Ok VVoid) (clearSession s)
  | KIntercept config k' =>
      match r with
      | Ok _ =>
          let token := sessionStorage s !! "adminToken" in
          axios (authorize (to_string_opt token) config) k' s
      | Err refreshError =>
          logout (KInterceptCatch refreshError k')
                 (resume k' (Err refreshError)) s
      end
  | KInterceptCatch refreshError k' => resume k' (Err refreshError) s
  end.

(** The error branch of the response interceptor (lines 105-118). *)
Definition responseError (config : Request) (status : option nat)
    (message : option string) (k : Cont) (s : State) : State :=
  if is401 status then
    refreshToken (KIntercept config k) (resume (KIntercept config k)) s
  else resume k (Err (AxiosError status message)) s.

Definition responseInterceptor (config : Request) (r : Response) (k : Cont)
    (s : State) : State :=
  match r with
  | Fulfilled d => resume k (Ok (VResponse d)) s
  | Failed status message => responseError config status message k s
  end.

(** What happens to the provider: the application calls axios or one of the
    functions of the context, or the network answers the request at
    position [i] of the wire. *)
Inductive Event :=
| Call (id : nat) (config : Request)
| Login (id : nat) (email password : string)
| Logout (id : nat)
| RefreshToken (id : nat)
| Respond (i : nat) (r : Response).

Definition step (s : State) (ev : Event) : option State :=
  match ev with
  | Call id config => Some (axios config (KApp id) s)
  | Login id email password =>
      Some (axios (loginRequest email password) (KLogin (KApp id)) s)
  | Logout id => Some (logout (KApp id) (resume (KApp id) (Ok VVoid)) s)
  | RefreshToken id => Some (refreshToken (KApp id) (resume (KApp id)) s)
  | Respond i r =>
      match pending s !! i with
      | Some (req, k) =>
          Some (responseInterceptor req r k
                  (set_pending (delete i (pending s)) s))
      | None => None
      end
  end.

Fixpoint run (s : State) (evs : list Event) : option State :=
  match evs with
  | [] => Some s
  | ev :: evs' =>
      match step s ev with
      | Some s' => run s' evs'
      | None => None
      end
  end.

(** No session: nothing persisted, no user, not authenticated. *)
Definition NoSession (s : State) : Prop :=
  sessionStorage s !! "adminToken" = None /\
  sessionStorage s !! "refreshToken" = None /\
  sessionStorage s !! "adminUser" = None /\
  user s = None /\ isAuthenticated s = false.

End AdminPortal.

(** ** Customer portal: [AuthProvider] over [localStorage] *)

Module CustomerPortal.

Definition API_URL : string := "http://localhost:3000/api".

(** A JavaScript number: a double (IEEE 754 binary64), held as the
    rational it stands for, [NaN], or an infinity.  The two zeros are not
    told apart: they differ under a division by zero and under
    [Object.is], which the session timer does not use. *)
Inductive JsNumber :=
| NaN
| Num (q : Q)
| Infinity (negative : bool).

(** A value [JSON.parse] can return. *)
#[warnings="-register-all"] Inductive JsValue :=
| JsNull
| JsBool (b : bool)
| JsNum (q : Q)
| JsStr (s : string)
| JsArray (l : list JsValue)
| JsObject (fields : list (string * JsValue)).

(** The integer nearest to a rational, ties to the even one. *)
Definition roundHalfEven (x : Q) : Z :=
  let f := Qfloor x in
  match Qcompare (x - inject_Z f) (1 # 2) with
  | Lt => f
  | Gt => (f + 1)%Z
  | Eq => if Z.even f then f else (f + 1)%Z
  end.

(** The exponent [e] of the unit in the last place of the doubles around a
    positive rational [a]: [2^52 <= a / 2^e < 2^53], and -1074 for the
    subnormal numbers. *)
Definition exponentOf (a : Q) : Z :=
  let e0 := (Z.log2 (Qnum a) - Z.log2 (Zpos (Qden a)) - 52)%Z in
  let e := if Qle_bool (Qpower 2 (e0 + 52)) a then e0 else (e0 - 1)%Z in
  Z.max e (-1074).

(** The multiple of the unit in the last place nearest to a positive
    rational, ties to the one with an even significand. *)
Definition rounded (a : Q) : Q :=
  (inject_Z (roundHalfEven (a / Qpower 2 (exponentOf a)))
   * Qpower 2 (exponentOf a))%Q.

(** The double of an exact result: round to nearest, ties to even, and an
    infinity from 2^1024 on (the rounding of IEEE 754 that the arithmetic
    of JavaScript and [JSON.parse] use). *)
Definition round64 (q : Q) : JsNumber :=
  match Qcompare q 0 with
  | Eq => Num 0
  | c =>
      let r := rounded (Qabs q) in
      let negative := match c with Lt => true | _ => false end in
      if Qle_bool (Qpower 2 1024) r then Infinity negative
      else Num (Qred (if negative then - r else r))
  end.

(** [a * b] *)
Definition js_mul (a b : JsNumber) : JsNumber :=
  match a, b with
  | Num x, Num y => round64 (x * y)
  | Infinity s, Num y | Num y, Infinity s =>
      match Qcompare y 0 with
      | Eq => NaN
      | Lt => Infinity (negb s)
      | Gt => Infinity s
      end
  | Infinity s, Infinity s' => Infinity (xorb s s')
  | _, _ => NaN
  end.

(** [a - b] *)
Definition js_sub (a b : JsNumber) : JsNumber :=
  match a, b with
  | Num x, Num y => round64 (x - y)
  | Infinity s, Num _ => Infinity s
  | Num _, Infinity s => Infinity (negb s)
  | Infinity s, Infinity s' => if Bool.eqb s s' then NaN else Infinity s
  | _, _ => NaN
  end.

(** [a / b] for a divisor that is not zero (the code divides by 1000); a
    division by zero, whose result hangs on the sign of the zero, is left
    as [NaN]. *)
Definition js_div (a b : JsNumber) : JsNumber :=
  match a, b with
  | Num x, Num y => if Qeq_bool y 0 then NaN else round64 (x / y)
  | Infinity s, Num y =>
      match Qcompare y 0 with
      | Eq => NaN
      | Lt => Infinity (negb s)
      | Gt => Infinity s
      end
  | Num _, Infinity _ => Num 0
  | _, _ => NaN
  end.

(** [Math.floor(a)]; the floor of a double is a double. *)
Definition Math_floor (a : JsNumber) : JsNumber :=
  match a with Num x => Num (inject_Z (Qfloor x)) | _ => a end.

(** [a > b]; a comparison with [NaN] is false. *)
Definition js_gt (a b : JsNumber) : bool :=
  match a, b with
  | Num x, Num y => match Qcompare x y with Gt => true | _ => false end
  | Infinity false, Num _ => true
  | Num _, Infinity true => true
  | Infinity false, Infinity true => true
  | _, _ => false
  end.

(** [s.split(sep)] for a separator of one character. *)
Fixpoint split (sep : Ascii.ascii) (s : string) : list string :=
  match s with
  | EmptyString => [EmptyString]
  | String c s' =>
      if Ascii.eqb c sep then EmptyString :: split sep s'
      else match split sep s' with
           | h :: t => String c h :: t
           | [] => [String c EmptyString]
           end
  end.

Fixpoint assoc (key : string) (fields : list (string * JsValue))
    : option JsValue :=
  match fields with
  | [] => None
  | (k, v) :: rest => if String.eqb k key then Some v else assoc key rest
  end.

(** [payload.exp]: a [TypeError] on [null] (outer [None]), [undefined]
    (inner [None]) where there is no such property. *)
Definition get_exp (payload : JsValue) : option (option JsValue) :=
  match payload with
  | JsNull => None
  | JsObject fields => Some (assoc "exp" fields)
  | _ => Some None
  end.

Section SessionTimer.

(** Built-in functions of the browser; [None] is a thrown exception. *)
Variable atob : string -> option string.
Variable JSON_parse : string -> option JsValue.
(** The conversion of a string, and of an array or object, to a number. *)
Variable StringToNumber : string -> JsNumber.
Variable ObjectToNumber : JsValue -> JsNumber.

(** A number of the JSON text has the value of the nearest double;
    [Date.now()] is an integer of at most 8.64e15, a double as it is. *)
Definition ToNumber (v : option JsValue) : JsNumber :=
  match v with
  | None => NaN
  | Some JsNull => Num 0
  | Some (JsBool b) => Num (if b then 1 else 0)
  | Some (JsNum q) => round64 q
  | Some (JsStr s) => StringToNumber s
  | Some o => ObjectToNumber o
  end.

(** [JSON.parse(atob(token.split(".")[1])).exp], with the exceptions of the
    [try] block: [None] is the [catch]. *)
Definition decodeExp (token : string) : option (option JsValue) :=
  match atob (nth 1 (split "."%char token) "undefined") with
  | Some json =>
      match JSON_parse json with
      | Some payload => get_exp payload
      | None => None
      end
  | None => None
  end.

(** [checkTokenExpiration] (lines 77-86): the value given to
    [setSessionTimeRemaining] at the time [now] of [Date.now()]. *)
Definition checkTokenExpiration (token : string) (now : Z)
    : option JsNumber :=
  match decodeExp token with
  | Some exp =>
      let expiryTime := js_mul (ToNumber exp) (Num 1000) in
      let remaining :=
        Math_floor (js_div (js_sub expiryTime (Num (inject_Z now)))
                           (Num 1000)) in
      Some (if js_gt remaining (Num 0) then remaining else Num 0)
  | None => None
  end.


End SessionTimer.

(** The suspended rest of an [async] function of the provider. *)
Inductive Cont :=
| KLoadUser
| KLogin (id : nat)
| KRefresh (id : nat).

(** Toasts and window events (ghost). *)
Inductive Notice :=
| ToastSuccess (msg : string)
| ToastError (msg : string)
| WindowEvent (name : string).

Record State := mkState {
  user : option User;
  token : option string;
  isLoading : bool;
  error : option string;
  localStorage : gmap string string;
  (** requests on the wire, oldest first, each with who awaits it *)
  pending : list (Request * Cont);
  (** every request ever put on the wire, in order (ghost) *)
  wire : list Request;
  (** what the promises of the application resolved with (ghost) *)
  settled : list (nat * bool);
  notices : list Notice
}.

(** [useState(null)], [useState(localStorage.getItem("token"))], ... *)
Definition initial (storage : gmap string string) : State :=
  mkState None (storage !! "token") false None storage [] [] [] [].

(** [isAuthenticated: !!token && !!user] *)
Definition isAuthenticated (s : State) : bool :=
  truthy_opt (token s) && match user s with Some _ => true | None => false end.

Definition axios (config : Request) (k : Cont) (s : State) : State :=
  mkState (user s) (token s) (isLoading s) (error s) (localStorage s)
          (pending s ++ [(config, k)]) (wire s ++ [config]) (settled s)
          (notices s).

Definition set_pending (p : list (Request * Cont)) (s : State) : State :=
  mkState (user s) (token s) (isLoading s) (error s) (localStorage s) p
          (wire s) (settled s) (notices s).

(** [axios.get(`${API_URL}/auth/me`, { headers: { Authorization } })] *)
Definition meRequest (token : string) : Request :=
  mkRequest (API_URL ++ "/auth/me") "get"
            {["Authorization" := Bearer token]} "" false.

(** [axios.post(`${API_URL}/auth/login`, { email, password })] *)
Definition loginRequest (email password : string) : Request :=
  mkRequest (API_URL ++ "/auth/login") "post" ∅ (email ++ ":" ++ password)
            false.

(** [axios.post(`${API_URL}/auth/refresh-token`, { token })] *)
Definition refreshRequest (token : option string) : Request :=
  mkRequest (API_URL ++ "/auth/refresh-token") "post" ∅
            (match token with Some t => t | None => "null" end) false.

(** The [loadUser] effect (lines 51-65), up to its [await]. *)
Definition loadUser (s : State) : State :=
  match token s, user s with
  | Some t, None => if truthy t then axios (meRequest t) KLoadUser s else s
  | _, _ => s
  end.

(** [login] (lines 94-102), up to its [await]. *)
Definition login (id : nat) (email password : string) (s : State) : State :=
  axios (loginRequest email password) (KLogin id)
    (mkState (user s) (token s) true None (localStorage s) (pending s)
             (wire s) (settled s) (notices s)).

(** [logout] (lines 154-159). *)
Definition logout (s : State) : State :=
  mkState None None (isLoading s) (error s) (delete "token" (localStorage s))
          (pending s) (wire s) (settled s)
          (notices s ++ [WindowEvent "user-logout"]).

(** [refreshToken] (lines 187-191), up to its [await]. *)
Definition refreshToken (id : nat) (s : State) : State :=
  axios (refreshRequest (token s)) (KRefresh id) s.

(** [error.response?.data?.message || fallback] *)
Definition errorMessage (message : option string) (fallback : string)
    : string :=
  match message with
  | Some m => if truthy m then m else fallback
  | None => fallback
  end.

(** An awaited request settles and the suspended function goes on. *)
Definition resume (k : Cont) (r : Response) (s : State) : State :=
  match k, r with
  | KLoadUser, Fulfilled d =>
      mkState (Some (d_user d)) (token s) (isLoading s) (error s)
              (localStorage s) (pending s) (wire s) (settled s) (notices s)
  | KLoadUser, Failed _ _ =>
      mkState (user s) None (isLoading s) (error s)
              (delete "token" (localStorage s)) (pending s) (wire s)
              (settled s) (notices s)
  | KLogin id, Fulfilled d =>
      mkState (Some (d_user d)) (Some (d_token d)) false (error s)
              (<["token" := d_token d]> (localStorage s)) (pending s) (wire s)
              (settled s ++ [(id, true)])
              (notices s ++ [ToastSuccess "Login successful!"])
  | KLogin id, Failed _ message =>
      let msg := errorMessage message "Login failed" in
      mkState (user s) (token s) false (Some msg) (localStorage s) (pending s)
              (wire s) (settled s ++ [(id, false)])
              (notices s ++ [ToastError msg])
  | KRefresh id, Fulfilled d =>
      mkState (user s) (Some (d_token d)) (isLoading s) (error s)
              (<["token" := d_token d]> (localStorage s)) (pending s) (wire s)
              (settled s ++ [(id, true)])
              (notices s ++ [ToastSuccess "Session refreshed"])
  | KRefresh id, Failed _ _ =>
      let s := logout s in
      mkState (user s) (token s) (isLoading s) (error s) (localStorage s)
              (pending s) (wire s) (settled s ++ [(id, false)])
              (notices s ++ [ToastError "Session expired. Please login again."])
  end.

Inductive Event :=
| LoadUser
| Login (id : nat) (email password : string)
| Logout
| RefreshToken (id : nat)
| Respond (i : nat) (r : Response).

Definition step (s : State) (ev : Event) : option State :=
  match ev with
  | LoadUser => Some (loadUser s)
  | Login id email password => Some (login id email password s)
  | Logout => Some (logout s)
  | RefreshToken id => Some (refreshToken id s)
  | Respond i r =>
      match pending s !! i with
      | Some (_, k) => Some (resume k r (set_pending (delete i (pending s)) s))
      | None => None
      end
  end.

Fixpoint run (s : State) (evs : list Event) : option State :=
  match evs with
  | [] => Some s
  | ev :: evs' =>
      match step s ev with
      | Some s' => run s' evs'
      | None => None
      end
  end.

(** No session: no token in the provider or in storage, and no user. *)
Definition NoSession (s : State) : Prop :=
  token s = None /\ user s = None /\ localStorage s !! "token" = None.

End CustomerPortal.

(** * Notions the properties are stated with *)

Module RestaurantPortalSpec.
Import RestaurantPortal.

(** The refresh operations waiting inside a continuation: each [KRefresh]
    or [KFallback] frame is an [await this.refreshToken(token)] that has not
    returned. *)
Fixpoint refreshes (k : Cont) : nat :=
  match k with
  | KCaller _ => 0
  | KRefresh _ _ k' => S (refreshes k')
  | KFallback _ _ _ k' => S (refreshes k')
  end.

Definition refreshesOf (l : list (Request * Cont)) : nat :=
  list_sum (map (fun rk => refreshes (snd rk)) l).

(** All refresh operations that have started and not finished, wherever
    their request is: on the wire or in the queue of subscribers. *)
Definition refreshOps (s : State) : nat :=
  refreshesOf (pending s) + refreshesOf (refreshSubscribers s).

(** The single-flight invariant: [isRefreshing] is set exactly while one
    refresh operation is unfinished, and there is never a second one. *)
Definition singleFlight (s : State) : Prop :=
  refreshOps s = if isRefreshing s then 1 else 0.

(** Is this request on the wire the refresh call of the interceptor? *)
Definition isRefreshCall (rk : Request * Cont) : bool :=
  match snd rk with KRefresh _ _ _ => true | _ => false end.

(** The refresh calls that are on the wire. *)
Definition refreshCallsInFlight (s : State) : nat :=
  length (filter (fun rk => isRefreshCall rk = true) (pending s)).

(** A subscriber called with [token] while [storage] is the local storage:
    the request that goes on the wire and who awaits it. *)
Definition replay (storage : gmap string string) (token : string)
    (cb : Subscriber) : Request * Cont :=
  (requestInterceptor storage (authorize token (fst cb)), snd cb).

(** The application's promise [id] has settled. *)
Definition hasSettled (id : nat) (s : State) : Prop :=
  exists o, In (id, o) (settled s).

(** An answer that is not an authentication failure. *)
Definition notAuthFailure (r : Response) : Prop :=
  match r with
  | Fulfilled _ => True
  | Failed status _ => is401 status = false
  end.

(** How the promise of a request answered by [r] settles when the
    interceptor lets the answer through. *)
Definition outcomeOf (r : Response) : Outcome :=
  match r with
  | Fulfilled d => Resolved d
  | Failed status message => Rejected (AxiosError status message)
  end.

(** The application makes the calls [calls], each a promise number and a
    request configuration. *)
Definition callEvents (calls : list (nat * Request)) : list Event :=
  map (fun c => Call (fst c) (snd c)) calls.

(** The network answers the oldest request on the wire, again and again. *)
Definition answerEvents (answers : list Response) : list Event :=
  map (Respond 0) answers.

End RestaurantPortalSpec.

Module AdminPortalSpec.
Import AdminPortal.

(** A result other than the response of a request: what [logout] and
    [refreshToken] resolve with, or an error. *)
Definition notResponse (r : Result) : Prop :=
  match r with Ok (VResponse _) => False | _ => True end.

(** An answer that is not an authentication failure. *)
Definition notAuthFailure (r : Response) : Prop :=
  match r with
  | Fulfilled _ => True
  | Failed status _ => is401 status = false
  end.

(** The server rejects the access token and then accepts the refresh token,
    [n] times over. *)
Definition rejectThenRefresh (d : Data) (n : nat) : list Event :=
  concat (repeat [Respond 0 (Failed (Some 401) None); Respond 0 (Fulfilled d)]
                 n).

(** The server rejects the access token and then fails the refresh call with
    an error other than 401, [n] times over. *)
Definition rejectThenFail (status : option nat) (message : option string)
    (n : nat) : list Event :=
  concat (repeat [Respond 0 (Failed (Some 401) None);
                  Respond 0 (Failed status message)] n).

(** A session is stored: an access token and a refresh token, both truthy
    strings. *)
Definition hasTokens (token rt : string) (s : State) : Prop :=
  sessionStorage s !! "adminToken" = Some (JString token) /\
  sessionStorage s !! "refreshToken" = Some (JString rt) /\
  truthy token = true /\ truthy rt = true.

(** An answer to the login call with which [login] fails: an error, or a
    response without a token. *)
Definition loginFails (r : Response) : Prop :=
  match r with
  | Fulfilled d => truthy (d_token d) = false
  | Failed _ _ => True
  end.

End AdminPortalSpec.

Module CustomerPortalSpec.
Import CustomerPortal.


(** The value [checkTokenExpiration] gives to [setSessionTimeRemaining]
    for the expiry claim [v] at the time [now] (lines 80-82). *)
Definition shown (v : JsNumber) (now : Z) : JsNumber :=
  let expiryTime := js_mul v (Num 1000) in
  let remaining :=
    Math_floor (js_div (js_sub expiryTime (Num (inject_Z now))) (Num 1000)) in
  if js_gt remaining (Num 0) then remaining else Num 0.

(** A decoder for examples: the payload segment is taken as it is, and the
    only payload that parses is ["exp"], an object whose [exp] is 2000. *)
Definition sample_atob (s : string) : option string := Some s.

Definition sample_JSON_parse (s : string) : option JsValue :=
  if String.eqb s "exp" then Some (JsObject [("exp", JsNum 2000)]) else None.

Definition sample_ToNumber (s : string) : JsNumber := NaN.

Definition sample_ObjectToNumber (v : JsValue) : JsNumber := NaN.

End CustomerPortalSpec.

(** Concrete requests, answers and stores for examples. *)
Module Samples.

Definition alice : User := mkUser "u1" "Alice" "alice@example.org".

Definition ordersRequest : Request :=
  mkRequest "/orders" "get" json_headers "" false.

Definition menuRequest : Request :=
  mkRequest "/menu" "get" json_headers "" false.

(** A response whose body carries the tokens [token] and [refreshToken]. *)
Definition tokens (token refreshToken : string) : Data :=
  mkData token refreshToken alice None.

Definition serverError : Response := Failed (Some 500) None.

Definition badRequest : Response := Failed (Some 400) None.

Definition networkError : Response := Failed None None.

Definition invalidCredentials : Response :=
  Failed (Some 400) (Some "Invalid credentials").

Definition restaurantStorage : gmap string string := {["token" := "t0"]}.

Definition adminStorage : gmap string AdminPortal.Json :=
  <["adminUser" := AdminPortal.JUser alice]>
    (<["refreshToken" := AdminPortal.JString "r0"]>
       {["adminToken" := AdminPortal.JString "t0"]}).

Definition customerStorage : gmap string string := {["token" := "aa.exp.cc"]}.

End Samples.

From Stdlib Require Import Lqa.

(** * Further notions: what the interceptors keep over a whole run *)

Module RestaurantPortalMore.
Import RestaurantPortal RestaurantPortalSpec.

(** The promise of the application at the bottom of a continuation. *)
Fixpoint callerOf (k : Cont) : nat :=
  match k with
  | KCaller id => id
  | KRefresh _ _ k' => callerOf k'
  | KFallback _ _ _ k' => callerOf k'
  end.

(** The promises that are awaited: their request, or the refresh made for
    it, is on the wire or in the queue. *)
Definition awaitedIds (s : State) : list nat :=
  map (fun rk => callerOf (snd rk)) (pending s ++ refreshSubscribers s).

(** All promises the service knows of, awaited or settled. *)
Definition promiseIds (s : State) : list nat :=
  awaitedIds s ++ map fst (settled s).

(** The promises the application made in a run, in order. *)
Fixpoint calledIds (evs : list Event) : list nat :=
  match evs with
  | [] => []
  | Call id _ :: evs' => id :: calledIds evs'
  | Respond _ _ :: evs' => calledIds evs'
  end.

(** The requests the application made in a run, in order. *)
Fixpoint calledConfigs (evs : list Event) : list Request :=
  match evs with
  | [] => []
  | Call _ config :: evs' => config :: calledConfigs evs'
  | Respond _ _ :: evs' => calledConfigs evs'
  end.

(** What a request that waits with a refresh frame looks like under the
    local storage [storage]: it is the refresh call, or the fallback call,
    made with the token [token] that is still stored; the request that
    started the refresh is flagged and is awaited by the application. *)
Definition frameOK (storage : gmap string string) (rk : Request * Cont)
    : Prop :=
  match snd rk with
  | KCaller _ => True
  | KRefresh originalRequest token k =>
      fst rk = authorize token (refreshTokenRequest token) /\
      _retry originalRequest = true /\
      storage !! "token" = Some token /\ token <> "" /\
      exists id, k = KCaller id
  | KFallback originalRequest token _ k =>
      fst rk = authorize token meRequest /\
      _retry originalRequest = true /\
      storage !! "token" = Some token /\ token <> "" /\
      exists id, k = KCaller id
  end.

Definition framesOK (s : State) : Prop :=
  Forall (frameOK (localStorage s)) (pending s ++ refreshSubscribers s).

(** The refresh that [isRefreshing] stands for is not on the wire: its own
    request waits in the queue for the refresh to finish. *)
Definition stuck (s : State) : Prop :=
  isRefreshing s = true /\ refreshesOf (pending s) = 0.

End RestaurantPortalMore.

Module AdminPortalMore.
Import AdminPortal AdminPortalSpec.

(** The user of the React state is the stored user. *)
Definition userStored (s : State) : Prop :=
  user s = match sessionStorage s !! "adminUser" with
           | Some (JUser u) => Some u
           | _ => None
           end.

(** How the promise of a request answered by [r] settles when the
    interceptor lets the answer through. *)
Definition resultOf (r : Response) : Result :=
  match r with
  | Fulfilled d => Ok (VResponse d)
  | Failed status message => Err (AxiosError status message)
  end.

(** What awaits the logout call after [n] rounds in which the server
    answered it with 401 and failed the refresh call with [error]: [logout]
    was called again from the [catch] of [refreshToken], which the
    interceptor awaits for the logout call [config] of the round before. *)
Fixpoint logoutChain (error : Error) (config : Request) (n : nat) (k : Cont)
    : Cont :=
  match n with
  | 0 => k
  | S n' =>
      KRefreshCatch error
        (KIntercept config (KLogoutPost (logoutChain error config n' k)))
  end.

(** What awaits the refresh call after the server answered it [n] times
    with 401: each time the interceptor called [refreshToken] for the
    refresh call [config] before. *)
Fixpoint refreshChain (config : Request) (n : nat) (k : Cont) : Cont :=
  match n with
  | 0 => k
  | S n' => KIntercept config (KRefreshPost (refreshChain config n' k))
  end.

End AdminPortalMore.

(** ** Admin portal: [getCurrentUser] and the [init] effect

    The two functions of the provider that fetch the profile.  Their
    request goes through the interceptors of [AdminPortal] as a request
    whose promise they await; they go on when that promise settles.
    Promises are numbered: the even numbers are the ones of the
    application, the odd ones those of the requests of [getCurrentUser].
    The body of the answer of /auth/me is the user, an object and so
    truthy; it is read from the [d_user] field of the body record. *)

Module AdminSession.
Import AdminPortal.

(** Who awaits [getCurrentUser]: the application, or the [init] effect. *)
Inductive Caller :=
| App
| Init.

Record State := mkState {
  provider : AdminPortal.State;
  (** the calls of [getCurrentUser] that await their request, by the number
      of its promise *)
  getting : gmap nat Caller;
  isInitialized : bool;
  (** the promises of [getCurrentUser] handed to the application that have
      settled (ghost) *)
  returned : list (nat * Result)
}.

Definition initial (storage : gmap string Json) : State :=
  mkState (AdminPortal.initial storage) ∅ false [].

Definition set_provider (p : AdminPortal.State) (s : State) : State :=
  mkState p (getting s) (isInitialized s) (returned s).

(** [axios.get(api.endpoints.auth.me,
      { headers: { Authorization: `Bearer ${token}` } })] *)
Definition meRequest (token : string) : Request :=
  mkRequest api.me "get" {["Authorization" := Bearer token]} "" false.

(** The success branch of [getCurrentUser] (lines 137-139). *)
Definition gotUser (d : Data) (p : AdminPortal.State) : AdminPortal.State :=
  AdminPortal.mkState
    (<["adminUser" := JUser (d_user d)]> (sessionStorage p))
    (Some (d_user d)) true (pending p) (wire p) (settled p).

(** [getCurrentUser] has settled with [r]: the application gets its
    promise; [init] runs its [catch] (lines 178-183) on an error, and its
    [finally]. *)
Definition finish (caller : Caller) (id : nat) (r : Result) (s : State)
    : State :=
  match caller with
  | App =>
      mkState (provider s) (getting s) (isInitialized s)
              (returned s ++ [(id, r)])
  | Init =>
      match r with
      | Ok _ => mkState (provider s) (getting s) true (returned s)
      | Err _ =>
          mkState (clearSession (provider s)) (getting s) true (returned s)
      end
  end.

(** [getCurrentUser()] awaited by [caller] (lines 127-134), up to its
    [await]; [id] numbers the promise of its request. *)
Definition getCurrentUser (caller : Caller) (id : nat) (s : State) : State :=
  match sessionStorage (provider s) !! "adminToken" with
  | Some token =>
      if truthy_json token then
        mkState
          (axios (meRequest (to_string token)) (KApp id) (provider s))
          (<[id := caller]> (getting s)) (isInitialized s) (returned s)
      else finish caller id (Err (JsError "No token found")) s
  | None => finish caller id (Err (JsError "No token found")) s
  end.

(** The request of [getCurrentUser] has settled with [r] and the function
    goes on (lines 136-144). *)
Definition resumeGetCurrentUser (caller : Caller) (id : nat) (r : Result)
    (s : State) : State :=
  match r with
  | Ok (VResponse d) =>
      finish caller id (Ok VVoid) (set_provider (gotUser d (provider s)) s)
  | Ok _ => finish caller id (Ok VVoid) s
  | Err e => finish caller id (Err e) s
  end.

(** The [init] effect (lines 170-190), up to its [await]. *)
Definition init (id : nat) (s : State) : State :=
  match sessionStorage (provider s) !! "adminToken" with
  | Some token =>
      if truthy_json token then getCurrentUser Init id s
      else mkState (provider s) (getting s) true (returned s)
  | None => mkState (provider s) (getting s) true (returned s)
  end.

(** A promise has settled: if it is the one of a request of
    [getCurrentUser], that call goes on. *)
Definition settleOne (s : State) (entry : nat * Result) : State :=
  match getting s !! fst entry with
  | Some caller =>
      resumeGetCurrentUser caller (fst entry) (snd entry)
        (mkState (provider s) (delete (fst entry) (getting s))
                 (isInitialized s) (returned s))
  | None => s
  end.

(** The provider has moved from [p] to [p']: the promises that settled on
    the way are delivered. *)
Definition deliver (p p' : AdminPortal.State) (s : State) : State :=
  fold_left settleOne (drop (length (settled p)) (settled p'))
            (set_provider p' s).

(** The promises of the application get the even numbers. *)
Definition renumber (ev : AdminPortal.Event) : AdminPortal.Event :=
  match ev with
  | Call id config => Call (2 * id) config
  | Login id email password => Login (2 * id) email password
  | Logout id => Logout (2 * id)
  | RefreshToken id => RefreshToken (2 * id)
  | Respond i r => Respond i r
  end.

(** What happens to the provider: an event of [AdminPortal], a call of
    [getCurrentUser] by the application, or the [init] effect at mount.  A
    number is not given to a request while a request with that number is
    awaited. *)
Inductive Event :=
| Provider (ev : AdminPortal.Event)
| GetCurrentUser (n : nat)
| Mount (n : nat).

Definition step (s : State) (ev : Event) : option State :=
  match ev with
  | Provider ev' =>
      match AdminPortal.step (provider s) (renumber ev') with
      | Some p' => Some (deliver (provider s) p' s)
      | None => None
      end
  | GetCurrentUser n =>
      match getting s !! (2 * n + 1) with
      | None => Some (getCurrentUser App (2 * n + 1) s)
      | Some _ => None
      end
  | Mount n =>
      match getting s !! (2 * n + 1) with
      | None => Some (init (2 * n + 1) s)
      | Some _ => None
      end
  end.

Fixpoint run (s : State) (evs : list Event) : option State :=
  match evs with
  | [] => Some s
  | ev :: evs' =>
      match step s ev with
      | Some s' => run s' evs'
      | None => None
      end
  end.

End AdminSession.

Module CustomerPortalMore.
Import CustomerPortal.

(** Does the character occur in the string? *)
Fixpoint occurs (c : Ascii.ascii) (s : string) : bool :=
  match s with
  | EmptyString => false
  | String c' s' => Ascii.eqb c' c || occurs c s'
  end.

(** What the session timer does with the payload segment of a token:
    [JSON.parse(atob(segment)).exp]. *)
Definition decodePayload (atob : string -> option string)
    (JSON_parse : string -> option JsValue) (segment : string)
    : option (option JsValue) :=
  match atob segment with
  | Some json =>
      match JSON_parse json with
      | Some payload => get_exp payload
      | None => None
      end
  | None => None
  end.

(** The value the timer shows one second after it showed [r]. *)
Definition oneSecondLater (r : JsNumber) (r' : JsNumber) : Prop :=
  exists z, r = Num (inject_Z z) /\ r' = Num (inject_Z (Z.max 0 (z - 1))).

(** [a <= b] for numbers that are not [NaN]. *)
Definition atMost (a b : JsNumber) : Prop :=
  match a, b with
  | Num x, Num y => (x <= y)%Q
  | Infinity true, (Num _ | Infinity _) => True
  | (Num _ | Infinity _), Infinity false => True
  | _, _ => False
  end.

(** What [round64] returns, by the sign of the rational. *)
Inductive Rounding (q : Q) : JsNumber -> Prop :=
| RoundZero : (q == 0)%Q -> Rounding q (Num 0)
| RoundOverflow (negative : bool) :
    (if negative then q < 0 else 0 < q)%Q ->
    (Qpower 2 1024 <= rounded (Qabs q))%Q ->
    Rounding q (Infinity negative)
| RoundFinite (negative : bool) (r : Q) :
    (if negative then q < 0 else 0 < q)%Q ->
    (rounded (Qabs q) < Qpower 2 1024)%Q ->
    (r == (if negative then - rounded (Qabs q) else rounded (Qabs q)))%Q ->
    Rounding q (Num r).

(** [r > 0 ? r : 0] *)
Definition clamped (r : JsNumber) : JsNumber :=
  if js_gt r (Num 0) then r else Num 0.

(** The expiry time that the code computes for the claim [v],
    [payload.exp * 1000], is the whole number [D] of milliseconds, below
    2^53 (where every integer is a double). *)
Definition wholeMilliseconds (v : JsNumber) (D : Z) : Prop :=
  exists d, js_mul v (Num 1000) = Num d /\ (d == inject_Z D)%Q /\
            (0 <= D < 2 ^ 53)%Z.

End CustomerPortalMore.

(** ** Customer portal: [register] and [updateProfile]

    The two other functions of the provider that await a request.  They
    work on the state of [CustomerPortal]; their requests wait in a list of
    their own. *)

Module CustomerAccount.

Inductive Cont :=
| KRegister (id : nat)
| KUpdateProfile (id : nat).

Record State := mkState {
  provider : CustomerPortal.State;
  (** the requests of [register] and [updateProfile] on the wire *)
  awaited : list (Request * Cont)
}.

Definition initial (storage : gmap string string) : State :=
  mkState (CustomerPortal.initial storage) [].

(** [axios.post(`${API_URL}/auth/register`,
      { name, email, password, phoneNumber, role: "customer" })] *)
Definition registerRequest (name email password phoneNumber : string)
    : Request :=
  mkRequest (CustomerPortal.API_URL ++ "/auth/register") "post" ∅
    (name ++ ":" ++ email ++ ":" ++ password ++ ":" ++ phoneNumber
       ++ ":customer")
    false.

(** [axios.put(`${API_URL}/users/${user?.id}`, userData,
      { headers: { Authorization: `Bearer ${token}` } })] *)
Definition updateProfileRequest (user : option User) (token : option string)
    (userData : string) : Request :=
  mkRequest
    (CustomerPortal.API_URL ++ "/users/"
       ++ match user with Some u => user_id u | None => "undefined" end)
    "put"
    {["Authorization" :=
        Bearer (match token with Some t => t | None => "null" end)]}
    userData false.

(** [setIsLoading(true); setError(null);] and the request on the wire. *)
Definition start (config : Request) (k : Cont) (s : State) : State :=
  let p := provider s in
  mkState
    (CustomerPortal.mkState (CustomerPortal.user p) (CustomerPortal.token p)
       true None (CustomerPortal.localStorage p) (CustomerPortal.pending p)
       (CustomerPortal.wire p ++ [config]) (CustomerPortal.settled p)
       (CustomerPortal.notices p))
    (awaited s ++ [(config, k)]).

(** [register] (lines 119-135), up to its [await]. *)
Definition register (id : nat) (name email password phoneNumber : string)
    (s : State) : State :=
  start (registerRequest name email password phoneNumber) (KRegister id) s.

(** [updateProfile] (lines 161-172), up to its [await]. *)
Definition updateProfile (id : nat) (userData : string) (s : State) : State :=
  start (updateProfileRequest (CustomerPortal.user (provider s))
           (CustomerPortal.token (provider s)) userData)
        (KUpdateProfile id) s.

(** The awaited request settles and the function goes on (lines 137-151
    and 173-184). *)
Definition resume (k : Cont) (r : Response) (p : CustomerPortal.State)
    : CustomerPortal.State :=
  match k, r with
  | KRegister id, Fulfilled d =>
      CustomerPortal.mkState (Some (d_user d)) (Some (d_token d)) false
        (CustomerPortal.error p)
        (<["token" := d_token d]> (CustomerPortal.localStorage p))
        (CustomerPortal.pending p) (CustomerPortal.wire p)
        (CustomerPortal.settled p ++ [(id, true)])
        (CustomerPortal.notices p
           ++ [CustomerPortal.ToastSuccess "Registration successful!"])
  | KRegister id, Failed _ message =>
      let msg := CustomerPortal.errorMessage message "Registration failed" in
      CustomerPortal.mkState (CustomerPortal.user p) (CustomerPortal.token p)
        false (Some msg) (CustomerPortal.localStorage p)
        (CustomerPortal.pending p) (CustomerPortal.wire p)
        (CustomerPortal.settled p ++ [(id, false)])
        (CustomerPortal.notices p ++ [CustomerPortal.ToastError msg])
  | KUpdateProfile id, Fulfilled d =>
      CustomerPortal.mkState (Some (d_user d)) (CustomerPortal.token p)
        false (CustomerPortal.error p) (CustomerPortal.localStorage p)
        (CustomerPortal.pending p) (CustomerPortal.wire p)
        (CustomerPortal.settled p ++ [(id, true)])
        (CustomerPortal.notices p
           ++ [CustomerPortal.ToastSuccess "Profile updated successfully"])
  | KUpdateProfile id, Failed _ message =>
      let msg :=
        CustomerPortal.errorMessage message "Profile update failed" in
      CustomerPortal.mkState (CustomerPortal.user p) (CustomerPortal.token p)
        false (Some msg) (CustomerPortal.localStorage p)
        (CustomerPortal.pending p) (CustomerPortal.wire p)
        (CustomerPortal.settled p ++ [(id, false)])
        (CustomerPortal.notices p ++ [CustomerPortal.ToastError msg])
  end.

(** What happens to the provider: an event of [CustomerPortal], a call of
    [register] or [updateProfile], or the network answers one of their
    requests. *)
Inductive Event :=
| Provider (ev : CustomerPortal.Event)
| Register (id : nat) (name email password phoneNumber : string)
| UpdateProfile (id : nat) (userData : string)
| Settle (i : nat) (r : Response).

Definition step (s : State) (ev : Event) : option State :=
  match ev with
  | Provider ev' =>
      match CustomerPortal.step (provider s) ev' with
      | Some p => Some (mkState p (awaited s))
      | None => None
      end
  | Register id name email password phoneNumber =>
      Some (register id name email password phoneNumber s)
  | UpdateProfile id userData => Some (updateProfile id userData s)
  | Settle i r =>
      match awaited s !! i with
      | Some (_, k) =>
          Some (mkState (resume k r (provider s)) (delete i (awaited s)))
      | None => None
      end
  end.

Fixpoint run (s : State) (evs : list Event) : option State :=
  match evs with
  | [] => Some s
  | ev :: evs' =>
      match step s ev with
      | Some s' => run s' evs'
      | None => None
      end
  end.

(** Some function that sets [isLoading] is suspended: a [login], a
    [register] or an [updateProfile]. *)
Definition busy (s : State) : Prop :=
  (exists req id,
     (req, CustomerPortal.KLogin id) ∈ CustomerPortal.pending (provider s)) \/
  awaited s <> [].

(** The provider's [token] is what the storage holds under "token". *)
Definition agree (p : CustomerPortal.State) : Prop :=
  CustomerPortal.token p = CustomerPortal.localStorage p !! "token".

(** When [isLoading] is set, a function that set it is suspended. *)
Definition loadingHasCause (s : State) : Prop :=
  CustomerPortal.isLoading (provider s) = true -> busy s.

End CustomerAccount.

(** ** Notifications ([NotificationProvider], lines 234-423 of
    [AuthContext.tsx])

    The provider keeps a list of notifications, the unread count and a
    loading flag, and reads the token and the user from the session
    storage, which other components write.  Its calls go through the global
    axios; what the model keeps of a call is that its promise is fulfilled
    with a response or rejected.  The body of a response is taken to have
    the fields the code reads, a count being an integer.  [markAllAsRead]
    walks over the notifications of the render it was called in, here the
    state at the call. *)

Module Notifications.

Record ReceivingData := mkReceivingData {
  channel : string;
  status : string;
  read : bool;
  readAt : option string
}.

Record Receiver := mkReceiver {
  userId : string;
  receivingData : list ReceivingData
}.

Record Notification := mkNotification {
  _id : string;
  title : string;
  message : string;
  createdAt : string;
  receivers : list Receiver
}.

(** [response.data]: [{ success, count, data }]. *)
Record Body := mkBody {
  b_success : bool;
  b_count : Z;
  b_data : list Notification
}.

(** How an awaited call ends: with a response, or with an exception. *)
Inductive Answer :=
| Returned (body : Body)
| Threw.

(** The clock during one state update: the text of the n-th
    [new Date().toISOString()] that the update evaluates. *)
Definition Clock : Type := nat -> string.

(** [l.map(f)] for an [f] that reads the clock: the readings are counted
    through the list. *)
Fixpoint mapAccum {A B : Type} (f : nat -> A -> B * nat) (n : nat)
    (l : list A) : list B * nat :=
  match l with
  | [] => ([], n)
  | x :: l' =>
      let (y, n1) := f n x in
      let (ys, n2) := mapAccum f n1 l' in
      (y :: ys, n2)
  end.

(** [{ ...data, read: true, readAt: new Date().toISOString() }] *)
Definition markData (clock : Clock) (n : nat) (d : ReceivingData)
    : ReceivingData * nat :=
  (mkReceivingData (channel d) (status d) true (Some (clock n)), S n).

(** [{ ...receiver, receivingData: receiver.receivingData.map(...) }] *)
Definition markReceiver (clock : Clock) (n : nat) (r : Receiver)
    : Receiver * nat :=
  let (ds, n') := mapAccum (markData clock) n (receivingData r) in
  (mkReceiver (userId r) ds, n').

(** [{ ...notification, receivers: notification.receivers.map(...) }] *)
Definition markNotification (clock : Clock) (n : nat) (x : Notification)
    : Notification * nat :=
  let (rs, n') := mapAccum (markReceiver clock) n (receivers x) in
  (mkNotification (_id x) (title x) (message x) (createdAt x) rs, n').

(** The function mapped by [markAsRead] (lines 335-350). *)
Definition markOne (clock : Clock) (id : string) (n : nat)
    (x : Notification) : Notification * nat :=
  if String.eqb (_id x) id then markNotification clock n x else (x, n).

(** The suspended rest of an [async] function of the provider. *)
Inductive Cont :=
| KCount (userId : CustomerPortal.JsValue) (token : string)
| KList
| KMarkAsRead (id : string)
| KMarkAll (rest : list Notification) (token : string).

Record State := mkState {
  notifications : list Notification;
  isLoading : bool;
  unreadCount : Z;
  sessionStorage : gmap string string;
  (** the calls that are awaited, oldest first *)
  awaited : list (Request * Cont);
  (** every call the provider made, in order (ghost) *)
  calls : list Request
}.

(** [useState([])], [useState(false)], [useState(0)] *)
Definition initial (storage : gmap string string) : State :=
  mkState [] false 0 storage [] [].

Definition set_notifications (l : list Notification) (s : State) : State :=
  mkState l (isLoading s) (unreadCount s) (sessionStorage s) (awaited s)
          (calls s).

Definition set_isLoading (b : bool) (s : State) : State :=
  mkState (notifications s) b (unreadCount s) (sessionStorage s) (awaited s)
          (calls s).

Definition set_unreadCount (c : Z) (s : State) : State :=
  mkState (notifications s) (isLoading s) c (sessionStorage s) (awaited s)
          (calls s).

Definition set_sessionStorage (st : gmap string string) (s : State) : State :=
  mkState (notifications s) (isLoading s) (unreadCount s) st (awaited s)
          (calls s).

Definition set_awaited (l : list (Request * Cont)) (s : State) : State :=
  mkState (notifications s) (isLoading s) (unreadCount s) (sessionStorage s)
          l (calls s).

(** An axios call that is awaited. *)
Definition call (config : Request) (k : Cont) (s : State) : State :=
  mkState (notifications s) (isLoading s) (unreadCount s) (sessionStorage s)
          (awaited s ++ [(config, k)]) (calls s ++ [config]).

(** [!!v] for a value of JSON. *)
Definition js_truthy (v : CustomerPortal.JsValue) : bool :=
  match v with
  | CustomerPortal.JsNull => false
  | CustomerPortal.JsBool b => b
  | CustomerPortal.JsNum q => negb (Qeq_bool q 0)
  | CustomerPortal.JsStr s => truthy s
  | CustomerPortal.JsArray _ => true
  | CustomerPortal.JsObject _ => true
  end.

(** [user._id]: a [TypeError] on [null] (outer [None]), [undefined] (inner
    [None]) where there is no such property. *)
Definition get_id (user : CustomerPortal.JsValue)
    : option (option CustomerPortal.JsValue) :=
  match user with
  | CustomerPortal.JsNull => None
  | CustomerPortal.JsObject fields =>
      Some (CustomerPortal.assoc "_id" fields)
  | _ => Some None
  end.

Section Provider.

(** [api.endpoints.notifications.getAll], of a file that is not part of the
    sources. *)
Variable getAll : string.
(** Built-in functions; [None] is a thrown exception. *)
Variable JSON_parse : string -> option CustomerPortal.JsValue.
(** The conversion of a value to a string in a template literal. *)
Variable ToString : CustomerPortal.JsValue -> string.

Definition authorization (token : string) : gmap string string :=
  {["Authorization" := Bearer token]}.

(** [axios.get(`${getAll}/unread/count/${userId}`, { headers })] *)
Definition countRequest (userId : CustomerPortal.JsValue) (token : string)
    : Request :=
  mkRequest (getAll ++ "/unread/count/" ++ ToString userId) "get"
            (authorization token) "" false.

(** [axios.get(`${getAll}/unread/${userId}`, { headers })] *)
Definition listRequest (userId : CustomerPortal.JsValue) (token : string)
    : Request :=
  mkRequest (getAll ++ "/unread/" ++ ToString userId) "get"
            (authorization token) "" false.

(** [axios.post(`${getAll}/read/${id}`, null, { headers })] *)
Definition readRequest (token : string) (id : string) : Request :=
  mkRequest (getAll ++ "/read/" ++ id) "post" (authorization token) ""
            false.

(** [sessionStorage.getItem("adminToken")] when it is truthy. *)
Definition adminToken (s : State) : option string :=
  match sessionStorage s !! "adminToken" with
  | Some token => if truthy token then Some token else None
  | None => None
  end.

(** [JSON.parse(sessionStorage.getItem("adminUser") || "{}")._id], when
    nothing is thrown and the result is truthy. *)
Definition currentUserId (s : State) : option CustomerPortal.JsValue :=
  let item :=
    match sessionStorage s !! "adminUser" with
    | Some i => if truthy i then i else "{}"
    | None => "{}"
    end in
  match JSON_parse item with
  | Some user =>
      match get_id user with
      | Some (Some userId) => if js_truthy userId then Some userId else None
      | Some None => None
      | None => None
      end
  | None => None
  end.

(** [fetchNotifications] (lines 284-300), up to its first [await]; the
    [finally] block runs on every other way out. *)
Definition fetchNotifications (s : State) : State :=
  let s := set_isLoading true s in
  match adminToken s with
  | Some token =>
      match currentUserId s with
      | Some userId => call (countRequest userId token) (KCount userId token) s
      | None => set_isLoading false s
      end
  | None => set_isLoading false s
  end.

(** [markAsRead] (lines 322-331), up to its [await]. *)
Definition markAsRead (id : string) (s : State) : State :=
  match adminToken s with
  | Some token => call (readRequest token id) (KMarkAsRead id) s
  | None => s
  end.

(** The loop of [markAllAsRead] over the notifications that are left, and
    the updates after it (lines 372-396). *)
Definition markAllLoop (rest : list Notification) (token : string)
    (clock : Clock) (s : State) : State :=
  match rest with
  | x :: rest' => call (readRequest token (_id x)) (KMarkAll rest' token) s
  | [] =>
      set_unreadCount 0
        (set_notifications
           (fst (mapAccum (markNotification clock) 0 (notifications s))) s)
  end.

(** [markAllAsRead] (lines 360-378), up to its first [await]. *)
Definition markAllAsRead (clock : Clock) (s : State) : State :=
  match adminToken s with
  | Some token =>
      match currentUserId s with
      | Some _ => markAllLoop (notifications s) token clock s
      | None => s
      end
  | None => s
  end.

(** An awaited call ends and the suspended function goes on. *)
Definition resume (k : Cont) (a : Answer) (clock : Clock) (s : State)
    : State :=
  match k, a with
  | KCount userId token, Returned b =>
      call (listRequest userId token) KList
        (if b_success b then set_unreadCount (b_count b) s else s)
  | KCount _ _, Threw => set_isLoading false s
  | KList, Returned b =>
      set_isLoading false
        (if b_success b then set_notifications (b_data b) s else s)
  | KList, Threw => set_isLoading false s
  | KMarkAsRead id, Returned _ =>
      set_unreadCount (Z.max 0 (unreadCount s - 1))
        (set_notifications
           (fst (mapAccum (markOne clock id) 0 (notifications s))) s)
  | KMarkAsRead _, Threw => s
  | KMarkAll rest token, Returned _ => markAllLoop rest token clock s
  | KMarkAll _ _, Threw => s
  end.

(** What happens to the provider: one of its functions is called (the
    interval calls [fetchNotifications]), a call it awaits ends, or another
    component writes the session storage. *)
Inductive Event :=
| FetchNotifications
| MarkAsRead (id : string)
| MarkAllAsRead (clock : Clock)
| Settle (i : nat) (a : Answer) (clock : Clock)
| Storage (st : gmap string string).

Definition step (s : State) (ev : Event) : option State :=
  match ev with
  | FetchNotifications => Some (fetchNotifications s)
  | MarkAsRead id => Some (markAsRead id s)
  | MarkAllAsRead clock => Some (markAllAsRead clock s)
  | Settle i a clock =>
      match awaited s !! i with
      | Some (_, k) =>
          Some (resume k a clock (set_awaited (delete i (awaited s)) s))
      | None => None
      end
  | Storage st => Some (set_sessionStorage st s)
  end.

Fixpoint run (s : State) (evs : list Event) : option State :=
  match evs with
  | [] => Some s
  | ev :: evs' =>
      match step s ev with
      | Some s' => run s' evs'
      | None => None
      end
  end.

End Provider.

(** [y] is [x] marked as read: every receiving entry is read and has a time
    stamp, and nothing else differs. *)
Definition dataMarked (d d' : ReceivingData) : Prop :=
  channel d' = channel d /\ status d' = status d /\ read d' = true /\
  exists t, readAt d' = Some t.

Definition receiverMarked (r r' : Receiver) : Prop :=
  userId r' = userId r /\
  Forall2 dataMarked (receivingData r) (receivingData r').

Definition marked (x y : Notification) : Prop :=
  _id y = _id x /\ title y = title x /\ message y = message x /\
  createdAt y = createdAt x /\
  Forall2 receiverMarked (receivers x) (receivers y).

(** [y] is [x] after [markAsRead id]. *)
Definition markedIf (id : string) (x y : Notification) : Prop :=
  if String.eqb (_id x) id then marked x y else y = x.

(** The answers of the server carry no negative count. *)
Definition countsNonNegative (evs : list Event) : bool :=
  forallb (fun ev => match ev with
                     | Settle _ (Returned b) _ => (0 <=? b_count b)%Z
                     | _ => true
                     end) evs.

(** A [fetchNotifications] is suspended. *)
Definition fetching (s : State) : Prop :=
  exists req k, (req, k) ∈ awaited s /\
    match k with KCount _ _ | KList => True | _ => False end.

(** The event is a call of one of the functions of the provider. *)
Definition isCall (ev : Event) : bool :=
  match ev with
  | FetchNotifications | MarkAsRead _ | MarkAllAsRead _ => true
  | _ => false
  end.

(** When [isLoading] is set, a [fetchNotifications] is suspended. *)
Definition loadingHasCause (s : State) : Prop :=
  isLoading s = true -> fetching s.

End Notifications.

(** Data for examples of the notification provider. *)
Module NotificationSamples.
Import Notifications.

Definition getAll : string := "/api/notifications".

(** The only texts that parse: the empty object and a user with an id. *)
Definition JSON_parse (s : string) : option CustomerPortal.JsValue :=
  if String.eqb s "{}" then Some (CustomerPortal.JsObject [])
  else if String.eqb s "user:u1"
       then Some (CustomerPortal.JsObject
                    [("_id", CustomerPortal.JsStr "u1")])
       else None.

Definition ToString (v : CustomerPortal.JsValue) : string :=
  match v with
  | CustomerPortal.JsStr s => s
  | _ => "[object Object]"
  end.

Definition storage : gmap string string :=
  <["adminUser" := "user:u1"]> {["adminToken" := "t0"]}.

Definition welcome : Notification :=
  mkNotification "n1" "Welcome" "Hello" "2025-01-01"
    [mkReceiver "u1" [mkReceivingData "inapp" "sent" false None]].

Definition clock : Clock := fun _ => "2025-01-02".

Definition unread : Body := mkBody true 1 [welcome].

(** A provider that shows one unread notification. *)
Definition loaded : State := mkState [welcome] false 1 storage [] [].

End NotificationSamples.

(** * Facts about requests *)

Lemma truthy_spec s : truthy s = true <-> s <> "".
Proof.
  unfold truthy. destruct (String.eqb_spec s ""); cbn; split; congruence.
Qed.

(** Setting the header again overwrites it. *)
Lemma authorize_authorize a b c : authorize a (authorize b c) = authorize a c.
Proof.
  unfold authorize, set_headers; cbn [url method headers data _retry].
  by rewrite insert_insert_eq.
Qed.

Lemma authorize_set_retry a b t c :
  authorize a (set_retry b (authorize t c)) = set_retry b (authorize a c).
Proof.
  unfold authorize, set_retry, set_headers;
    cbn [url method headers data _retry].
  by rewrite insert_insert_eq.
Qed.

(** * Restaurant portal: facts about the interceptors *)

Module RestaurantPortalFacts.
Import RestaurantPortal RestaurantPortalSpec.

Ltac state_simpl :=
  unfold set_pending, set_isRefreshing, set_localStorage,
    set_refreshSubscribers;
  cbn [isRefreshing refreshSubscribers localStorage pending wire settled
       fst snd].

(** The request interceptor leaves alone a request that already carries the
    token that is being stored. *)
Lemma requestInterceptor_authorized (storage : gmap string string) token c :
  requestInterceptor (<["token" := token]> storage) (authorize token c)
  = authorize token c.
Proof.
  unfold requestInterceptor. rewrite lookup_insert_eq.
  destruct (truthy token); [apply authorize_authorize | reflexivity].
Qed.

Lemma requestInterceptor_retry storage c :
  _retry (requestInterceptor storage c) = _retry c.
Proof.
  unfold requestInterceptor.
  destruct (storage !! "token") as [t|]; [|reflexivity].
  destruct (truthy t); reflexivity.
Qed.

(** Calling the subscribers one after another puts their requests on the
    wire in the order of the queue and changes nothing else. *)
Lemma fold_callSubscriber token q s :
  fold_left (callSubscriber token) q s
  = mkState (isRefreshing s) (refreshSubscribers s) (localStorage s)
      (pending s ++ map (replay (localStorage s) token) q)
      (wire s ++ map (fun cb => fst (replay (localStorage s) token cb)) q)
      (settled s).
Proof.
  revert s. induction q as [|cb q IH]; intros s; cbn [fold_left map].
  - rewrite !app_nil_r. by destruct s.
  - rewrite IH. unfold callSubscriber, axiosInstance, replay.
    cbn [isRefreshing refreshSubscribers localStorage pending wire settled fst snd].
    by rewrite <- !app_assoc.
Qed.

(** The interceptor after [refreshToken] returned [newToken], in one piece:
    the token is stored, the flag is reset, the queue is emptied, and the
    queued requests followed by the original one are on the wire, all with
    the new token. *)
Lemma refreshResolved_eq originalRequest newToken k s :
  refreshResolved originalRequest newToken k s
  = mkState false [] (<["token" := newToken]> (localStorage s))
      (pending s
         ++ map (fun cb => (authorize newToken (fst cb), snd cb))
                (refreshSubscribers s)
         ++ [(authorize newToken originalRequest, k)])
      (wire s
         ++ map (fun cb => authorize newToken (fst cb)) (refreshSubscribers s)
         ++ [authorize newToken originalRequest])
      (settled s).
Proof.
  unfold refreshResolved, notifySubscribersAboutTokenRefresh.
  rewrite fold_callSubscriber.
  unfold axiosInstance, set_isRefreshing, set_refreshSubscribers,
    set_localStorage, replay.
  cbn [isRefreshing refreshSubscribers localStorage pending wire settled fst snd].
  rewrite requestInterceptor_authorized.
  rewrite <- !app_assoc. f_equal.
  - f_equal. f_equal. apply map_ext. intros [c k']; cbn [fst snd].
    by rewrite requestInterceptor_authorized.
  - f_equal. f_equal. apply map_ext. intros [c k']; cbn [fst snd].
    by rewrite requestInterceptor_authorized.
Qed.

(** The three ways through the error branch of the response interceptor. *)
Lemma responseError_enqueue req status message k s :
  is401 status = true -> _retry req = false -> isRefreshing s = true ->
  responseError req status message k s = onTokenRefreshed (req, k) s.
Proof. intros H1 H2 H3. unfold responseError. by rewrite H1, H2, H3. Qed.

Lemma responseError_refresh req status message k s token :
  is401 status = true -> _retry req = false -> isRefreshing s = false ->
  localStorage s !! "token" = Some token -> truthy token = true ->
  responseError req status message k s
  = axiosInstance (refreshTokenRequest token)
      (KRefresh (set_retry true req) token k) (set_isRefreshing true s).
Proof.
  intros H1 H2 H3 H4 H5. unfold responseError. rewrite H1, H2, H3.
  cbn [andb negb]. unfold set_isRefreshing at 1.
  cbn [localStorage]. by rewrite H4, H5.
Qed.

Lemma responseError_surface req status message k s :
  is401 status && negb (_retry req) = false ->
  responseError req status message k s
  = resume k (Rejected (AxiosError status message)) s.
Proof. intros H. unfold responseError. by rewrite H. Qed.

(** *** Counting refresh operations *)

Lemma refreshesOf_app l1 l2 :
  refreshesOf (l1 ++ l2) = refreshesOf l1 + refreshesOf l2.
Proof. unfold refreshesOf. by rewrite map_app, list_sum_app. Qed.

Lemma refreshesOf_cons c k l :
  refreshesOf ((c, k) :: l) = refreshes k + refreshesOf l.
Proof. reflexivity. Qed.

Lemma refreshesOf_nil : refreshesOf [] = 0.
Proof. reflexivity. Qed.

Lemma refreshesOf_delete (l : list (Request * Cont)) i req k :
  l !! i = Some (req, k) ->
  refreshesOf l = refreshes k + refreshesOf (delete i l).
Proof.
  intros H. rewrite <- (take_drop_middle l i (req, k) H) at 1.
  rewrite delete_take_drop, !refreshesOf_app, refreshesOf_cons. lia.
Qed.

Lemma refreshesOf_replayed (f : Subscriber -> Request) q :
  refreshesOf (map (fun cb => (f cb, snd cb)) q) = refreshesOf q.
Proof.
  unfold refreshesOf. rewrite map_map. cbn [snd]. reflexivity.
Qed.

Lemma refreshes_zero k : refreshes k = 0 -> exists id, k = KCaller id.
Proof. destruct k; cbn; intros H; [eauto | lia | lia]. Qed.

Lemma refreshCalls_le l :
  length (filter (fun rk => isRefreshCall rk = true) l) <= refreshesOf l.
Proof.
  induction l as [|[c k] l IH]; [cbn; lia|].
  rewrite filter_cons, refreshesOf_cons.
  case_decide as Hk; cbn [length]; [|lia].
  unfold isRefreshCall in Hk; cbn [snd] in Hk.
  destruct k; try discriminate. cbn [refreshes]. lia.
Qed.

Ltac count_refreshes :=
  cbn [pending refreshSubscribers isRefreshing localStorage wire settled
       set_pending set_isRefreshing set_localStorage set_refreshSubscribers
       refreshes] in *;
  rewrite ?refreshesOf_app, ?refreshesOf_cons, ?refreshesOf_nil,
    ?(refreshesOf_replayed (fun cb => authorize _ (fst cb)));
  cbn [refreshes] in *.

(** Every step keeps the single-flight invariant. *)
Lemma singleFlight_step s ev s' :
  singleFlight s -> step s ev = Some s' -> singleFlight s'.
Proof.
  unfold singleFlight, refreshOps. intros Inv Hstep.
  destruct ev as [id config | i r]; cbn [step] in Hstep.
  - inversion Hstep; subst s'; clear Hstep.
    unfold axiosInstance. count_refreshes. lia.
  - destruct (pending s !! i) as [[req k]|] eqn:Hi; [|discriminate].
    inversion Hstep; subst s'; clear Hstep.
    rewrite (refreshesOf_delete _ _ _ _ Hi) in Inv.
    set (p := delete i (pending s)) in *.
    destruct r as [d | status message]; cbn [responseInterceptor].
    + (* a success goes to whoever awaits the request *)
      destruct k as [id | orig tok k' | orig tok err k']; cbn [resume].
      * count_refreshes. lia.
      * rewrite refreshResolved_eq. count_refreshes.
        destruct (isRefreshing s); lia.
      * rewrite refreshResolved_eq. count_refreshes.
        destruct (isRefreshing s); lia.
    + unfold responseError.
      destruct (is401 status && negb (_retry req)) eqn:Hauth.
      * cbn [isRefreshing set_pending].
        destruct (isRefreshing s) eqn:Hflag.
        -- unfold onTokenRefreshed. count_refreshes. rewrite Hflag. lia.
        -- assert (Hk : refreshes k = 0) by lia.
           destruct (refreshes_zero _ Hk) as [id ->].
           cbn [set_isRefreshing localStorage set_pending].
           destruct (localStorage s !! "token") as [t|];
             [destruct (truthy t)|];
             unfold axiosInstance, refreshRejected; cbn [resume];
             count_refreshes; lia.
      * destruct k as [id | orig tok k' | orig tok err k']; cbn [resume].
        -- count_refreshes. lia.
        -- unfold axiosInstance. count_refreshes. lia.
        -- assert (Hk : refreshes k' = 0)
             by (cbn [refreshes] in Inv; destruct (isRefreshing s); lia).
           destruct (refreshes_zero _ Hk) as [id ->].
           unfold refreshRejected. cbn [resume]. count_refreshes.
           destruct (isRefreshing s); lia.
Qed.

Lemma singleFlight_run evs : forall s s',
  singleFlight s -> run s evs = Some s' -> singleFlight s'.
Proof.
  induction evs as [|ev evs IH]; intros s s' Inv Hrun; cbn [run] in Hrun.
  - by inversion Hrun; subst.
  - destruct (step s ev) as [s1|] eqn:Hstep; [|discriminate].
    eapply IH; [|exact Hrun]. eapply singleFlight_step; eauto.
Qed.

Lemma singleFlight_initial storage : singleFlight (initial storage).
Proof. reflexivity. Qed.

Lemma singleFlight_bound s : singleFlight s -> refreshCallsInFlight s <= 1.
Proof.
  unfold singleFlight, refreshOps, refreshCallsInFlight. intros Inv.
  pose proof (refreshCalls_le (pending s)).
  destruct (isRefreshing s); lia.
Qed.

(** While a refresh is unfinished the flag is set. *)
Lemma singleFlight_flag s i req originalRequest token k :
  singleFlight s ->
  pending s !! i = Some (req, KRefresh originalRequest token k) ->
  isRefreshing s = true.
Proof.
  unfold singleFlight, refreshOps. intros Inv Hi.
  rewrite (refreshesOf_delete _ _ _ _ Hi) in Inv. cbn [refreshes] in Inv.
  destruct (isRefreshing s); [reflexivity | lia].
Qed.

(** The refresh call goes through the same interceptors as every other
    request.  When the server answers it with 401 the interceptor finds
    [isRefreshing] set and puts the refresh call itself in the queue:
    [refreshToken] never returns, the flag stays set and nothing is on the
    wire for it. *)
Lemma refresh_call_unauthorized_is_queued
    s i req originalRequest token k message :
  singleFlight s ->
  pending s !! i = Some (req, KRefresh originalRequest token k) ->
  _retry req = false ->
  step s (Respond i (Failed (Some 401) message))
  = Some (mkState true
            (refreshSubscribers s
               ++ [(req, KRefresh originalRequest token k)])
            (localStorage s) (delete i (pending s)) (wire s) (settled s)).
Proof.
  intros Inv Hi Hretry.
  pose proof (singleFlight_flag _ _ _ _ _ _ Inv Hi) as Hflag.
  cbn [step]. rewrite Hi. cbn [responseInterceptor].
  rewrite responseError_enqueue by done.
  unfold onTokenRefreshed. state_simpl. by rewrite Hflag.
Qed.

(** The [catch] of the interceptor does not touch the queue: what waits
    there when [refreshToken] rejects goes on waiting. *)
Lemma refreshRejected_keeps_queue originalRequest token error id e s :
  refreshSubscribers
    (resume (KFallback originalRequest token error (KCaller id))
            (Rejected e) s)
  = refreshSubscribers s.
Proof. reflexivity. Qed.

(** *** Runs *)

Lemma run_app evs1 : forall evs2 s,
  run s (evs1 ++ evs2)
  = match run s evs1 with Some s' => run s' evs2 | None => None end.
Proof.
  induction evs1 as [|ev evs1 IH]; intros evs2 s; cbn [run app];
    [reflexivity|].
  destruct (step s ev); [apply IH | reflexivity].
Qed.

Lemma step_respond s i r req k :
  pending s !! i = Some (req, k) ->
  step s (Respond i r)
  = Some (responseInterceptor req r k (set_pending (delete i (pending s)) s)).
Proof. intros H. cbn [step]. by rewrite H. Qed.

Lemma requestInterceptor_token (storage : gmap string string) token c :
  storage !! "token" = Some token -> truthy token = true ->
  requestInterceptor storage c = authorize token c.
Proof. intros H1 H2. unfold requestInterceptor. by rewrite H1, H2. Qed.

(** The application makes its calls: they go on the wire in order, each
    with the token of the local storage. *)
Lemma run_calls calls : forall s,
  run s (callEvents calls)
  = Some (mkState (isRefreshing s) (refreshSubscribers s) (localStorage s)
            (pending s
               ++ map (fun c => (requestInterceptor (localStorage s) (snd c),
                                 KCaller (fst c))) calls)
            (wire s
               ++ map (fun c => requestInterceptor (localStorage s) (snd c))
                      calls)
            (settled s)).
Proof.
  induction calls as [|[id c] calls IH]; intros s; cbn [callEvents map run step].
  - rewrite !app_nil_r. by destruct s.
  - fold (callEvents calls). rewrite IH. unfold axiosInstance.
    cbn [isRefreshing refreshSubscribers localStorage pending wire settled
         fst snd].
    by rewrite <- !app_assoc.
Qed.

(** While a refresh is in flight, authentication failures of requests that
    were not retried yet go to the queue, in the order of the answers, and
    nothing goes on the wire. *)
Lemma run_enqueue status message flag q storage w done :
  is401 status = true ->
  forall (rest p subs : list (Request * Cont)),
  Forall (fun rk => _retry (fst rk) = false) rest ->
  flag = true ->
  run (mkState flag subs storage (rest ++ p) w done)
      (repeat (Respond 0 (Failed status message)) (length rest) ++ q)
  = run (mkState flag (subs ++ rest) storage p w done) q.
Proof.
  intros H401 rest. induction rest as [|[req k] rest IH];
    intros p subs Hretry ->; cbn [length repeat app].
  - by rewrite app_nil_r.
  - inversion Hretry as [|? ? Hreq Hrest]; subst. cbn [fst] in Hreq.
    cbn [run]. rewrite (step_respond _ 0 _ req k) by reflexivity.
    cbn [responseInterceptor pending set_pending delete list_delete
         isRefreshing refreshSubscribers localStorage wire settled].
    rewrite responseError_enqueue by (done || reflexivity).
    unfold onTokenRefreshed. state_simpl.
    rewrite IH by done. by rewrite <- app_assoc.
Qed.

(** Answers that are not authentication failures settle the promises of
    the application, one by one. *)
Lemma run_answers flag subs storage w q :
  forall (reqs : list (nat * Request)) (answers : list Response) p done,
  length answers = length reqs ->
  Forall notAuthFailure answers ->
  run (mkState flag subs storage
         (map (fun c => (snd c, KCaller (fst c))) reqs ++ p) w done)
      (answerEvents answers ++ q)
  = run (mkState flag subs storage p w
           (done ++ combine (map fst reqs) (map outcomeOf answers))) q.
Proof.
  induction reqs as [|[id req] reqs IH]; intros [|r answers] p done Hlen Hok;
    try discriminate; cbn [map answerEvents app fst snd combine].
  - by rewrite app_nil_r.
  - inversion Hok as [|? ? Hr Hl]; subst. injection Hlen as Hlen.
    cbn [run]. rewrite (step_respond _ 0 _ req (KCaller id)) by reflexivity.
    state_simpl. cbn [delete list_delete].
    fold (answerEvents answers).
    destruct r as [d | status message]; cbn [responseInterceptor outcomeOf].
    + cbn [resume]. state_simpl.
      rewrite IH by done. by rewrite <- app_assoc.
    + cbn [notAuthFailure] in Hr.
      rewrite responseError_surface by (by rewrite Hr).
      cbn [resume]. state_simpl.
      rewrite IH by done. by rewrite <- app_assoc.
Qed.

(** [N = S (length cs)] calls are on the wire with an expired token and
    all are answered with an authentication failure; the refresh call
    succeeds; the replayed calls are answered.  One refresh call went on
    the wire, every call was replayed once with the new token, and every
    promise has settled. *)
Lemma run_concurrent_failures storage token id0 req0 cs d answers :
  storage !! "token" = Some token -> truthy token = true ->
  _retry req0 = false -> Forall (fun c => _retry (snd c) = false) cs ->
  length answers = S (length cs) -> Forall notAuthFailure answers ->
  run (initial storage)
      (callEvents ((id0, req0) :: cs)
       ++ repeat (Respond 0 unauthorized) (S (length cs))
       ++ [Respond 0 (Fulfilled d)]
       ++ answerEvents answers)
  = Some (mkState false [] (<["token" := d_token d]> storage) []
            (map (fun c => authorize token (snd c)) ((id0, req0) :: cs)
             ++ [authorize token (refreshTokenRequest token)]
             ++ map (fun c => authorize (d_token d) (snd c)) cs
             ++ [set_retry true (authorize (d_token d) req0)])
            (combine (map fst cs ++ [id0]) (map outcomeOf answers))).
Proof.
  intros Htok Htruthy Hr0 Hrs Hlen Hans.
  rewrite run_app, run_calls. unfold initial. state_simpl.
  cbn [app map fst snd].
  rewrite (requestInterceptor_token _ _ _ Htok Htruthy).
  rewrite (map_ext _ (fun c => (authorize token (snd c), KCaller (fst c))))
    by (intros c; by rewrite (requestInterceptor_token _ _ _ Htok Htruthy)).
  rewrite (map_ext (fun c => requestInterceptor storage (snd c))
                   (fun c => authorize token (snd c)))
    by (intros c; by rewrite (requestInterceptor_token _ _ _ Htok Htruthy)).
  (* the first failure starts the refresh *)
  cbn [repeat app run].
  rewrite (step_respond _ 0 _ (authorize token req0) (KCaller id0))
    by reflexivity.
  state_simpl. cbn [delete list_delete responseInterceptor unauthorized].
  rewrite (responseError_refresh _ _ _ _ _ token) by done.
  unfold axiosInstance. state_simpl.
  rewrite (requestInterceptor_token _ _ _ Htok Htruthy).
  (* the other failures queue up behind it *)
  set (queued := map (fun c => (authorize token (snd c), KCaller (fst c))) cs).
  replace (length cs) with (length queued) by (unfold queued; apply length_map).
  unfold unauthorized.
  rewrite (run_enqueue (Some 401) None true);
    [ | reflexivity
      | unfold queued; rewrite Forall_map;
        eapply Forall_impl; [exact Hrs | intros c Hc; exact Hc]
      | reflexivity ].
  (* the refresh call succeeds *)
  cbn [app run].
  rewrite (step_respond _ 0 _ (authorize token (refreshTokenRequest token))
             (KRefresh (set_retry true (authorize token req0)) token
                       (KCaller id0))) by reflexivity.
  state_simpl. cbn [delete list_delete responseInterceptor resume].
  rewrite refreshResolved_eq. state_simpl. cbn [app].
  (* the replayed calls are answered *)
  unfold queued. rewrite !map_map. cbn [fst snd].
  rewrite authorize_set_retry.
  rewrite (map_ext _ (fun c => (authorize (d_token d) (snd c), KCaller (fst c))))
    by (intros c; by rewrite authorize_authorize).
  rewrite (map_ext (fun c => authorize (d_token d) (authorize token (snd c)))
                   (fun c => authorize (d_token d) (snd c)))
    by (intros c; by rewrite authorize_authorize).
  pose proof (run_answers false [] (<["token" := d_token d]> storage)
    ((authorize token req0 :: map (fun c => authorize token (snd c)) cs)
       ++ [authorize token (refreshTokenRequest token)]
       ++ map (fun c => authorize (d_token d) (snd c)) cs
       ++ [set_retry true (authorize (d_token d) req0)]) []
    (map (fun c => (fst c, authorize (d_token d) (snd c))) cs
       ++ [(id0, set_retry true (authorize (d_token d) req0))])
    answers [] []) as Hrun.
  rewrite !app_nil_r in Hrun. rewrite map_app, !map_map in Hrun.
  cbn [map fst snd] in Hrun.
  rewrite map_app, map_map in Hrun. cbn [map fst] in Hrun.
  cbn [app] in Hrun. rewrite <- !app_assoc. cbn [app].
  etrans; [apply Hrun; [|done] | reflexivity].
  rewrite length_app, length_map. cbn [length]. lia.
Qed.

End RestaurantPortalFacts.

(** * Admin portal: facts about the provider *)

Module AdminPortalFacts.
Import AdminPortal AdminPortalSpec.

Ltac state_simpl :=
  unfold set_pending, set_sessionStorage;
  cbn [sessionStorage user isAuthenticated pending wire settled fst snd].

Lemma admin_run_app evs1 : forall evs2 s,
  run s (evs1 ++ evs2)
  = match run s evs1 with Some s' => run s' evs2 | None => None end.
Proof.
  induction evs1 as [|ev evs1 IH]; intros evs2 s; cbn [run app];
    [reflexivity|].
  destruct (step s ev); [apply IH | reflexivity].
Qed.

Lemma admin_step_respond s i r req k :
  pending s !! i = Some (req, k) ->
  step s (Respond i r)
  = Some (responseInterceptor req r k (set_pending (delete i (pending s)) s)).
Proof. intros H. cbn [step]. by rewrite H. Qed.

Lemma admin_requestInterceptor_token (storage : gmap string Json) token c :
  storage !! "adminToken" = Some (JString token) -> truthy token = true ->
  requestInterceptor storage c = authorize token c.
Proof.
  intros H1 H2. unfold requestInterceptor. rewrite H1.
  cbn [truthy_json to_string]. by rewrite H2.
Qed.

(** *** Logout *)

Lemma clearSession_NoSession s : NoSession (clearSession s).
Proof.
  unfold NoSession, clearSession. state_simpl.
  repeat split; try reflexivity.
  - rewrite !lookup_delete_ne by done. apply lookup_delete_eq.
  - rewrite lookup_delete_ne by done. apply lookup_delete_eq.
  - apply lookup_delete_eq.
Qed.

(** Without a stored token [logout] is over at once. *)
Lemma logout_no_token k after s :
  sessionStorage s !! "adminToken" = None ->
  logout k after s = after (clearSession s).
Proof. intros H. unfold logout. by rewrite H. Qed.

(** With a stored token [logout] waits for the server. *)
Lemma logout_token k after s token :
  sessionStorage s !! "adminToken" = Some (JString token) ->
  truthy token = true ->
  logout k after s
  = mkState (sessionStorage s) (user s) (isAuthenticated s)
      (pending s ++ [(authorize token (logoutRequest token), KLogoutPost k)])
      (wire s ++ [authorize token (logoutRequest token)]) (settled s).
Proof.
  intros H1 H2. unfold logout. rewrite H1. cbn [truthy_json to_string].
  rewrite H2. unfold axios. by rewrite (admin_requestInterceptor_token _ token).
Qed.

(** Once there is no session, whatever is resumed with the result of
    [logout] or [refreshToken], or with an error, leaves it so. *)
Lemma resume_NoSession k : forall r s,
  notResponse r -> NoSession s -> NoSession (resume k r s).
Proof.
  induction k as [id | k IH | k IH | e k IH | k IH | c k IH | e k IH];
    intros r s Hr Hs; cbn [resume].
  - exact Hs.
  - destruct r as [[d| |]|e]; cbn [notResponse] in Hr; try contradiction;
      by apply IH.
  - assert (Hcatch : forall e, NoSession (refreshCatch e k (resume k) s)).
    { intros e. unfold refreshCatch.
      rewrite logout_no_token by apply Hs.
      apply IH; [exact I | apply clearSession_NoSession]. }
    destruct r as [[d| |]|e]; cbn [notResponse] in Hr; try contradiction;
      apply Hcatch.
  - by apply IH.
  - apply IH; [exact I | apply clearSession_NoSession].
  - destruct r as [v|e].
    + exact Hs.
    + rewrite logout_no_token by apply Hs.
      apply IH; [exact I | apply clearSession_NoSession].
  - by apply IH.
Qed.

(** When the server call of [logout] settles, one way or the other, the
    [finally] block runs and what follows keeps the session cleared. *)
Lemma logout_settles k r s : NoSession (resume (KLogoutPost k) r s).
Proof.
  cbn [resume]. apply resume_NoSession; [exact I | apply clearSession_NoSession].
Qed.

(** *** The interceptor refreshes and retries on every 401 *)

Lemma storeTokens_hasTokens d s :
  truthy (d_token d) = true -> truthy (d_refreshToken d) = true ->
  hasTokens (d_token d) (d_refreshToken d) (storeTokens d s).
Proof.
  intros H1 H2. unfold hasTokens, storeTokens. state_simpl.
  repeat split; try done.
  - rewrite lookup_insert_ne by done. apply lookup_insert_eq.
  - apply lookup_insert_eq.
Qed.

(** One round: the request is answered 401, the interceptor refreshes, the
    refresh succeeds, and the request is on the wire again. *)
Lemma round_refresh s req k d :
  hasTokens (d_token d) (d_refreshToken d) s ->
  pending s = [(authorize (d_token d) req, k)] ->
  run s [Respond 0 (Failed (Some 401) None); Respond 0 (Fulfilled d)]
  = Some (mkState (sessionStorage (storeTokens d s)) (user s)
            (isAuthenticated s) [(authorize (d_token d) req, k)]
            (wire s ++ [authorize (d_token d) (refreshRequest (d_refreshToken d));
                        authorize (d_token d) req])
            (settled s)).
Proof.
  intros (Ht & Hrt & Htt & Hrtt) Hp. cbn [run].
  rewrite (admin_step_respond _ 0 _ (authorize (d_token d) req) k)
    by (by rewrite Hp).
  rewrite Hp. cbn [delete list_delete responseInterceptor].
  unfold responseError. cbn [is401 Nat.eqb]. unfold refreshToken.
  state_simpl. rewrite Hrt. cbn [truthy_json to_string]. rewrite Htt || rewrite Hrtt.
  unfold axios. state_simpl.
  rewrite (admin_requestInterceptor_token _ _ _ Ht Htt). cbn [app].
  rewrite (admin_step_respond _ 0 _
             (authorize (d_token d) (refreshRequest (d_refreshToken d)))
             (KRefreshPost (KIntercept (authorize (d_token d) req) k)))
    by reflexivity.
  state_simpl. cbn [delete list_delete responseInterceptor resume].
  rewrite Htt. cbn [resume].
  destruct (storeTokens_hasTokens d
              (mkState (sessionStorage s) (user s) (isAuthenticated s) []
                 (wire s ++ [authorize (d_token d)
                               (refreshRequest (d_refreshToken d))])
                 (settled s)) Htt Hrtt) as (Ht' & _).
  rewrite Ht'. cbn [to_string_opt to_string]. unfold axios.
  rewrite (admin_requestInterceptor_token _ _ _ Ht' Htt).
  rewrite !authorize_authorize. unfold storeTokens. state_simpl.
  by rewrite <- app_assoc.
Qed.

(** However often the server rejects the access token, the interceptor
    refreshes and sends the request again; nothing reaches the caller. *)
Lemma run_rejectThenRefresh d req k n : forall s,
  hasTokens (d_token d) (d_refreshToken d) s ->
  pending s = [(authorize (d_token d) req, k)] ->
  exists s',
    run s (rejectThenRefresh d n) = Some s' /\
    hasTokens (d_token d) (d_refreshToken d) s' /\
    pending s' = [(authorize (d_token d) req, k)] /\
    wire s' = wire s
      ++ concat (repeat [authorize (d_token d)
                           (refreshRequest (d_refreshToken d));
                         authorize (d_token d) req] n) /\
    settled s' = settled s.
Proof.
  induction n as [|n IH]; intros s Htok Hp.
  - exists s. cbn. rewrite app_nil_r. done.
  - unfold rejectThenRefresh. cbn [repeat concat].
    rewrite admin_run_app, (round_refresh s req k d Htok Hp).
    destruct Htok as (Ht & Hrt & Htt & Hrtt).
    edestruct IH as (s' & Hrun & Htok' & Hp' & Hw & Hs);
      [ | | exists s'; split; [exact Hrun|] ].
    + apply (storeTokens_hasTokens d s Htt Hrtt).
    + reflexivity.
    + repeat split; try apply Htok'; try done.
      * rewrite Hw. state_simpl. by rewrite <- app_assoc.
Qed.

(** *** Logout against a server that rejects both tokens *)

Lemma round_logout s token rt k status message :
  hasTokens token rt s -> is401 status = false ->
  pending s = [(authorize token (logoutRequest token), KLogoutPost k)] ->
  run s [Respond 0 (Failed (Some 401) None); Respond 0 (Failed status message)]
  = Some (mkState (sessionStorage s) (user s) (isAuthenticated s)
            [(authorize token (logoutRequest token),
              KLogoutPost
                (KRefreshCatch (AxiosError status message)
                   (KIntercept (authorize token (logoutRequest token))
                      (KLogoutPost k))))]
            (wire s ++ [authorize token (refreshRequest rt);
                        authorize token (logoutRequest token)])
            (settled s)).
Proof.
  intros (Ht & Hrt & Htt & Hrtt) Hst Hp. cbn [run].
  rewrite (admin_step_respond _ 0 _ (authorize token (logoutRequest token))
             (KLogoutPost k)) by (by rewrite Hp).
  rewrite Hp. cbn [delete list_delete responseInterceptor].
  unfold responseError. cbn [is401 Nat.eqb]. unfold refreshToken.
  state_simpl. rewrite Hrt. cbn [truthy_json to_string]. rewrite Hrtt.
  unfold axios. state_simpl.
  rewrite (admin_requestInterceptor_token _ _ _ Ht Htt). cbn [app].
  rewrite (admin_step_respond _ 0 _ (authorize token (refreshRequest rt))
             (KRefreshPost (KIntercept (authorize token (logoutRequest token))
                                       (KLogoutPost k))))
    by reflexivity.
  state_simpl. cbn [delete list_delete responseInterceptor].
  unfold responseError. rewrite Hst. cbn [resume]. unfold refreshCatch.
  rewrite (logout_token _ _ _ token) by done. state_simpl.
  by rewrite <- app_assoc.
Qed.

(** As long as the server answers the logout call with 401 and fails the
    refresh call, [logout] goes round and never reaches its [finally]. *)
Lemma run_rejectThenFail token rt status message n : forall s k,
  hasTokens token rt s -> is401 status = false ->
  pending s = [(authorize token (logoutRequest token), KLogoutPost k)] ->
  exists s' k',
    run s (rejectThenFail status message n) = Some s' /\
    sessionStorage s' = sessionStorage s /\ user s' = user s /\
    isAuthenticated s' = isAuthenticated s /\ settled s' = settled s /\
    pending s' = [(authorize token (logoutRequest token), KLogoutPost k')].
Proof.
  induction n as [|n IH]; intros s k Htok Hst Hp.
  - exists s, k. done.
  - unfold rejectThenFail. cbn [repeat concat].
    rewrite admin_run_app, (round_logout s token rt k status message Htok Hst Hp).
    edestruct IH as (s' & k' & Hrun & H1 & H2 & H3 & H4 & H5);
      [ | exact Hst | | exists s', k'; split; [exact Hrun|] ].
    + exact Htok.
    + reflexivity.
    + done.
Qed.

End AdminPortalFacts.

(** * Customer portal: facts about the provider *)

Module CustomerPortalFacts.
Import CustomerPortal CustomerPortalSpec.

Local Open Scope Q_scope.

Lemma roundHalfEven_error (x : Q) :
  Qabs (inject_Z (roundHalfEven x) - x) <= 1 # 2.
Proof.
  unfold roundHalfEven.
  pose proof (Qfloor_le x) as H1. pose proof (Qlt_floor x) as H2.
  rewrite inject_Z_plus in H2. change (inject_Z 1) with 1 in H2.
  apply Qabs_Qle_condition.
  destruct (Qcompare_spec (x - inject_Z (Qfloor x)) (1 # 2)) as [H|H|H].
  - destruct (Z.even (Qfloor x));
      rewrite ?inject_Z_plus; change (inject_Z 1) with 1; split; lra.
  - split; lra.
  - rewrite inject_Z_plus. change (inject_Z 1) with 1. split; lra.
Qed.

Lemma roundHalfEven_integer (x : Q) (z : Z) :
  x == inject_Z z -> roundHalfEven x = z.
Proof.
  intros H. unfold roundHalfEven.
  assert (Qfloor x = z) as -> by (rewrite H; apply Qfloor_Z).
  destruct (Qcompare_spec (x - inject_Z z) (1 # 2)) as [H1|H1|H1];
    [lra | reflexivity | lra].
Qed.

Lemma pow2_pos (e : Z) : 0 < Qpower 2 e.
Proof. apply Qpower_0_lt. reflexivity. Qed.

Lemma pow2_plus (a b : Z) : Qpower 2 (a + b) == Qpower 2 a * Qpower 2 b.
Proof. apply Qpower_plus. discriminate. Qed.

Lemma pow2_le (a b : Z) : (a <= b)%Z -> Qpower 2 a <= Qpower 2 b.
Proof.
  intros H. replace b with (a + (b - a))%Z by lia. rewrite pow2_plus.
  assert (1 <= Qpower 2 (b - a)) as H1.
  { destruct (b - a)%Z as [|p|p] eqn:Hp; [done| |lia].
    change 2 with (inject_Z 2). rewrite <- Zpower_Qpower by lia.
    change 1 with (inject_Z 1). rewrite <- Zle_Qle.
    pose proof (Z.pow_pos_nonneg 2 (Z.pos p)). lia. }
  pose proof (pow2_pos a). nra.
Qed.

Lemma pow2_lt_inv (a b : Z) : Qpower 2 a < Qpower 2 b -> (a < b)%Z.
Proof.
  intros H. destruct (Z.lt_ge_cases a b) as [Hlt|Hge]; [exact Hlt|].
  pose proof (pow2_le b a Hge). lra.
Qed.

Lemma pow2_Z (n : Z) : (0 <= n)%Z -> Qpower 2 n == inject_Z (2 ^ n).
Proof. intros H. change 2 with (inject_Z 2). by rewrite Zpower_Qpower. Qed.

(** The rational between the powers of two that the sizes of its
    numerator and denominator give. *)
Lemma log2_bounds (a : Q) :
  0 < a ->
  Qpower 2 (Z.log2 (Qnum a) - Z.log2 (Zpos (Qden a)) - 1) < a /\
  a < Qpower 2 (Z.log2 (Qnum a) - Z.log2 (Zpos (Qden a)) + 1).
Proof.
  intros Ha. destruct a as [n d]. cbn [Qnum Qden].
  assert (0 < n)%Z as Hn by (unfold Qlt in Ha; cbn in Ha; lia).
  destruct (Z.log2_spec n Hn) as [Hn1 Hn2].
  destruct (Z.log2_spec (Zpos d) (Pos2Z.is_pos d)) as [Hd1 Hd2].
  pose proof (Z.log2_nonneg n) as Hln.
  pose proof (Z.log2_nonneg (Zpos d)) as Hld.
  set (ln := Z.log2 n) in *. set (ld := Z.log2 (Zpos d)) in *.
  rewrite Zle_Qle, <- pow2_Z in Hn1, Hd1 by lia.
  rewrite Zlt_Qlt, <- pow2_Z in Hn2, Hd2 by lia.
  replace (Z.succ ln) with (ln + 1)%Z in Hn2 by lia.
  replace (Z.succ ld) with (ld + 1)%Z in Hd2 by lia.
  rewrite pow2_plus in Hn2, Hd2. change (Qpower 2 1) with 2 in Hn2, Hd2.
  assert (Hq : (n # d) * inject_Z (Zpos d) == inject_Z n).
  { unfold Qeq, Qmult, inject_Z. cbn [Qnum Qden]. lia. }
  pose proof (pow2_pos ln) as Pn. pose proof (pow2_pos ld) as Pd.
  split.
  - assert (Hx : Qpower 2 (ln - ld - 1) * Qpower 2 ld * 2 == Qpower 2 ln).
    { rewrite <- pow2_plus. change 2 with (Qpower 2 1) at 2.
      rewrite <- pow2_plus. by replace (ln - ld - 1 + ld + 1)%Z with ln by lia. }
    pose proof (pow2_pos (ln - ld - 1)) as Px.
    set (X := Qpower 2 (ln - ld - 1)) in *. set (PN := Qpower 2 ln) in *.
    set (PD := Qpower 2 ld) in *. set (N := inject_Z n) in *.
    set (D := inject_Z (Zpos d)) in *. set (A := n # d) in *.
    nra.
  - assert (Hx : Qpower 2 (ln - ld + 1) * Qpower 2 ld == Qpower 2 ln * 2).
    { rewrite <- pow2_plus. change 2 with (Qpower 2 1) at 3.
      rewrite <- pow2_plus. by replace (ln - ld + 1 + ld)%Z with (ln + 1)%Z by lia. }
    pose proof (pow2_pos (ln - ld + 1)) as Px.
    set (X := Qpower 2 (ln - ld + 1)) in *. set (PN := Qpower 2 ln) in *.
    set (PD := Qpower 2 ld) in *. set (N := inject_Z n) in *.
    set (D := inject_Z (Zpos d)) in *. set (A := n # d) in *.
    nra.
Qed.

Lemma exponentOf_small (a : Q) :
  0 < a -> a < Qpower 2 53 -> (exponentOf a <= 0)%Z.
Proof.
  intros Ha Hlt. unfold exponentOf.
  destruct (log2_bounds a Ha) as [Hlo _].
  set (e0 := (Z.log2 (Qnum a) - Z.log2 (Zpos (Qden a)) - 52)%Z) in *.
  replace (Z.log2 (Qnum a) - Z.log2 (Zpos (Qden a)) - 1)%Z
    with (e0 + 51)%Z in Hlo by lia.
  destruct (Qle_bool (Qpower 2 (e0 + 52)) a) eqn:Ht.
  - apply Qle_bool_iff in Ht.
    assert (e0 + 52 < 53)%Z by (apply pow2_lt_inv; lra). lia.
  - assert (e0 + 51 < 53)%Z by (apply pow2_lt_inv; lra). lia.
Qed.

Lemma exponentOf_ulp (a : Q) :
  0 < a ->
  exponentOf a = (-1074)%Z \/
  Qpower 2 (exponentOf a) * Qpower 2 52 <= a.
Proof.
  intros Ha. unfold exponentOf.
  destruct (log2_bounds a Ha) as [Hlo _].
  set (e0 := (Z.log2 (Qnum a) - Z.log2 (Zpos (Qden a)) - 52)%Z) in *.
  replace (Z.log2 (Qnum a) - Z.log2 (Zpos (Qden a)) - 1)%Z
    with (e0 + 51)%Z in Hlo by lia.
  set (e := if Qle_bool (Qpower 2 (e0 + 52)) a then e0 else (e0 - 1)%Z).
  destruct (Z.max_spec e (-1074)) as [[_ ->] | [_ ->]]; [by left|].
  right. rewrite <- pow2_plus. subst e.
  destruct (Qle_bool (Qpower 2 (e0 + 52)) a) eqn:Ht.
  - by apply Qle_bool_iff in Ht.
  - replace (e0 - 1 + 52)%Z with (e0 + 51)%Z by lia. lra.
Qed.

Lemma rounded_integer (a : Q) (z : Z) :
  a == inject_Z z -> (0 < z < 2 ^ 53)%Z -> rounded a == a.
Proof.
  intros Ha Hz. unfold rounded.
  assert (0 < a) as Hpos.
  { rewrite Ha. change 0 with (inject_Z 0). rewrite <- Zlt_Qlt. lia. }
  assert (a < Qpower 2 53) as Hlt.
  { rewrite Ha, pow2_Z by lia. rewrite <- Zlt_Qlt. lia. }
  pose proof (exponentOf_small a Hpos Hlt) as He.
  set (e := exponentOf a) in *.
  assert (Hinv : Qpower 2 e * Qpower 2 (- e) == 1).
  { rewrite <- pow2_plus. by replace (e + - e)%Z with 0%Z by lia. }
  pose proof (pow2_pos e) as Pe.
  assert (Hdiv : a / Qpower 2 e == inject_Z (z * 2 ^ (- e))).
  { rewrite inject_Z_mult, <- pow2_Z, <- Ha by lia.
    set (P := Qpower 2 e) in *. set (P' := Qpower 2 (- e)) in *.
    apply (Qmult_inj_r _ _ P); [lra|].
    unfold Qdiv. rewrite <- !Qmult_assoc.
    rewrite (Qmult_comm (/ P) P), Qmult_inv_r by lra.
    rewrite (Qmult_comm P' P), Hinv. reflexivity. }
  rewrite (roundHalfEven_integer _ _ Hdiv).
  rewrite inject_Z_mult, <- pow2_Z, <- Ha by lia.
  rewrite <- Qmult_assoc, (Qmult_comm (Qpower 2 (- e))), Hinv. ring.
Qed.

Lemma rounded_error (a : Q) :
  0 < a ->
  Qabs (rounded a - a) <= Qpower 2 (exponentOf a) * (1 # 2).
Proof.
  intros Ha. unfold rounded.
  set (P := Qpower 2 (exponentOf a)). pose proof (pow2_pos (exponentOf a)) as HP.
  fold P in HP.
  pose proof (roundHalfEven_error (a / P)) as H.
  set (m := inject_Z (roundHalfEven (a / P))) in *.
  assert (Ha' : a == a / P * P) by (field; lra).
  apply Qabs_Qle_condition in H as [H1 H2].
  apply Qabs_Qle_condition.
  set (x := a / P) in *. split; nra.
Qed.

(** Rounding a rational below 2^53 / 1000 moves it by less than 1/1000. *)
Lemma rounded_near (a : Q) :
  0 < a -> a * 1000 < Qpower 2 53 ->
  Qabs (rounded a - a) < 1 # 1000.
Proof.
  intros Ha Hlt. pose proof (rounded_error a Ha) as H.
  eapply Qle_lt_trans; [exact H|].
  destruct (exponentOf_ulp a Ha) as [-> | He].
  - vm_compute. reflexivity.
  - change (Qpower 2 53) with (Qpower 2 52 * 2) in Hlt.
    pose proof (pow2_pos (exponentOf a)) as HP.
    pose proof (pow2_pos 52) as HQ.
    set (P := Qpower 2 (exponentOf a)) in *. set (T := Qpower 2 52) in *.
    assert (1 <= T) by (subst T; vm_compute; discriminate).
    nra.
Qed.

Lemma Qfloor_unique (x : Q) (k : Z) :
  inject_Z k <= x -> x < inject_Z (k + 1) -> Qfloor x = k.
Proof.
  intros H1 H2. pose proof (Qfloor_le x) as H3.
  pose proof (Qlt_floor x) as H4.
  assert (k < Qfloor x + 1)%Z by (rewrite Zlt_Qlt; lra).
  assert (Qfloor x < k + 1)%Z by (rewrite Zlt_Qlt; lra).
  lia.
Qed.

Lemma round64_finite (q : Q) (r : Q) :
  ~ q == 0 -> rounded (Qabs q) < Qpower 2 1024 ->
  r = (if Qlt_le_dec q 0 then - rounded (Qabs q) else rounded (Qabs q)) ->
  exists r', round64 q = Num r' /\ r' == r.
Proof.
  intros Hq Hlt ->. unfold round64.
  assert (Qle_bool (Qpower 2 1024) (rounded (Qabs q)) = false) as Hov.
  { destruct (Qle_bool _ _) eqn:H; [|done].
    apply Qle_bool_iff in H. lra. }
  destruct (Qcompare_spec q 0) as [H|H|H]; [done| |]; rewrite Hov;
    eexists; (split; [reflexivity|]); rewrite Qred_correct;
    destruct (Qlt_le_dec q 0); try reflexivity; lra.
Qed.

Lemma round64_integer (q : Q) (z : Z) :
  q == inject_Z z -> (Z.abs z < 2 ^ 53)%Z ->
  exists r, round64 q = Num r /\ r == inject_Z z.
Proof.
  intros Hq Hz. destruct (Z.eq_dec z 0%Z) as [-> | Hne].
  - exists 0. split; [|reflexivity]. unfold round64.
    change (inject_Z 0) with 0 in Hq.
    by destruct (Qcompare_spec q 0) as [H|H|H]; [|lra|lra].
  - assert (Habs : Qabs q == inject_Z (Z.abs z))
      by (rewrite Hq; reflexivity).
    pose proof (rounded_integer _ _ Habs ltac:(lia)) as Hr.
    assert (inject_Z (Z.abs z) < Qpower 2 1024) as Hbig.
    { eapply Qlt_le_trans; [|apply (pow2_le 53 1024); lia].
      rewrite pow2_Z by lia. rewrite <- Zlt_Qlt. lia. }
    assert (~ q == 0) as Hq0.
    { rewrite Hq. change 0 with (inject_Z 0). rewrite inject_Z_injective.
      lia. }
    assert (rounded (Qabs q) < Qpower 2 1024) as Hfin
      by (rewrite Hr, Habs; exact Hbig).
    destruct (round64_finite q _ Hq0 Hfin eq_refl) as (r & Hr1 & Hr2).
    exists r. split; [exact Hr1|]. rewrite Hr2.
    destruct (Qlt_le_dec q 0) as [Hneg|Hpos]; rewrite Hr.
    + rewrite Qabs_neg by lra. lra.
    + rewrite Qabs_pos by lra. exact Hq.
Qed.

Lemma round64_near (q : Q) :
  ~ q == 0 -> Qabs q * 1000 < Qpower 2 53 ->
  exists r, round64 q = Num r /\ Qabs (r - q) < 1 # 1000.
Proof.
  intros Hq Hlt.
  assert (0 < Qabs q) as Hpos.
  { destruct (Qlt_le_dec q 0) as [Hneg|Hnn].
    - rewrite Qabs_neg by lra. lra.
    - rewrite Qabs_pos by lra. destruct (Qlt_le_dec 0 q) as [H|H]; [lra|].
      destruct Hq. lra. }
  pose proof (rounded_near _ Hpos Hlt) as Hn.
  apply Qabs_Qlt_condition in Hn as [Hn1 Hn2].
  assert (rounded (Qabs q) < Qpower 2 1024) as Hbig.
  { eapply Qlt_le_trans; [|apply (pow2_le 53 1024); lia]. lra. }
  destruct (round64_finite q _ Hq Hbig eq_refl) as (r & Hr1 & Hr2).
  exists r. split; [exact Hr1|]. rewrite Hr2.
  apply Qabs_Qlt_condition. set (R := rounded (Qabs q)) in *.
  destruct (Qlt_le_dec q 0) as [Hneg|Hnn].
  - pose proof (Qabs_neg q ltac:(lra)). split; lra.
  - pose proof (Qabs_pos q Hnn). split; lra.
Qed.

Lemma js_sub_integers (d : Q) (D now : Z) :
  d == inject_Z D -> (Z.abs (D - now) < 2 ^ 53)%Z ->
  exists r, js_sub (Num d) (Num (inject_Z now)) = Num r /\
            r == inject_Z (D - now).
Proof.
  intros Hd Hlt. cbn [js_sub]. apply round64_integer; [|exact Hlt].
  rewrite Hd. unfold Zminus. rewrite inject_Z_plus, inject_Z_opp. reflexivity.
Qed.

Lemma js_div_1000 (d : Q) (D : Z) :
  d == inject_Z D -> (Z.abs D < 2 ^ 53)%Z ->
  exists r, js_div (Num d) (Num 1000) = Num r /\
            Qfloor r = (D / 1000)%Z.
Proof.
  intros Hd Hlt. cbn [js_div]. change (Qeq_bool 1000 0) with false. cbv iota.
  pose proof (Z.div_mod D 1000 ltac:(lia)) as Hdm.
  pose proof (Z.mod_pos_bound D 1000 ltac:(lia)) as Hm.
  set (k := (D / 1000)%Z) in *. set (t := (D mod 1000)%Z) in *.
  assert (Hq : d / 1000 == inject_Z k + inject_Z t * (1 # 1000)).
  { rewrite Hd, Hdm, inject_Z_plus, inject_Z_mult.
    change (inject_Z 1000) with 1000. field. }
  destruct (Z.eq_dec t 0%Z) as [Ht | Ht].
  - destruct (round64_integer (d / 1000) k) as (r & Hr1 & Hr2).
    + rewrite Hq, Ht. change (inject_Z 0) with 0. field.
    + lia.
    + exists r. split; [exact Hr1|]. rewrite Hr2. apply Qfloor_Z.
  - assert (1 <= inject_Z t <= 999) as [Ht1 Ht2].
    { change 1 with (inject_Z 1). change 999 with (inject_Z 999).
      rewrite <- !Zle_Qle. lia. }
    destruct (round64_near (d / 1000)) as (r & Hr1 & Hr2).
    + rewrite Hq. intros H0.
      assert (inject_Z (1000 * k + t) == 0) as H1.
      { rewrite inject_Z_plus, inject_Z_mult.
        change (inject_Z 1000) with 1000. lra. }
      change 0 with (inject_Z 0) in H1. rewrite inject_Z_injective in H1.
      lia.
    + assert (Qabs (d / 1000) * 1000 == inject_Z (Z.abs D)) as ->.
      { rewrite Hd. change 1000 with (inject_Z 1000) at 1.
        unfold Qdiv. rewrite Qabs_Qmult.
        change (Qabs (inject_Z D)) with (inject_Z (Z.abs D)).
        change (Qabs (/ inject_Z 1000)) with (/ 1000). field. }
      rewrite pow2_Z by lia. rewrite <- Zlt_Qlt. exact Hlt.
    + exists r. split; [exact Hr1|].
      apply Qabs_Qlt_condition in Hr2 as [Hr2 Hr3].
      apply Qfloor_unique; rewrite ?inject_Z_plus;
        change (inject_Z 1) with 1; lra.
Qed.

Lemma js_gt_zero (z : Z) : js_gt (Num (inject_Z z)) (Num 0) = (0 <? z)%Z.
Proof.
  unfold js_gt, Qcompare, inject_Z. cbn [Qnum Qden].
  rewrite Z.mul_1_r. change (0 * 1)%Z with 0%Z. unfold Z.ltb.
  rewrite (Z.compare_antisym z 0). by destruct (z ?= 0)%Z.
Qed.

Lemma shown_whole_milliseconds (v : JsNumber) (d : Q) (D now : Z) :
  js_mul v (Num 1000) = Num d -> d == inject_Z D ->
  (0 <= D < 2 ^ 53)%Z -> (0 <= now < 2 ^ 53)%Z ->
  shown v now = Num (inject_Z (Z.max 0 ((D - now) / 1000))).
Proof.
  intros Hmul Hd HD Hnow. unfold shown. rewrite Hmul.
  destruct (js_sub_integers d D now Hd ltac:(lia)) as (r1 & -> & Hr1).
  destruct (js_div_1000 r1 (D - now) Hr1 ltac:(lia)) as (r2 & -> & Hr2).
  cbn [Math_floor]. rewrite Hr2, js_gt_zero.
  destruct (Z.ltb_spec 0 ((D - now) / 1000)) as [H|H].
  - by rewrite Z.max_r by lia.
  - by rewrite Z.max_l by lia.
Qed.

Lemma shown_never_negative (v : JsNumber) (now : Z) :
  shown v now = Infinity false \/
  exists z, shown v now = Num (inject_Z z) /\ (0 <= z)%Z.
Proof.
  unfold shown.
  destruct (js_div (js_sub (js_mul v (Num 1000)) (Num (inject_Z now)))
              (Num 1000)) as [|x|[|]]; cbn [Math_floor].
  - right. exists 0%Z. split; [reflexivity|lia].
  - right. rewrite js_gt_zero.
    destruct (Z.ltb_spec 0 (Qfloor x)).
    + eexists. split; [reflexivity|lia].
    + exists 0%Z. split; [reflexivity|lia].
  - right. exists 0%Z. split; [reflexivity|lia].
  - by left.
Qed.


(** The rounding shows where the doubles are coarse: an expiry claim with a
    fraction that is not a double, an expiry beyond 2^53 ms, for which the
    clock makes no difference or a second counts twice. *)
Example shown_rounding :
  shown (round64 (17000000001 # 10)) 1699999999100 = Num 1 /\
  shown (round64 (inject_Z (2 ^ 53))) 1 = Num (inject_Z (2 ^ 53)) /\
  shown (round64 10000000000000000) 0 = Num 10000000000000000 /\
  shown (round64 10000000000000000) 1000 = Num 10000000000000000 /\
  shown (round64 9100000000000000) 0 = Num 9100000000000000 /\
  shown (round64 9100000000000000) 1000 = Num 9099999999999998.
Proof. repeat split; vm_compute; reflexivity. Qed.

Lemma checkTokenExpiration_shown atob JSON_parse StringToNumber ObjectToNumber
    token now :
  checkTokenExpiration atob JSON_parse StringToNumber ObjectToNumber token now
  = match decodeExp atob JSON_parse token with
    | Some exp =>
        Some (shown (ToNumber StringToNumber ObjectToNumber exp) now)
    | None => None
    end.
Proof. reflexivity. Qed.



End CustomerPortalFacts.

(** * The properties of the specification *)

(** ** Attaching the credential *)

(** C6. [attachCredential] is the request interceptor, a function of the
    stored token and the outgoing request.  With a stored token it returns
    the request with the header [Authorization: Bearer <token>] and every
    other header and field as it was; without one (no token, or the empty
    string) it returns the request as it is.  It is total: there is no
    failure.  This holds for the interceptor of the restaurant portal (key
    [token] of the local storage) and for the one of the admin portal (key
    [adminToken] of the session storage). *)
Theorem attachCredential_bearer_or_unchanged (config : Request) :
  (forall (storage : gmap string string) token,
     storage !! "token" = Some token -> token <> "" ->
     let config' := RestaurantPortal.requestInterceptor storage config in
     headers config' !! "Authorization" = Some (Bearer token) /\
     (forall h, h <> "Authorization" ->
                headers config' !! h = headers config !! h) /\
     url config' = url config /\ method config' = method config /\
     data config' = data config /\ _retry config' = _retry config) /\
  (forall storage : gmap string string,
     truthy_opt (storage !! "token") = false ->
     RestaurantPortal.requestInterceptor storage config = config) /\
  (forall (storage : gmap string AdminPortal.Json) token,
     storage !! "adminToken" = Some token ->
     AdminPortal.truthy_json token = true ->
     let config' := AdminPortal.requestInterceptor storage config in
     headers config' !! "Authorization"
       = Some (Bearer (AdminPortal.to_string token)) /\
     (forall h, h <> "Authorization" ->
                headers config' !! h = headers config !! h) /\
     url config' = url config /\ method config' = method config /\
     data config' = data config /\ _retry config' = _retry config) /\
  (forall storage : gmap string AdminPortal.Json,
     match storage !! "adminToken" with
     | Some token => AdminPortal.truthy_json token
     | None => false
     end = false ->
     AdminPortal.requestInterceptor storage config = config).
Proof.
  assert (Hauth : forall t c,
    headers (authorize t c) !! "Authorization" = Some (Bearer t) /\
    (forall h, h <> "Authorization" ->
               headers (authorize t c) !! h = headers c !! h) /\
    url (authorize t c) = url c /\ method (authorize t c) = method c /\
    data (authorize t c) = data c /\ _retry (authorize t c) = _retry c).
  { intros t c. cbn [authorize set_headers headers url method data _retry].
    split; [apply lookup_insert_eq|].
    split; [|done]. intros h Hh. by rewrite lookup_insert_ne. }
  split; [|split; [|split]].
  - intros storage token Hlookup Htoken. cbv zeta.
    unfold RestaurantPortal.requestInterceptor. rewrite Hlookup.
    apply truthy_spec in Htoken. rewrite Htoken. apply Hauth.
  - intros storage H. unfold RestaurantPortal.requestInterceptor.
    destruct (storage !! "token") as [t|]; [|reflexivity].
    cbn [truthy_opt] in H. by rewrite H.
  - intros storage token Hlookup Htoken. cbv zeta.
    unfold AdminPortal.requestInterceptor. rewrite Hlookup, Htoken.
    apply Hauth.
  - intros storage H. unfold AdminPortal.requestInterceptor.
    destruct (storage !! "adminToken") as [t|]; [|reflexivity].
    by rewrite H.
Qed.

Lemma attachCredential_bearer_or_unchanged_witness :
  headers (RestaurantPortal.requestInterceptor Samples.restaurantStorage
             Samples.ordersRequest) !! "Authorization"
  = Some "Bearer t0" /\
  headers (RestaurantPortal.requestInterceptor Samples.restaurantStorage
             Samples.ordersRequest) !! "Content-Type"
  = Some "application/json" /\
  RestaurantPortal.requestInterceptor ∅ Samples.ordersRequest
  = Samples.ordersRequest /\
  headers (AdminPortal.requestInterceptor Samples.adminStorage
             Samples.ordersRequest) !! "Authorization"
  = Some "Bearer t0".
Proof.
  destruct (attachCredential_bearer_or_unchanged Samples.ordersRequest)
    as (Hr & Hrn & Ha & _).
  destruct (Hr Samples.restaurantStorage "t0") as (H1 & H2 & _);
    [reflexivity | discriminate |].
  destruct (Ha Samples.adminStorage (AdminPortal.JString "t0")) as (H3 & _);
    [reflexivity | reflexivity |].
  split; [exact H1|]. split.
  - rewrite H2 by discriminate. reflexivity.
  - split; [apply Hrn; reflexivity | exact H3].
Defined.

(** ** The session timer *)



(** ** Authentication state of the customer portal *)

(** C10. In the customer portal [isAuthenticated] is true exactly when a
    token and a user profile are both present.  On start-up with a persisted
    token the provider is not authenticated, and stays so while the profile
    fetch (GET /auth/me) is on the wire; when the fetch succeeds the
    provider is authenticated with the fetched profile; when it fails the
    persisted token is removed and there is no session. *)
Theorem isAuthenticated_token_and_profile :
  (forall s,
     CustomerPortal.isAuthenticated s = true <->
     exists t u, CustomerPortal.token s = Some t /\ t <> "" /\
                 CustomerPortal.user s = Some u) /\
  (forall (storage : gmap string string) t,
     storage !! "token" = Some t -> t <> "" ->
     let s0 := CustomerPortal.initial storage in
     let s1 := CustomerPortal.loadUser s0 in
     CustomerPortal.isAuthenticated s0 = false /\
     CustomerPortal.pending s1
       = [(CustomerPortal.meRequest t, CustomerPortal.KLoadUser)] /\
     CustomerPortal.isAuthenticated s1 = false /\
     (forall d, exists s2,
        CustomerPortal.step s1 (CustomerPortal.Respond 0 (Fulfilled d))
          = Some s2 /\
        CustomerPortal.isAuthenticated s2 = true /\
        CustomerPortal.user s2 = Some (d_user d) /\
        CustomerPortal.token s2 = Some t) /\
     (forall status message, exists s2,
        CustomerPortal.step s1
          (CustomerPortal.Respond 0 (Failed status message)) = Some s2 /\
        CustomerPortal.isAuthenticated s2 = false /\
        CustomerPortal.NoSession s2)).
Proof.
  split.
  - intros s. unfold CustomerPortal.isAuthenticated.
    destruct (CustomerPortal.token s) as [t|];
      destruct (CustomerPortal.user s) as [u|]; cbn [truthy_opt].
    + rewrite andb_true_r, truthy_spec. split.
      * intros H. by exists t, u.
      * intros (t' & u' & Heq & H & _). by injection Heq as ->.
    + rewrite andb_false_r. split; [discriminate|].
      intros (t' & u' & _ & _ & H). discriminate.
    + split; [discriminate|]. intros (t' & u' & H & _). discriminate.
    + split; [discriminate|]. intros (t' & u' & H & _). discriminate.
  - intros storage t Hlookup Ht. cbv zeta. apply truthy_spec in Ht.
    unfold CustomerPortal.loadUser, CustomerPortal.initial,
      CustomerPortal.isAuthenticated.
    cbn [CustomerPortal.token CustomerPortal.user]. rewrite Hlookup, Ht.
    unfold CustomerPortal.axios.
    cbn [CustomerPortal.pending CustomerPortal.token CustomerPortal.user
         CustomerPortal.localStorage truthy_opt app andb].
    rewrite Ht. repeat split.
    + intros d. eexists. split; [reflexivity|].
      unfold CustomerPortal.set_pending.
      cbn [CustomerPortal.resume CustomerPortal.token CustomerPortal.user
           truthy_opt].
      by rewrite Ht.
    + intros status message. eexists. split; [reflexivity|].
      unfold CustomerPortal.set_pending, CustomerPortal.NoSession.
      cbn [CustomerPortal.resume CustomerPortal.token CustomerPortal.user
           CustomerPortal.localStorage truthy_opt andb].
      repeat split. apply lookup_delete_eq.
Qed.

Lemma isAuthenticated_token_and_profile_witness :
  CustomerPortal.isAuthenticated
    (CustomerPortal.loadUser
       (CustomerPortal.initial Samples.customerStorage)) = false /\
  (exists s2,
     CustomerPortal.step
       (CustomerPortal.loadUser
          (CustomerPortal.initial Samples.customerStorage))
       (CustomerPortal.Respond 0 Samples.serverError) = Some s2 /\
     CustomerPortal.isAuthenticated s2 = false /\
     CustomerPortal.NoSession s2).
Proof.
  destruct isAuthenticated_token_and_profile as (_ & H).
  destruct (H Samples.customerStorage "aa.exp.cc")
    as (_ & _ & H1 & _ & H2); [reflexivity | discriminate |].
  split; [exact H1 | exact (H2 (Some 500) None)].
Defined.

(** ** The refresh queue of the restaurant portal *)

Section RestaurantPortalClaims.
Import RestaurantPortal RestaurantPortalSpec RestaurantPortalFacts.

(** C4. After a successful refresh every request queued behind it is
    replayed with the new access token, whatever header it carried, and the
    queued requests go on the wire in the order of their arrival in the
    queue (an authentication failure during a refresh joins the end of the
    queue), before the request that started the refresh.  The order in
    which the replayed requests complete is open: the network may answer
    any request that is on the wire. *)
Theorem queued_requests_replayed_in_order_with_new_token :
  (forall s i req k message,
     pending s !! i = Some (req, k) -> _retry req = false ->
     isRefreshing s = true ->
     exists s',
       step s (Respond i (Failed (Some 401) message)) = Some s' /\
       refreshSubscribers s' = refreshSubscribers s ++ [(req, k)]) /\
  (forall s i req originalRequest token k d,
     pending s !! i = Some (req, KRefresh originalRequest token k) ->
     exists s',
       step s (Respond i (Fulfilled d)) = Some s' /\
       localStorage s' !! "token" = Some (d_token d) /\
       refreshSubscribers s' = [] /\
       wire s' = wire s
         ++ map (fun cb => authorize (d_token d) (fst cb))
                (refreshSubscribers s)
         ++ [authorize (d_token d) originalRequest] /\
       pending s' = delete i (pending s)
         ++ map (fun cb => (authorize (d_token d) (fst cb), snd cb))
                (refreshSubscribers s)
         ++ [(authorize (d_token d) originalRequest, k)] /\
       (forall c,
          In c (map (fun cb => authorize (d_token d) (fst cb))
                    (refreshSubscribers s)) ->
          headers c !! "Authorization" = Some (Bearer (d_token d)))) /\
  (forall s i r, i < length (pending s) ->
     exists s', step s (Respond i r) = Some s').
Proof.
  split; [|split].
  - intros s i req k message Hi Hretry Hflag. eexists.
    rewrite (step_respond _ _ _ _ _ Hi). split; [reflexivity|].
    cbn [responseInterceptor].
    rewrite responseError_enqueue by done. reflexivity.
  - intros s i req orig token k d Hi. eexists.
    rewrite (step_respond _ _ _ _ _ Hi). split; [reflexivity|].
    cbn [responseInterceptor resume]. rewrite refreshResolved_eq.
    state_simpl. split; [apply lookup_insert_eq|].
    repeat split. intros c Hc. apply in_map_iff in Hc as (cb & <- & _).
    cbn [authorize set_headers headers]. apply lookup_insert_eq.
  - intros s i r Hi. apply lookup_lt_is_Some in Hi as [[req k] Hi].
    eexists. apply (step_respond _ _ _ _ _ Hi).
Qed.

Lemma queued_requests_replayed_in_order_with_new_token_witness :
  exists s',
    run (initial Samples.restaurantStorage)
      [Call 1 Samples.ordersRequest; Call 2 Samples.menuRequest;
       Respond 0 unauthorized; Respond 0 unauthorized] = Some s' /\
    refreshSubscribers s'
      = [(authorize "t0" Samples.menuRequest, KCaller 2)] /\
    exists s'',
      step s' (Respond 0 (Fulfilled (Samples.tokens "t1" "r1"))) = Some s'' /\
      wire s'' = wire s'
        ++ [authorize "t1" (authorize "t0" Samples.menuRequest);
            authorize "t1"
              (set_retry true (authorize "t0" Samples.ordersRequest))].
Proof.
  destruct queued_requests_replayed_in_order_with_new_token
    as (Henq & Hdrain & _).
  destruct (Henq
    (mkState true [] Samples.restaurantStorage
       [(authorize "t0" Samples.menuRequest, KCaller 2);
        (authorize "t0" (refreshTokenRequest "t0"),
         KRefresh (set_retry true (authorize "t0" Samples.ordersRequest))
                  "t0" (KCaller 1))]
       [authorize "t0" Samples.ordersRequest;
        authorize "t0" Samples.menuRequest;
        authorize "t0" (refreshTokenRequest "t0")] [])
    0 (authorize "t0" Samples.menuRequest) (KCaller 2) None)
    as (s1 & Hs1 & Hq1); [reflexivity | reflexivity | reflexivity |].
  exists s1. split; [exact Hs1|]. split; [exact Hq1|].
  injection Hs1 as <-.
  destruct (Hdrain
    (mkState true [(authorize "t0" Samples.menuRequest, KCaller 2)]
       Samples.restaurantStorage
       [(authorize "t0" (refreshTokenRequest "t0"),
         KRefresh (set_retry true (authorize "t0" Samples.ordersRequest))
                  "t0" (KCaller 1))]
       [authorize "t0" Samples.ordersRequest;
        authorize "t0" Samples.menuRequest;
        authorize "t0" (refreshTokenRequest "t0")] [])
    0 (authorize "t0" (refreshTokenRequest "t0"))
    (set_retry true (authorize "t0" Samples.ordersRequest)) "t0" (KCaller 1)
    (Samples.tokens "t1" "r1"))
    as (s2 & Hs2 & _ & _ & Hw & _); [reflexivity|].
  exists s2. split; [exact Hs2 | exact Hw].
Defined.

(** C9. In [UserService], when the refresh call fails (the error reaches
    [refreshToken], so it is not one the interceptor holds back) and the
    [getCurrentUser] call that follows, sent with the old token, succeeds,
    [refreshToken] returns the old token: the interceptor goes on as after a
    refresh that returned it.  The stored token is the old one, the flag is
    reset, the original request is replayed with the old token, and no
    error reaches a caller. *)
Theorem refresh_fallback_returns_old_token
    s i req originalRequest token k status message d :
  pending s !! i = Some (req, KRefresh originalRequest token k) ->
  is401 status = false ->
  localStorage s !! "token" = Some token -> token <> "" ->
  exists s1 s2,
    step s (Respond i (Failed status message)) = Some s1 /\
    pending s1 = delete i (pending s)
      ++ [(authorize token meRequest,
           KFallback originalRequest token (AxiosError status message) k)] /\
    wire s1 = wire s ++ [authorize token meRequest] /\
    settled s1 = settled s /\ localStorage s1 = localStorage s /\
    step s1 (Respond (length (pending s) - 1) (Fulfilled d)) = Some s2 /\
    s2 = refreshResolved originalRequest token k
           (set_pending (delete i (pending s)) s1) /\
    localStorage s2 !! "token" = Some token /\
    isRefreshing s2 = false /\
    settled s2 = settled s /\
    pending s2 = delete i (pending s)
      ++ map (fun cb => (authorize token (fst cb), snd cb))
             (refreshSubscribers s)
      ++ [(authorize token originalRequest, k)].
Proof.
  intros Hi Hst Htok Htruthy. apply truthy_spec in Htruthy.
  eexists. eexists.
  rewrite (step_respond _ _ _ _ _ Hi). split; [reflexivity|].
  cbn [responseInterceptor].
  rewrite responseError_surface by (by rewrite Hst).
  cbn [resume]. unfold axiosInstance. state_simpl.
  rewrite (requestInterceptor_token _ _ _ Htok Htruthy).
  do 4 (split; [reflexivity|]).
  assert (Hlen : length (pending s) - 1 = length (delete i (pending s))).
  { rewrite length_delete; [reflexivity | by rewrite Hi]. }
  rewrite Hlen.
  rewrite (step_respond _ (length (delete i (pending s))) _
             (authorize token meRequest)
             (KFallback originalRequest token (AxiosError status message) k))
    by (state_simpl; by apply list_lookup_middle).
  state_simpl. split; [reflexivity|].
  cbn [responseInterceptor resume]. rewrite delete_middle, app_nil_r.
  split; [reflexivity|].
  rewrite refreshResolved_eq. state_simpl.
  split; [apply lookup_insert_eq|]. done.
Qed.

Lemma refresh_fallback_returns_old_token_witness :
  exists s2,
    run (mkState true [] Samples.restaurantStorage
           [(authorize "t0" (refreshTokenRequest "t0"),
             KRefresh (set_retry true (authorize "t0" Samples.ordersRequest))
                      "t0" (KCaller 1))]
           [authorize "t0" Samples.ordersRequest;
            authorize "t0" (refreshTokenRequest "t0")] [])
        [Respond 0 Samples.serverError;
         Respond 0 (Fulfilled (Samples.tokens "" ""))] = Some s2 /\
    localStorage s2 !! "token" = Some "t0" /\
    isRefreshing s2 = false /\ settled s2 = [].
Proof.
  destruct (refresh_fallback_returns_old_token
    (mkState true [] Samples.restaurantStorage
       [(authorize "t0" (refreshTokenRequest "t0"),
         KRefresh (set_retry true (authorize "t0" Samples.ordersRequest))
                  "t0" (KCaller 1))]
       [authorize "t0" Samples.ordersRequest;
        authorize "t0" (refreshTokenRequest "t0")] [])
    0 (authorize "t0" (refreshTokenRequest "t0"))
    (set_retry true (authorize "t0" Samples.ordersRequest)) "t0" (KCaller 1)
    (Some 500) None (Samples.tokens "" ""))
    as (s1 & s2 & H1 & _ & _ & _ & _ & H2 & _ & H3 & H4 & H5 & _);
    [reflexivity | reflexivity | reflexivity | discriminate |].
  exists s2. split; [|split; [exact H3 | split; [exact H4 | exact H5]]].
  cbn [run]. unfold Samples.serverError. rewrite H1.
  cbn [pending length Nat.sub] in H2. rewrite H2. reflexivity.
Defined.

(** C2, as the code has it.  When [refreshToken] rejects, that is when the
    refresh call fails and the [getCurrentUser] call that follows fails too
    (each with an error the interceptor passes on), the interceptor resets
    [isRefreshing], removes the persisted token and rejects the promise of
    the caller whose request started the refresh with the error of the
    refresh call. *)
Theorem failed_refresh_clears_token_and_rejects_initiator
    s i req originalRequest token id status1 message1 status2 message2 :
  pending s !! i
    = Some (req, KRefresh originalRequest token (KCaller id)) ->
  is401 status1 = false -> is401 status2 = false ->
  exists s',
    run s [Respond i (Failed status1 message1);
           Respond (length (pending s) - 1) (Failed status2 message2)]
      = Some s' /\
    isRefreshing s' = false /\
    localStorage s' !! "token" = None /\
    settled s'
      = settled s ++ [(id, Rejected (AxiosError status1 message1))] /\
    pending s' = delete i (pending s).
Proof.
  intros Hi H1 H2. eexists. cbn [run].
  rewrite (step_respond _ _ _ _ _ Hi). cbn [responseInterceptor].
  rewrite responseError_surface by (by rewrite H1).
  cbn [resume]. unfold axiosInstance. state_simpl.
  assert (Hlen : length (pending s) - 1 = length (delete i (pending s))).
  { rewrite length_delete; [reflexivity | by rewrite Hi]. }
  rewrite Hlen.
  rewrite (step_respond _ (length (delete i (pending s))) _
             (requestInterceptor (localStorage s) meRequest)
             (KFallback originalRequest token (AxiosError status1 message1)
                        (KCaller id)))
    by (state_simpl; by apply list_lookup_middle).
  split; [reflexivity|].
  state_simpl. cbn [responseInterceptor].
  rewrite responseError_surface
    by (rewrite H2; reflexivity).
  cbn [resume]. unfold refreshRejected. state_simpl.
  rewrite delete_middle, app_nil_r.
  split; [reflexivity|]. split; [apply lookup_delete_eq|]. done.
Qed.

Lemma failed_refresh_clears_token_and_rejects_initiator_witness :
  exists s',
    run (mkState true [] Samples.restaurantStorage
           [(authorize "t0" (refreshTokenRequest "t0"),
             KRefresh (set_retry true (authorize "t0" Samples.ordersRequest))
                      "t0" (KCaller 1))]
           [authorize "t0" Samples.ordersRequest;
            authorize "t0" (refreshTokenRequest "t0")] [])
        [Respond 0 Samples.serverError; Respond 0 Samples.networkError]
      = Some s' /\
    isRefreshing s' = false /\
    localStorage s' !! "token" = None /\
    settled s' = [(1, Rejected (AxiosError (Some 500) None))].
Proof.
  destruct (failed_refresh_clears_token_and_rejects_initiator
    (mkState true [] Samples.restaurantStorage
       [(authorize "t0" (refreshTokenRequest "t0"),
         KRefresh (set_retry true (authorize "t0" Samples.ordersRequest))
                  "t0" (KCaller 1))]
       [authorize "t0" Samples.ordersRequest;
        authorize "t0" (refreshTokenRequest "t0")] [])
    0 (authorize "t0" (refreshTokenRequest "t0"))
    (set_retry true (authorize "t0" Samples.ordersRequest)) "t0" 1
    (Some 500) None None None)
    as (s' & Hrun & Hflag & Htok & Hset & _);
    [reflexivity | reflexivity | reflexivity |].
  exists s'. split; [exact Hrun|]. split; [exact Hflag|].
  split; [exact Htok | exact Hset].
Defined.

(** C2 as stated fails twice over.  The refresh call fails and the
    fallback succeeds: the token stays and no promise is rejected.  The
    refresh call and the fallback fail while a second request waits in the
    queue: the caller that started the refresh is rejected, the queued
    request stays in the queue, unsettled, and nothing is on the wire that
    the network could answer. *)
Lemma failed_refresh_counterexample :
  (exists s,
     run (initial Samples.restaurantStorage)
       [Call 1 Samples.ordersRequest; Respond 0 unauthorized;
        Respond 0 Samples.serverError;
        Respond 0 (Fulfilled (Samples.tokens "" ""))] = Some s /\
     localStorage s !! "token" = Some "t0" /\ settled s = []) /\
  (exists s,
     run (initial Samples.restaurantStorage)
       [Call 1 Samples.ordersRequest; Call 2 Samples.menuRequest;
        Respond 0 unauthorized; Respond 0 unauthorized;
        Respond 0 Samples.serverError; Respond 0 Samples.serverError]
       = Some s /\
     settled s = [(1, Rejected (AxiosError (Some 500) None))] /\
     refreshSubscribers s
       = [(authorize "t0" Samples.menuRequest, KCaller 2)] /\
     pending s = [] /\
     forall i r, step s (Respond i r) = None).
Proof.
  split.
  - exists (mkState false [] (<["token" := "t0"]> Samples.restaurantStorage)
              [(set_retry true (authorize "t0" Samples.ordersRequest),
                KCaller 1)]
              [authorize "t0" Samples.ordersRequest;
               authorize "t0" (refreshTokenRequest "t0");
               authorize "t0" meRequest;
               set_retry true (authorize "t0" Samples.ordersRequest)] []).
    split; [vm_compute; reflexivity|]. split; vm_compute; reflexivity.
  - exists (mkState false [(authorize "t0" Samples.menuRequest, KCaller 2)]
              (delete "token" Samples.restaurantStorage) []
              [authorize "t0" Samples.ordersRequest;
               authorize "t0" Samples.menuRequest;
               authorize "t0" (refreshTokenRequest "t0");
               authorize "t0" meRequest]
              [(1, Rejected (AxiosError (Some 500) None))]).
    split; [vm_compute; reflexivity|]. repeat split.
Qed.

(** C3, as the code has it.  In [UserService] the request whose
    authentication failure starts a refresh is flagged [_retry] before the
    refresh call; when its replay fails authentication again the error goes
    to its caller, and no further refresh and no further replay follow.  The
    interceptor of the admin portal keeps no flag: as often as the server
    answers a request with 401 and accepts the refresh token, the request is
    sent again, and nothing reaches its caller. *)
Theorem retry_flag_is_one_shot_for_the_initiator :
  (forall s i req id token d message,
     pending s !! i = Some (req, KCaller id) -> _retry req = false ->
     isRefreshing s = false ->
     localStorage s !! "token" = Some token -> token <> "" ->
     exists s',
       run s [Respond i unauthorized;
              Respond (length (pending s) - 1) (Fulfilled d);
              Respond (length (pending s) - 1
                       + length (refreshSubscribers s))
                      (Failed (Some 401) message)] = Some s' /\
       settled s'
         = settled s ++ [(id, Rejected (AxiosError (Some 401) message))] /\
       wire s' = wire s
         ++ [authorize token (refreshTokenRequest token)]
         ++ map (fun cb => authorize (d_token d) (fst cb))
                (refreshSubscribers s)
         ++ [set_retry true (authorize (d_token d) req)] /\
       isRefreshing s' = false /\
       pending s' = delete i (pending s)
         ++ map (fun cb => (authorize (d_token d) (fst cb), snd cb))
                (refreshSubscribers s)) /\
  (forall n d req k s,
     AdminPortalSpec.hasTokens (d_token d) (d_refreshToken d) s ->
     AdminPortal.pending s = [(authorize (d_token d) req, k)] ->
     exists s',
       AdminPortal.run s (AdminPortalSpec.rejectThenRefresh d n) = Some s' /\
       AdminPortal.pending s' = [(authorize (d_token d) req, k)] /\
       AdminPortal.wire s' = AdminPortal.wire s
         ++ concat (repeat [authorize (d_token d)
                              (AdminPortal.refreshRequest (d_refreshToken d));
                            authorize (d_token d) req] n) /\
       AdminPortal.settled s' = AdminPortal.settled s).
Proof.
  split.
  - intros s i req id token d message Hi Hretry Hflag Htok Htruthy.
    apply truthy_spec in Htruthy. eexists. cbn [run].
    rewrite (step_respond _ _ _ _ _ Hi).
    cbn [responseInterceptor unauthorized].
    rewrite (responseError_refresh _ _ _ _ _ token) by done.
    unfold axiosInstance. state_simpl.
    rewrite (requestInterceptor_token _ _ _ Htok Htruthy).
    assert (Hlen : length (pending s) - 1 = length (delete i (pending s))).
    { rewrite length_delete; [reflexivity | by rewrite Hi]. }
    rewrite Hlen.
    rewrite (step_respond _ (length (delete i (pending s))) _
               (authorize token (refreshTokenRequest token))
               (KRefresh (set_retry true req) token (KCaller id)))
      by (state_simpl; by apply list_lookup_middle).
    state_simpl. cbn [responseInterceptor resume].
    rewrite delete_middle, app_nil_r, refreshResolved_eq. state_simpl.
    set (replayed := map (fun cb => (authorize (d_token d) (fst cb), snd cb))
                         (refreshSubscribers s)).
    assert (Hidx : length (delete i (pending s))
                   + length (refreshSubscribers s)
                   = length (delete i (pending s) ++ replayed)).
    { unfold replayed. by rewrite length_app, length_map. }
    rewrite Hidx.
    rewrite (step_respond _ (length (delete i (pending s) ++ replayed)) _
               (authorize (d_token d) (set_retry true req)) (KCaller id))
      by (state_simpl; rewrite app_assoc; by apply list_lookup_middle).
    split; [reflexivity|]. state_simpl. cbn [responseInterceptor].
    rewrite responseError_surface by apply andb_false_r.
    cbn [resume]. state_simpl. fold replayed.
    split; [reflexivity|]. split; [by rewrite <- !app_assoc|].
    split; [reflexivity|].
    by rewrite app_assoc, delete_middle, app_nil_r.
  - intros n d req k s Htok Hp.
    destruct (AdminPortalFacts.run_rejectThenRefresh d req k n s Htok Hp)
      as (s' & Hrun & _ & Hp' & Hw & Hs).
    by exists s'.
Qed.

Lemma retry_flag_is_one_shot_for_the_initiator_witness :
  exists s',
    run (mkState false [] Samples.restaurantStorage
           [(authorize "t0" Samples.ordersRequest, KCaller 1)]
           [authorize "t0" Samples.ordersRequest] [])
        [Respond 0 unauthorized;
         Respond 0 (Fulfilled (Samples.tokens "t1" "r1"));
         Respond 0 (Failed (Some 401) None)] = Some s' /\
    settled s' = [(1, Rejected (AxiosError (Some 401) None))] /\
    wire s'
      = [authorize "t0" Samples.ordersRequest;
         authorize "t0" (refreshTokenRequest "t0");
         set_retry true (authorize "t1" (authorize "t0" Samples.ordersRequest))].
Proof.
  destruct retry_flag_is_one_shot_for_the_initiator as (H & _).
  destruct (H
    (mkState false [] Samples.restaurantStorage
       [(authorize "t0" Samples.ordersRequest, KCaller 1)]
       [authorize "t0" Samples.ordersRequest] [])
    0 (authorize "t0" Samples.ordersRequest) 1 "t0"
    (Samples.tokens "t1" "r1") None)
    as (s' & Hrun & Hset & Hw & _);
    [reflexivity | reflexivity | reflexivity | reflexivity | discriminate |].
  exists s'. split; [exact Hrun|]. split; [exact Hset | exact Hw].
Defined.

(** C3 as stated fails in both clients.  Admin portal: a request answered
    401 twice is sent three times.  [UserService]: a request that was queued
    behind a refresh carries no flag, so when its replay fails
    authentication it starts a refresh of its own and is replayed a second
    time. *)
Lemma retried_more_than_once_counterexample :
  (exists s,
     AdminPortal.run (AdminPortal.initial Samples.adminStorage)
       [AdminPortal.Call 1 Samples.ordersRequest;
        AdminPortal.Respond 0 unauthorized;
        AdminPortal.Respond 0 (Fulfilled (Samples.tokens "t1" "r1"));
        AdminPortal.Respond 0 unauthorized;
        AdminPortal.Respond 0 (Fulfilled (Samples.tokens "t2" "r2"))]
       = Some s /\
     AdminPortal.wire s
       = [authorize "t0" Samples.ordersRequest;
          authorize "t0" (AdminPortal.refreshRequest "r0");
          authorize "t1" Samples.ordersRequest;
          authorize "t1" (AdminPortal.refreshRequest "r1");
          authorize "t2" Samples.ordersRequest] /\
     AdminPortal.settled s = []) /\
  (exists s,
     run (initial Samples.restaurantStorage)
       [Call 1 Samples.ordersRequest; Call 2 Samples.menuRequest;
        Respond 0 unauthorized; Respond 0 unauthorized;
        Respond 0 (Fulfilled (Samples.tokens "t1" "r1"));
        Respond 0 unauthorized;
        Respond 1 (Fulfilled (Samples.tokens "t2" "r2"))] = Some s /\
     wire s
       = [authorize "t0" Samples.ordersRequest;
          authorize "t0" Samples.menuRequest;
          authorize "t0" (refreshTokenRequest "t0");
          authorize "t1" Samples.menuRequest;
          set_retry true (authorize "t1" Samples.ordersRequest);
          authorize "t1" (refreshTokenRequest "t1");
          set_retry true (authorize "t2" Samples.menuRequest)] /\
     settled s = []).
Proof.
  split.
  - exists (AdminPortal.mkState
              (<["refreshToken" := AdminPortal.JString "r2"]>
                 (<["adminToken" := AdminPortal.JString "t2"]>
                    Samples.adminStorage))
              (Some Samples.alice) true
              [(authorize "t2" Samples.ordersRequest, AdminPortal.KApp 1)]
              [authorize "t0" Samples.ordersRequest;
               authorize "t0" (AdminPortal.refreshRequest "r0");
               authorize "t1" Samples.ordersRequest;
               authorize "t1" (AdminPortal.refreshRequest "r1");
               authorize "t2" Samples.ordersRequest] []).
    split; [vm_compute; reflexivity|]. split; reflexivity.
  - exists (mkState false [] (<["token" := "t2"]> Samples.restaurantStorage)
              [(set_retry true (authorize "t1" Samples.ordersRequest),
                KCaller 1);
               (set_retry true (authorize "t2" Samples.menuRequest),
                KCaller 2)]
              [authorize "t0" Samples.ordersRequest;
               authorize "t0" Samples.menuRequest;
               authorize "t0" (refreshTokenRequest "t0");
               authorize "t1" Samples.menuRequest;
               set_retry true (authorize "t1" Samples.ordersRequest);
               authorize "t1" (refreshTokenRequest "t1");
               set_retry true (authorize "t2" Samples.menuRequest)] []).
    split; [vm_compute; reflexivity|]. split; reflexivity.
Qed.

(** C1, as the code has it.  In [UserService] at most one refresh call is
    on the wire at any time.  The first authentication failure of a request
    that was not retried, seen while no refresh is in flight and a token is
    stored, puts exactly one request on the wire, the refresh call; every
    such failure seen while [isRefreshing] is set puts nothing on the wire
    and adds the request to the end of [refreshSubscribers].  So when [N]
    calls fail authentication one after another and the refresh call
    succeeds, one refresh call was made, all [N] requests are replayed, and
    when the replays are answered (not with another authentication failure)
    all [N] promises settle.  The interceptor of the admin portal has no
    such guard: every authentication failure there puts a refresh call of
    its own on the wire. *)
Theorem single_refresh_in_flight :
  (forall storage evs s,
     run (initial storage) evs = Some s ->
     singleFlight s /\ refreshCallsInFlight s <= 1) /\
  (forall s i req k message token,
     pending s !! i = Some (req, k) -> _retry req = false ->
     isRefreshing s = false ->
     localStorage s !! "token" = Some token -> token <> "" ->
     exists s',
       step s (Respond i (Failed (Some 401) message)) = Some s' /\
       isRefreshing s' = true /\
       wire s' = wire s ++ [authorize token (refreshTokenRequest token)] /\
       refreshSubscribers s' = refreshSubscribers s) /\
  (forall s i req k message,
     pending s !! i = Some (req, k) -> _retry req = false ->
     isRefreshing s = true ->
     exists s',
       step s (Respond i (Failed (Some 401) message)) = Some s' /\
       isRefreshing s' = true /\
       wire s' = wire s /\
       refreshSubscribers s' = refreshSubscribers s ++ [(req, k)] /\
       pending s' = delete i (pending s)) /\
  (forall (storage : gmap string string) token id0 req0 cs d answers,
     storage !! "token" = Some token -> token <> "" ->
     _retry req0 = false -> Forall (fun c => _retry (snd c) = false) cs ->
     length answers = S (length cs) -> Forall notAuthFailure answers ->
     run (initial storage)
         (callEvents ((id0, req0) :: cs)
          ++ repeat (Respond 0 unauthorized) (S (length cs))
          ++ [Respond 0 (Fulfilled d)]
          ++ answerEvents answers)
     = Some (mkState false [] (<["token" := d_token d]> storage) []
               (map (fun c => authorize token (snd c)) ((id0, req0) :: cs)
                ++ [authorize token (refreshTokenRequest token)]
                ++ map (fun c => authorize (d_token d) (snd c)) cs
                ++ [set_retry true (authorize (d_token d) req0)])
               (combine (map fst cs ++ [id0]) (map outcomeOf answers)))) /\
  (forall s i req k message token rt,
     AdminPortalSpec.hasTokens token rt s ->
     AdminPortal.pending s !! i = Some (req, k) ->
     exists s',
       AdminPortal.step s (AdminPortal.Respond i (Failed (Some 401) message))
         = Some s' /\
       AdminPortal.wire s' = AdminPortal.wire s
         ++ [authorize token (AdminPortal.refreshRequest rt)] /\
       AdminPortal.pending s' = delete i (AdminPortal.pending s)
         ++ [(authorize token (AdminPortal.refreshRequest rt),
              AdminPortal.KRefreshPost (AdminPortal.KIntercept req k))]).
Proof.
  split; [|split; [|split; [|split]]].
  - intros storage evs s Hrun.
    assert (Hinv : singleFlight s)
      by (eapply singleFlight_run; [apply singleFlight_initial | exact Hrun]).
    split; [exact Hinv | by apply singleFlight_bound].
  - intros s i req k message token Hi Hretry Hflag Htok Htruthy.
    apply truthy_spec in Htruthy. eexists.
    rewrite (step_respond _ _ _ _ _ Hi). split; [reflexivity|].
    cbn [responseInterceptor].
    rewrite (responseError_refresh _ _ _ _ _ token) by done.
    unfold axiosInstance. state_simpl.
    by rewrite (requestInterceptor_token _ _ _ Htok Htruthy).
  - intros s i req k message Hi Hretry Hflag. eexists.
    rewrite (step_respond _ _ _ _ _ Hi). split; [reflexivity|].
    cbn [responseInterceptor].
    rewrite responseError_enqueue by done.
    unfold onTokenRefreshed. state_simpl. done.
  - intros storage token id0 req0 cs d answers Htok Htruthy.
    apply truthy_spec in Htruthy. by apply run_concurrent_failures.
  - intros s i req k message token rt (Ht & Hrt & Htt & Hrtt) Hi. eexists.
    rewrite (AdminPortalFacts.admin_step_respond _ _ _ _ _ Hi).
    split; [reflexivity|].
    cbn [AdminPortal.responseInterceptor]. unfold AdminPortal.responseError.
    cbn [is401 Nat.eqb]. unfold AdminPortal.refreshToken.
    AdminPortalFacts.state_simpl. rewrite Hrt.
    cbn [AdminPortal.truthy_json AdminPortal.to_string]. rewrite Hrtt.
    unfold AdminPortal.axios. AdminPortalFacts.state_simpl.
    by rewrite (AdminPortalFacts.admin_requestInterceptor_token _ _ _ Ht Htt).
Qed.

Lemma single_refresh_in_flight_witness :
  run (initial Samples.restaurantStorage)
      [Call 1 Samples.ordersRequest; Call 2 Samples.menuRequest;
       Respond 0 unauthorized; Respond 0 unauthorized;
       Respond 0 (Fulfilled (Samples.tokens "t1" "r1"));
       Respond 0 (Fulfilled (Samples.tokens "" ""));
       Respond 0 Samples.serverError]
  = Some (mkState false [] (<["token" := "t1"]> Samples.restaurantStorage) []
            [authorize "t0" Samples.ordersRequest;
             authorize "t0" Samples.menuRequest;
             authorize "t0" (refreshTokenRequest "t0");
             authorize "t1" Samples.menuRequest;
             set_retry true (authorize "t1" Samples.ordersRequest)]
            [(2, Resolved (Samples.tokens "" ""));
             (1, Rejected (AxiosError (Some 500) None))]).
Proof.
  destruct single_refresh_in_flight as (_ & _ & _ & H & _).
  apply (H Samples.restaurantStorage "t0" 1 Samples.ordersRequest
           [(2, Samples.menuRequest)] (Samples.tokens "t1" "r1")
           [Fulfilled (Samples.tokens "" ""); Samples.serverError]);
    [ reflexivity | discriminate | reflexivity
    | repeat constructor | reflexivity
    | repeat constructor ].
Defined.

(** C1 as stated fails in both clients.  Admin portal: two requests fail
    authentication and two refresh calls are on the wire together.
    [UserService]: two requests fail authentication and the refresh fails;
    one refresh call was made, but the queued request never settles: it
    stays in the queue and nothing is on the wire for the network to
    answer. *)
Lemma single_refresh_counterexample :
  (exists s,
     AdminPortal.run (AdminPortal.initial Samples.adminStorage)
       [AdminPortal.Call 1 Samples.ordersRequest;
        AdminPortal.Call 2 Samples.menuRequest;
        AdminPortal.Respond 0 unauthorized;
        AdminPortal.Respond 0 unauthorized] = Some s /\
     AdminPortal.pending s
       = [(authorize "t0" (AdminPortal.refreshRequest "r0"),
           AdminPortal.KRefreshPost
             (AdminPortal.KIntercept (authorize "t0" Samples.ordersRequest)
                                     (AdminPortal.KApp 1)));
          (authorize "t0" (AdminPortal.refreshRequest "r0"),
           AdminPortal.KRefreshPost
             (AdminPortal.KIntercept (authorize "t0" Samples.menuRequest)
                                     (AdminPortal.KApp 2)))]) /\
  (exists s,
     run (initial Samples.restaurantStorage)
       [Call 1 Samples.ordersRequest; Call 2 Samples.menuRequest;
        Respond 0 unauthorized; Respond 0 unauthorized;
        Respond 0 Samples.serverError; Respond 0 Samples.serverError]
       = Some s /\
     settled s = [(1, Rejected (AxiosError (Some 500) None))] /\
     refreshSubscribers s
       = [(authorize "t0" Samples.menuRequest, KCaller 2)] /\
     refreshCallsInFlight s = 0 /\
     forall i r, step s (Respond i r) = None).
Proof.
  split.
  - exists (AdminPortal.mkState Samples.adminStorage (Some Samples.alice) true
              [(authorize "t0" (AdminPortal.refreshRequest "r0"),
                AdminPortal.KRefreshPost
                  (AdminPortal.KIntercept
                     (authorize "t0" Samples.ordersRequest)
                     (AdminPortal.KApp 1)));
               (authorize "t0" (AdminPortal.refreshRequest "r0"),
                AdminPortal.KRefreshPost
                  (AdminPortal.KIntercept
                     (authorize "t0" Samples.menuRequest)
                     (AdminPortal.KApp 2)))]
              [authorize "t0" Samples.ordersRequest;
               authorize "t0" Samples.menuRequest;
               authorize "t0" (AdminPortal.refreshRequest "r0");
               authorize "t0" (AdminPortal.refreshRequest "r0")] []).
    split; [vm_compute; reflexivity | reflexivity].
  - exists (mkState false [(authorize "t0" Samples.menuRequest, KCaller 2)]
              (delete "token" Samples.restaurantStorage) []
              [authorize "t0" Samples.ordersRequest;
               authorize "t0" Samples.menuRequest;
               authorize "t0" (refreshTokenRequest "t0");
               authorize "t0" meRequest]
              [(1, Rejected (AxiosError (Some 500) None))]).
    split; [vm_compute; reflexivity|]. repeat split.
Qed.

End RestaurantPortalClaims.

(** ** Logging in and out *)

Section SessionClaims.

(** C5, as the code has it.  [logout] of the customer portal clears the
    token, the user and the persisted token at once and asks no server.
    [logout] of the admin portal clears the three storage keys, the user and
    the authenticated flag at once when no token is stored; with a stored
    token it first sends the server call and keeps the session while the
    call is on the wire, and when the call settles, fulfilled or rejected,
    its [finally] block clears the session, whatever function awaited
    [logout]. *)
Theorem logout_clears_the_session :
  (forall s,
     CustomerPortal.NoSession (CustomerPortal.logout s) /\
     CustomerPortal.wire (CustomerPortal.logout s) = CustomerPortal.wire s /\
     CustomerPortal.pending (CustomerPortal.logout s)
       = CustomerPortal.pending s) /\
  (forall s id,
     match AdminPortal.sessionStorage s !! "adminToken" with
     | Some token => AdminPortal.truthy_json token
     | None => false
     end = false ->
     exists s',
       AdminPortal.step s (AdminPortal.Logout id) = Some s' /\
       AdminPortal.NoSession s' /\
       AdminPortal.wire s' = AdminPortal.wire s /\
       AdminPortal.settled s'
         = AdminPortal.settled s ++ [(id, AdminPortal.Ok AdminPortal.VVoid)]) /\
  (forall s id token,
     AdminPortal.sessionStorage s !! "adminToken"
       = Some (AdminPortal.JString token) -> token <> "" ->
     exists s',
       AdminPortal.step s (AdminPortal.Logout id) = Some s' /\
       AdminPortal.sessionStorage s' = AdminPortal.sessionStorage s /\
       AdminPortal.user s' = AdminPortal.user s /\
       AdminPortal.isAuthenticated s' = AdminPortal.isAuthenticated s /\
       AdminPortal.settled s' = AdminPortal.settled s /\
       AdminPortal.pending s' = AdminPortal.pending s
         ++ [(authorize token (AdminPortal.logoutRequest token),
              AdminPortal.KLogoutPost (AdminPortal.KApp id))]) /\
  (forall k r s,
     AdminPortal.NoSession
       (AdminPortal.resume (AdminPortal.KLogoutPost k) r s)) /\
  (forall s i req k r,
     AdminPortal.pending s !! i = Some (req, AdminPortal.KLogoutPost k) ->
     AdminPortalSpec.notAuthFailure r ->
     exists s',
       AdminPortal.step s (AdminPortal.Respond i r) = Some s' /\
       AdminPortal.NoSession s') /\
  (forall s i req id r,
     AdminPortal.pending s !! i
       = Some (req, AdminPortal.KLogoutPost (AdminPortal.KApp id)) ->
     AdminPortalSpec.notAuthFailure r ->
     exists s',
       AdminPortal.step s (AdminPortal.Respond i r) = Some s' /\
       AdminPortal.settled s'
         = AdminPortal.settled s ++ [(id, AdminPortal.Ok AdminPortal.VVoid)]).
Proof.
  split; [|split; [|split; [|split; [|split]]]].
  - intros s. unfold CustomerPortal.NoSession, CustomerPortal.logout.
    cbn [CustomerPortal.token CustomerPortal.user CustomerPortal.localStorage
         CustomerPortal.wire CustomerPortal.pending].
    repeat split. apply lookup_delete_eq.
  - intros s id Hno. eexists. split; [reflexivity|].
    unfold AdminPortal.logout.
    destruct (AdminPortal.sessionStorage s !! "adminToken") as [t|];
      [rewrite Hno|]; cbn [AdminPortal.resume];
      (split; [apply (AdminPortalFacts.clearSession_NoSession s) | done]).
  - intros s id token Hlookup Htoken. apply truthy_spec in Htoken.
    eexists. split; [reflexivity|].
    rewrite (AdminPortalFacts.logout_token _ _ _ token) by done.
    AdminPortalFacts.state_simpl. done.
  - apply AdminPortalFacts.logout_settles.
  - intros s i req k r Hi Hr. eexists.
    rewrite (AdminPortalFacts.admin_step_respond _ _ _ _ _ Hi).
    split; [reflexivity|].
    destruct r as [d | status message]; cbn [AdminPortal.responseInterceptor].
    + apply AdminPortalFacts.logout_settles.
    + cbn [AdminPortalSpec.notAuthFailure] in Hr.
      unfold AdminPortal.responseError. rewrite Hr.
      apply AdminPortalFacts.logout_settles.
  - intros s i req id r Hi Hr. eexists.
    rewrite (AdminPortalFacts.admin_step_respond _ _ _ _ _ Hi).
    split; [reflexivity|].
    destruct r as [d | status message]; cbn [AdminPortal.responseInterceptor].
    + reflexivity.
    + cbn [AdminPortalSpec.notAuthFailure] in Hr.
      unfold AdminPortal.responseError. rewrite Hr. reflexivity.
Qed.

Lemma logout_clears_the_session_witness :
  exists s1 s2,
    AdminPortal.step (AdminPortal.initial Samples.adminStorage)
      (AdminPortal.Logout 1) = Some s1 /\
    AdminPortal.sessionStorage s1 = Samples.adminStorage /\
    AdminPortal.step s1 (AdminPortal.Respond 0 Samples.networkError)
      = Some s2 /\
    AdminPortal.NoSession s2.
Proof.
  destruct logout_clears_the_session as (_ & _ & Hsend & _ & Hsettle & _).
  destruct (Hsend (AdminPortal.initial Samples.adminStorage) 1 "t0")
    as (s1 & Hs1 & Hst & _ & _ & _ & Hp); [reflexivity | discriminate |].
  destruct (Hsettle s1 0 (authorize "t0" (AdminPortal.logoutRequest "t0"))
              (AdminPortal.KApp 1) Samples.networkError)
    as (s2 & Hs2 & Hno); [by rewrite Hp | reflexivity |].
  exists s1, s2. split; [exact Hs1|]. split; [exact Hst|].
  split; [exact Hs2 | exact Hno].
Defined.

(** C5 as stated fails in the admin portal: [logout] does not clear the
    session synchronously.  After [logout()] is called the token, the
    refresh token and the user are still stored, until the server answers;
    and when the server answers the logout call with 401 and fails the
    refresh call that the interceptor then makes, [logout] is called again
    from the [catch] of [refreshToken] and the session is still there, for
    any number of such rounds. *)
Lemma logout_not_synchronous_counterexample :
  (exists s,
     AdminPortal.run (AdminPortal.initial Samples.adminStorage)
       [AdminPortal.Logout 1] = Some s /\
     AdminPortal.sessionStorage s !! "adminToken"
       = Some (AdminPortal.JString "t0") /\
     AdminPortal.user s = Some Samples.alice /\
     AdminPortal.isAuthenticated s = true /\
     ~ AdminPortal.NoSession s) /\
  (forall n, exists s,
     AdminPortal.run (AdminPortal.initial Samples.adminStorage)
       (AdminPortal.Logout 1
        :: AdminPortalSpec.rejectThenFail (Some 400) None n) = Some s /\
     AdminPortal.sessionStorage s = Samples.adminStorage /\
     AdminPortal.settled s = [] /\
     ~ AdminPortal.NoSession s).
Proof.
  split.
  - eexists. split; [reflexivity|]. repeat split.
    intros (H & _). discriminate H.
  - intros n. cbn [AdminPortal.run AdminPortal.step].
    destruct (AdminPortalFacts.run_rejectThenFail "t0" "r0" (Some 400) None n
      (AdminPortal.logout (AdminPortal.KApp 1)
         (AdminPortal.resume (AdminPortal.KApp 1)
            (AdminPortal.Ok AdminPortal.VVoid))
         (AdminPortal.initial Samples.adminStorage))
      (AdminPortal.KApp 1))
      as (s & k & Hrun & Hst & _ & _ & Hset & _);
      [repeat split | reflexivity | reflexivity |].
    exists s. split; [exact Hrun|]. split; [exact Hst|].
    split; [exact Hset|]. intros (H & _). rewrite Hst in H. discriminate H.
Qed.

(** C8, as the code has it.  When the login call succeeds, [login] installs
    the session: the customer portal keeps the token and the user and
    persists the token; the admin portal (for a response with a token)
    persists the token, the refresh token and the user, keeps the user and
    sets the authenticated flag.  When the login call fails, [login] of the
    customer portal leaves token, user and storage as they were, resolves
    with [false] and keeps as error the message of the server or "Login
    failed"; [login] of the admin portal, called without a session, leaves
    no session and throws the one error "Invalid email or password",
    whatever went wrong. *)
Theorem login_installs_session_or_leaves_none :
  (forall s i req id d,
     CustomerPortal.pending s !! i = Some (req, CustomerPortal.KLogin id) ->
     exists s',
       CustomerPortal.step s (CustomerPortal.Respond i (Fulfilled d))
         = Some s' /\
       CustomerPortal.token s' = Some (d_token d) /\
       CustomerPortal.user s' = Some (d_user d) /\
       CustomerPortal.localStorage s' !! "token" = Some (d_token d) /\
       CustomerPortal.settled s' = CustomerPortal.settled s ++ [(id, true)]) /\
  (forall s i req id status message,
     CustomerPortal.pending s !! i = Some (req, CustomerPortal.KLogin id) ->
     exists s',
       CustomerPortal.step s
         (CustomerPortal.Respond i (Failed status message)) = Some s' /\
       CustomerPortal.token s' = CustomerPortal.token s /\
       CustomerPortal.user s' = CustomerPortal.user s /\
       CustomerPortal.localStorage s' = CustomerPortal.localStorage s /\
       (CustomerPortal.NoSession s -> CustomerPortal.NoSession s') /\
       CustomerPortal.settled s' = CustomerPortal.settled s ++ [(id, false)] /\
       CustomerPortal.error s'
         = Some (CustomerPortal.errorMessage message "Login failed")) /\
  (forall s i req id d,
     AdminPortal.pending s !! i
       = Some (req, AdminPortal.KLogin (AdminPortal.KApp id)) ->
     d_token d <> "" ->
     exists s',
       AdminPortal.step s (AdminPortal.Respond i (Fulfilled d)) = Some s' /\
       AdminPortal.sessionStorage s' !! "adminToken"
         = Some (AdminPortal.JString (d_token d)) /\
       AdminPortal.sessionStorage s' !! "refreshToken"
         = Some (AdminPortal.JString (d_refreshToken d)) /\
       AdminPortal.sessionStorage s' !! "adminUser"
         = Some (AdminPortal.JUser (d_user d)) /\
       AdminPortal.user s' = Some (d_user d) /\
       AdminPortal.isAuthenticated s' = true /\
       AdminPortal.settled s'
         = AdminPortal.settled s ++ [(id, AdminPortal.Ok AdminPortal.VVoid)]) /\
  (forall s i req id r,
     AdminPortal.pending s !! i
       = Some (req, AdminPortal.KLogin (AdminPortal.KApp id)) ->
     AdminPortal.NoSession s -> AdminPortalSpec.loginFails r ->
     exists s',
       AdminPortal.step s (AdminPortal.Respond i r) = Some s' /\
       AdminPortal.NoSession s' /\
       AdminPortal.wire s' = AdminPortal.wire s /\
       AdminPortal.settled s'
         = AdminPortal.settled s
           ++ [(id, AdminPortal.Err (JsError "Invalid email or password"))]).
Proof.
  split; [|split; [|split]].
  - intros s i req id d Hi. eexists. cbn [CustomerPortal.step].
    rewrite Hi. split; [reflexivity|].
    unfold CustomerPortal.set_pending.
    cbn [CustomerPortal.resume CustomerPortal.token CustomerPortal.user
         CustomerPortal.localStorage CustomerPortal.settled].
    repeat split. apply lookup_insert_eq.
  - intros s i req id status message Hi. eexists. cbn [CustomerPortal.step].
    rewrite Hi. split; [reflexivity|].
    unfold CustomerPortal.set_pending, CustomerPortal.NoSession.
    cbn [CustomerPortal.resume CustomerPortal.token CustomerPortal.user
         CustomerPortal.localStorage CustomerPortal.settled
         CustomerPortal.error].
    done.
  - intros s i req id d Hi Htoken. apply truthy_spec in Htoken. eexists.
    rewrite (AdminPortalFacts.admin_step_respond _ _ _ _ _ Hi).
    split; [reflexivity|].
    cbn [AdminPortal.responseInterceptor AdminPortal.resume].
    rewrite Htoken. unfold AdminPortal.installSession.
    cbn [AdminPortal.resume]. AdminPortalFacts.state_simpl.
    split; [|split; [|split; [apply lookup_insert_eq | done]]].
    + rewrite !lookup_insert_ne by done. apply lookup_insert_eq.
    + rewrite lookup_insert_ne by done. apply lookup_insert_eq.
  - intros s i req id r Hi Hno Hr. eexists.
    rewrite (AdminPortalFacts.admin_step_respond _ _ _ _ _ Hi).
    split; [reflexivity|].
    set (s0 := AdminPortal.set_pending (delete i (AdminPortal.pending s)) s).
    assert (Hno0 : AdminPortal.NoSession s0) by exact Hno.
    destruct r as [d | status message]; cbn [AdminPortal.responseInterceptor].
    + cbn [AdminPortalSpec.loginFails] in Hr. cbn [AdminPortal.resume].
      rewrite Hr. cbn [AdminPortal.resume]. done.
    + unfold AdminPortal.responseError. destruct (is401 status).
      * unfold AdminPortal.refreshToken.
        destruct Hno0 as (Ht & Hrt & Hu & Hrest). rewrite Hrt.
        unfold AdminPortal.refreshCatch.
        rewrite AdminPortalFacts.logout_no_token by exact Ht.
        cbn [AdminPortal.resume].
        destruct (AdminPortalFacts.clearSession_NoSession s0) as (Ht' & _).
        rewrite AdminPortalFacts.logout_no_token by exact Ht'.
        cbn [AdminPortal.resume].
        split; [|done].
        apply (AdminPortalFacts.clearSession_NoSession
                 (AdminPortal.clearSession s0)).
      * cbn [AdminPortal.resume]. done.
Qed.

Lemma login_installs_session_or_leaves_none_witness :
  exists s1 s2,
    AdminPortal.step (AdminPortal.initial ∅)
      (AdminPortal.Login 1 "alice@example.org" "secret") = Some s1 /\
    AdminPortal.step s1 (AdminPortal.Respond 0 unauthorized) = Some s2 /\
    AdminPortal.NoSession s2 /\
    AdminPortal.settled s2
      = [(1, AdminPortal.Err (JsError "Invalid email or password"))].
Proof.
  destruct login_installs_session_or_leaves_none as (_ & _ & _ & H).
  eexists. 
  destruct (H (AdminPortal.axios
                 (AdminPortal.loginRequest "alice@example.org" "secret")
                 (AdminPortal.KLogin (AdminPortal.KApp 1))
                 (AdminPortal.initial ∅))
              0 (AdminPortal.loginRequest "alice@example.org" "secret") 1
              unauthorized)
    as (s2 & Hs2 & Hno & _ & Hset);
    [reflexivity | repeat split | exact I |].
  exists s2. split; [reflexivity|]. split; [exact Hs2|].
  split; [exact Hno | exact Hset].
Defined.

(** C8 as stated fails: a failed login does not return an error that tells
    invalid credentials, a transport failure and a server error apart.  In
    the admin portal the three leave the same state and the same rejection;
    in the customer portal all three resolve with [false], and a transport
    failure and a server error without a message leave the same state. *)
Lemma login_errors_not_distinguished_counterexample :
  (AdminPortal.run (AdminPortal.initial ∅)
     [AdminPortal.Login 1 "alice@example.org" "secret";
      AdminPortal.Respond 0 Samples.invalidCredentials]
   = AdminPortal.run (AdminPortal.initial ∅)
       [AdminPortal.Login 1 "alice@example.org" "secret";
        AdminPortal.Respond 0 Samples.networkError]) /\
  (AdminPortal.run (AdminPortal.initial ∅)
     [AdminPortal.Login 1 "alice@example.org" "secret";
      AdminPortal.Respond 0 Samples.networkError]
   = AdminPortal.run (AdminPortal.initial ∅)
       [AdminPortal.Login 1 "alice@example.org" "secret";
        AdminPortal.Respond 0 Samples.serverError]) /\
  (exists s,
     AdminPortal.run (AdminPortal.initial ∅)
       [AdminPortal.Login 1 "alice@example.org" "secret";
        AdminPortal.Respond 0 Samples.serverError] = Some s /\
     AdminPortal.settled s
       = [(1, AdminPortal.Err (JsError "Invalid email or password"))]) /\
  (CustomerPortal.run (CustomerPortal.initial ∅)
     [CustomerPortal.Login 1 "alice@example.org" "secret";
      CustomerPortal.Respond 0 Samples.networkError]
   = CustomerPortal.run (CustomerPortal.initial ∅)
       [CustomerPortal.Login 1 "alice@example.org" "secret";
        CustomerPortal.Respond 0 Samples.serverError]) /\
  (exists s,
     CustomerPortal.run (CustomerPortal.initial ∅)
       [CustomerPortal.Login 1 "alice@example.org" "secret";
        CustomerPortal.Respond 0 Samples.invalidCredentials] = Some s /\
     CustomerPortal.settled s = [(1, false)]) /\
  (exists s,
     CustomerPortal.run (CustomerPortal.initial ∅)
       [CustomerPortal.Login 1 "alice@example.org" "secret";
        CustomerPortal.Respond 0 Samples.serverError] = Some s /\
     CustomerPortal.settled s = [(1, false)] /\
     CustomerPortal.error s = Some "Login failed").
Proof.
  repeat split; try reflexivity.
  - eexists. split; reflexivity.
  - eexists. split; reflexivity.
  - eexists. split; [reflexivity|]. split; reflexivity.
Qed.

End SessionClaims.

(** * Further properties of the code *)

(** ** Restaurant portal *)

Module RestaurantPortalMoreFacts.
Import RestaurantPortal RestaurantPortalSpec RestaurantPortalFacts
  RestaurantPortalMore.

Lemma promiseIds_eq s :
  promiseIds s
  = map (fun rk => callerOf (snd rk)) (pending s)
    ++ map (fun rk => callerOf (snd rk)) (refreshSubscribers s)
    ++ map fst (settled s).
Proof. unfold promiseIds, awaitedIds. by rewrite map_app, <- app_assoc. Qed.

Lemma callerOf_replayed (f : Request * Cont -> Request) q :
  map (fun rk => callerOf (snd rk)) (map (fun cb => (f cb, snd cb)) q)
  = map (fun rk => callerOf (snd rk)) q.
Proof. rewrite map_map. reflexivity. Qed.

(** Resuming a continuation keeps all promises and adds the one at its
    bottom: it is settled, or awaited again. *)
Lemma promiseIds_resume k : forall o s,
  promiseIds (resume k o s) ≡ₚ callerOf k :: promiseIds s.
Proof.
  induction k as [id | orig tok k IH | orig tok err k IH]; intros o s;
    cbn [resume callerOf].
  - rewrite !promiseIds_eq. state_simpl. rewrite map_app. cbn [map fst].
    solve_Permutation.
  - destruct o as [d | e].
    + rewrite refreshResolved_eq, !promiseIds_eq. state_simpl.
      rewrite !map_app, (callerOf_replayed (fun cb => authorize _ (fst cb))).
      cbn [map snd]. solve_Permutation.
    + rewrite !promiseIds_eq. unfold axiosInstance. state_simpl.
      rewrite map_app. cbn [map snd callerOf]. solve_Permutation.
  - destruct o as [d | e].
    + rewrite refreshResolved_eq, !promiseIds_eq. state_simpl.
      rewrite !map_app, (callerOf_replayed (fun cb => authorize _ (fst cb))).
      cbn [map snd]. solve_Permutation.
    + rewrite IH. reflexivity.
Qed.

Lemma promiseIds_step s ev s' :
  step s ev = Some s' ->
  promiseIds s' ≡ₚ promiseIds s ++ calledIds [ev].
Proof.
  destruct ev as [id config | i r]; cbn [step calledIds].
  - intros [= <-]. rewrite !promiseIds_eq. unfold axiosInstance. state_simpl.
    rewrite map_app. cbn [map snd callerOf]. solve_Permutation.
  - destruct (pending s !! i) as [[req k]|] eqn:Hi; [|discriminate].
    intros [= <-]. rewrite app_nil_r.
    assert (Hs : promiseIds s
                 ≡ₚ callerOf k
                    :: promiseIds (set_pending (delete i (pending s)) s)).
    { rewrite !promiseIds_eq. state_simpl.
      rewrite (delete_Permutation _ _ _ Hi) at 1. reflexivity. }
    rewrite Hs. set (s0 := set_pending (delete i (pending s)) s).
    destruct r as [d | status message]; cbn [responseInterceptor].
    + apply promiseIds_resume.
    + unfold responseError.
      destruct (is401 status && negb (_retry req)); [|apply promiseIds_resume].
      destruct (isRefreshing s0).
      * rewrite !promiseIds_eq. unfold onTokenRefreshed. state_simpl.
        rewrite map_app. cbn [map snd]. solve_Permutation.
      * assert (Hstart : forall t,
          promiseIds (axiosInstance (refreshTokenRequest t)
                        (KRefresh (set_retry true req) t k)
                        (set_isRefreshing true s0))
          ≡ₚ callerOf k :: promiseIds s0).
        { intros t. rewrite !promiseIds_eq. unfold axiosInstance. state_simpl.
          rewrite map_app. cbn [map snd callerOf]. solve_Permutation. }
        assert (Hnone :
          promiseIds (resume k (Rejected (JsError "No token found"))
                        (refreshRejected (set_isRefreshing true s0)))
          ≡ₚ callerOf k :: promiseIds s0).
        { rewrite promiseIds_resume. reflexivity. }
        destruct (localStorage (set_isRefreshing true s0) !! "token") as [t|];
          [destruct (truthy t)|]; auto.
Qed.

Lemma promiseIds_run evs : forall s s',
  run s evs = Some s' ->
  promiseIds s' ≡ₚ promiseIds s ++ calledIds evs.
Proof.
  induction evs as [|ev evs IH]; intros s s' Hrun; cbn [run] in Hrun.
  - injection Hrun as <-. cbn. by rewrite app_nil_r.
  - destruct (step s ev) as [s1|] eqn:Hstep; [|discriminate].
    rewrite (IH _ _ Hrun), (promiseIds_step _ _ _ Hstep).
    rewrite <- app_assoc. f_equiv.
    destruct ev; reflexivity.
Qed.

(** *** Refresh frames *)

Lemma refreshesOf_zero_frames storage l :
  refreshesOf l = 0 -> Forall (frameOK storage) l.
Proof.
  induction l as [|[c k] l IH]; [constructor|].
  rewrite refreshesOf_cons. intros H. constructor; [|apply IH; lia].
  destruct (refreshes_zero k) as [id ->]; [lia | exact I].
Qed.

Lemma framesOK_zero s :
  refreshesOf (pending s) = 0 -> refreshesOf (refreshSubscribers s) = 0 ->
  framesOK s.
Proof.
  intros Hp Hq. apply refreshesOf_zero_frames.
  rewrite refreshesOf_app. lia.
Qed.

Lemma frameOK_refresh_request storage req originalRequest token k :
  frameOK storage (req, KRefresh originalRequest token k) ->
  _retry req = false.
Proof. intros (H & _). cbn [fst] in H. by rewrite H. Qed.

(** Every step keeps the refresh frames well formed. *)
Lemma framesOK_step s ev s' :
  singleFlight s -> framesOK s -> step s ev = Some s' -> framesOK s'.
Proof.
  unfold singleFlight, refreshOps, framesOK. intros Inv Hfr Hstep.
  destruct ev as [id config | i r]; cbn [step] in Hstep.
  - injection Hstep as <-. unfold axiosInstance. state_simpl.
    rewrite <- app_assoc. apply Forall_app in Hfr as [Hp Hq].
    apply Forall_app. split; [exact Hp|]. by constructor.
  - destruct (pending s !! i) as [[req k]|] eqn:Hi; [|discriminate].
    injection Hstep as <-.
    rewrite (refreshesOf_delete _ _ _ _ Hi) in Inv.
    apply Forall_app in Hfr as [Hp Hq].
    pose proof (Forall_lookup_1 _ _ _ _ Hp Hi) as Hk.
    pose proof (Forall_delete _ _ i Hp) as Hp'.
    set (p := delete i (pending s)) in *.
    assert (Hzero : forall storage' l,
              refreshesOf l = 0 -> Forall (frameOK storage') l)
      by (intros; by apply refreshesOf_zero_frames).
    destruct r as [d | status message]; cbn [responseInterceptor].
    + destruct k as [id | orig tok k' | orig tok err k']; cbn [resume].
      * state_simpl. apply Forall_app; by split.
      * rewrite refreshResolved_eq. state_simpl. apply Hzero.
        destruct Hk as (_ & _ & _ & _ & id & ->).
        count_refreshes. destruct (isRefreshing s); lia.
      * rewrite refreshResolved_eq. state_simpl. apply Hzero.
        destruct Hk as (_ & _ & _ & _ & id & ->).
        count_refreshes. destruct (isRefreshing s); lia.
    + unfold responseError.
      destruct (is401 status && negb (_retry req)) eqn:Hauth.
      * cbn [isRefreshing set_pending].
        destruct (isRefreshing s) eqn:Hflag.
        -- unfold onTokenRefreshed. state_simpl.
           rewrite app_assoc. apply Forall_app. split.
           ++ apply Forall_app; by split.
           ++ by constructor.
        -- assert (Hk0 : refreshes k = 0) by lia.
           destruct (refreshes_zero _ Hk0) as [id ->].
           cbn [set_isRefreshing localStorage set_pending].
           destruct (localStorage s !! "token") as [t|] eqn:Htok;
             [destruct (truthy t) eqn:Ht|].
           ++ unfold axiosInstance. state_simpl.
              rewrite (requestInterceptor_token _ _ _ Htok Ht).
              rewrite <- app_assoc. apply Forall_app. split; [exact Hp'|].
              constructor; [|exact Hq].
              cbn [frameOK fst snd]. rewrite truthy_spec in Ht.
              repeat split; try done. by exists id.
           ++ unfold refreshRejected. cbn [resume]. state_simpl.
              apply Hzero. count_refreshes. lia.
           ++ unfold refreshRejected. cbn [resume]. state_simpl.
              apply Hzero. count_refreshes. lia.
      * destruct k as [id | orig tok k' | orig tok err k']; cbn [resume].
        -- state_simpl. apply Forall_app; by split.
        -- unfold axiosInstance. state_simpl.
           destruct Hk as (_ & Hretry & Htok & Ht & id & ->).
           rewrite (requestInterceptor_token _ _ _ Htok)
             by (by apply truthy_spec).
           rewrite <- app_assoc. apply Forall_app. split; [exact Hp'|].
           constructor; [|exact Hq].
           cbn [frameOK fst snd]. repeat split; try done. by exists id.
        -- destruct Hk as (_ & _ & _ & _ & id & ->).
           unfold refreshRejected. cbn [resume]. state_simpl.
           apply Hzero. count_refreshes. destruct (isRefreshing s); lia.
Qed.

Lemma framesOK_run evs : forall s s',
  singleFlight s -> framesOK s -> run s evs = Some s' ->
  singleFlight s' /\ framesOK s'.
Proof.
  induction evs as [|ev evs IH]; intros s s' Inv Hfr Hrun; cbn [run] in Hrun.
  - by injection Hrun as <-.
  - destruct (step s ev) as [s1|] eqn:Hstep; [|discriminate].
    eapply IH; [| |exact Hrun].
    + eapply singleFlight_step; eauto.
    + eapply framesOK_step; eauto.
Qed.

(** *** The refresh that waits for itself *)

Lemma stuck_step s ev s' :
  stuck s -> step s ev = Some s' ->
  stuck s' /\ localStorage s' = localStorage s /\
  (exists more, refreshSubscribers s' = refreshSubscribers s ++ more) /\
  wire s' = wire s
    ++ map (requestInterceptor (localStorage s)) (calledConfigs [ev]).
Proof.
  unfold stuck. intros (Hflag & Hzero) Hstep.
  destruct ev as [id config | i r]; cbn [step calledConfigs map] in *.
  - injection Hstep as <-. unfold axiosInstance. state_simpl.
    rewrite refreshesOf_app, refreshesOf_cons, refreshesOf_nil.
    cbn [refreshes]. repeat split; try done; try lia.
    exists []. by rewrite app_nil_r.
  - destruct (pending s !! i) as [[req k]|] eqn:Hi; [|discriminate].
    injection Hstep as <-. rewrite app_nil_r.
    rewrite (refreshesOf_delete _ _ _ _ Hi) in Hzero.
    destruct (refreshes_zero k) as [id ->]; [lia|].
    cbn [refreshes] in Hzero.
    assert (Hsettle : forall o,
      let s1 := resume (KCaller id) o (set_pending (delete i (pending s)) s) in
      (isRefreshing s1 = true /\ refreshesOf (pending s1) = 0) /\
      localStorage s1 = localStorage s /\
      (exists more, refreshSubscribers s1 = refreshSubscribers s ++ more) /\
      wire s1 = wire s).
    { intros o. cbn [resume]. state_simpl. repeat split; try done.
      exists []. by rewrite app_nil_r. }
    destruct r as [d | status message]; cbn [responseInterceptor];
      [apply Hsettle|].
    unfold responseError.
    destruct (is401 status && negb (_retry req)); [|apply Hsettle].
    cbn [isRefreshing set_pending]. rewrite Hflag.
    unfold onTokenRefreshed. state_simpl. repeat split; try done.
    by eexists.
Qed.

Lemma stuck_run evs : forall s s',
  stuck s -> run s evs = Some s' ->
  stuck s' /\ localStorage s' = localStorage s /\
  (exists more, refreshSubscribers s' = refreshSubscribers s ++ more) /\
  wire s' = wire s
    ++ map (requestInterceptor (localStorage s)) (calledConfigs evs).
Proof.
  induction evs as [|ev evs IH]; intros s s' Hst Hrun; cbn [run] in Hrun.
  - injection Hrun as <-. cbn. rewrite app_nil_r. repeat split; try apply Hst.
    exists []. by rewrite app_nil_r.
  - destruct (step s ev) as [s1|] eqn:Hstep; [|discriminate].
    destruct (stuck_step _ _ _ Hst Hstep) as (Hst1 & Hls1 & (m1 & Hq1) & Hw1).
    destruct (IH _ _ Hst1 Hrun) as (Hst' & Hls' & (m2 & Hq') & Hw').
    split; [exact Hst'|]. split; [congruence|]. split.
    + exists (m1 ++ m2). by rewrite Hq', Hq1, app_assoc.
    + rewrite Hw', Hw1, Hls1, <- app_assoc. f_equal.
      destruct ev; reflexivity.
Qed.

(** *** Storage *)

Lemma resume_other_keys key k : forall o s,
  key <> "token" ->
  localStorage (resume k o s) !! key = localStorage s !! key.
Proof.
  induction k as [id | orig tok k IH | orig tok err k IH]; intros o s Hkey;
    cbn [resume].
  - reflexivity.
  - destruct o; [rewrite refreshResolved_eq; state_simpl|reflexivity].
    by rewrite lookup_insert_ne.
  - destruct o; [rewrite refreshResolved_eq; state_simpl|].
    + by rewrite lookup_insert_ne.
    + rewrite IH by done. unfold refreshRejected. state_simpl.
      by rewrite lookup_delete_ne.
Qed.

Lemma step_other_keys key s ev s' :
  key <> "token" -> step s ev = Some s' ->
  localStorage s' !! key = localStorage s !! key.
Proof.
  intros Hkey Hstep. destruct ev as [id config | i r]; cbn [step] in Hstep.
  - by injection Hstep as <-.
  - destruct (pending s !! i) as [[req k]|]; [|discriminate].
    injection Hstep as <-.
    destruct r as [d | status message]; cbn [responseInterceptor].
    + by rewrite resume_other_keys.
    + unfold responseError.
      destruct (is401 status && negb (_retry req));
        [|by rewrite resume_other_keys].
      cbn [isRefreshing set_pending]. destruct (isRefreshing s); [done|].
      cbn [set_isRefreshing localStorage set_pending].
      destruct (localStorage s !! "token") as [t|]; [destruct (truthy t)|];
        try done; rewrite resume_other_keys by done;
        unfold refreshRejected; state_simpl; by rewrite lookup_delete_ne.
Qed.

End RestaurantPortalMoreFacts.

Section RestaurantPortalExtras.
Import RestaurantPortal RestaurantPortalSpec RestaurantPortalFacts
  RestaurantPortalMore RestaurantPortalMoreFacts.

(** X1. [UserService] neither loses nor duplicates a promise.  After any
    run from the initial state, the promises that are awaited (their request
    or the refresh made for it is on the wire, or the request is in the
    queue) together with the settled ones are exactly the promises the
    application made.  So when the application's promises are distinct, no
    promise settles twice and a settled promise is not awaited any more. *)
Theorem promises_neither_lost_nor_duplicated storage evs s :
  run (initial storage) evs = Some s ->
  promiseIds s ≡ₚ calledIds evs /\
  (NoDup (calledIds evs) ->
   NoDup (map fst (settled s)) /\
   NoDup (awaitedIds s) /\
   forall id, id ∈ awaitedIds s -> id ∉ map fst (settled s)).
Proof.
  intros Hrun. pose proof (promiseIds_run _ _ _ Hrun) as Hperm.
  cbn [initial promiseIds awaitedIds pending refreshSubscribers settled
       app map] in Hperm.
  split; [exact Hperm|]. intros Hnd. rewrite <- Hperm in Hnd.
  unfold promiseIds in Hnd. apply NoDup_app in Hnd as (H1 & H2 & H3). done.
Qed.

Lemma promises_neither_lost_nor_duplicated_witness :
  promiseIds
    (mkState false [(authorize "t0" Samples.menuRequest, KCaller 2)]
       (delete "token" Samples.restaurantStorage) []
       [authorize "t0" Samples.ordersRequest;
        authorize "t0" Samples.menuRequest;
        authorize "t0" (refreshTokenRequest "t0");
        authorize "t0" meRequest]
       [(1, Rejected (AxiosError (Some 500) None))])
  ≡ₚ [1; 2].
Proof.
  apply (promises_neither_lost_nor_duplicated Samples.restaurantStorage
    [Call 1 Samples.ordersRequest; Call 2 Samples.menuRequest;
     Respond 0 unauthorized; Respond 0 unauthorized;
     Respond 0 Samples.serverError; Respond 0 Samples.serverError]).
  vm_compute. reflexivity.
Defined.

(** X2. While a refresh is in progress in [UserService] the stored token is
    the one the refresh was started with.  In every state of a run from the
    initial state, a request that waits with the refresh of the interceptor
    is the refresh call (or, after its failure, the fallback call to
    /auth/me) carrying that token; the token is still the stored one; the
    request that started the refresh is flagged [_retry] and is awaited by a
    promise of the application; and [isRefreshing] is set. *)
Theorem refresh_in_progress_keeps_its_token storage evs s :
  run (initial storage) evs = Some s ->
  (forall req originalRequest token k,
     (req, KRefresh originalRequest token k)
       ∈ pending s ++ refreshSubscribers s ->
     req = authorize token (refreshTokenRequest token) /\
     _retry originalRequest = true /\
     localStorage s !! "token" = Some token /\ token <> "" /\
     (exists id, k = KCaller id) /\ isRefreshing s = true) /\
  (forall req originalRequest token error k,
     (req, KFallback originalRequest token error k)
       ∈ pending s ++ refreshSubscribers s ->
     req = authorize token meRequest /\
     _retry originalRequest = true /\
     localStorage s !! "token" = Some token /\ token <> "" /\
     (exists id, k = KCaller id) /\ isRefreshing s = true).
Proof.
  intros Hrun.
  destruct (framesOK_run evs (initial storage) s) as (Inv & Hfr);
    [apply singleFlight_initial | constructor | exact Hrun |].
  unfold framesOK in Hfr. rewrite Forall_forall in Hfr.
  assert (Hflag : forall rk, rk ∈ pending s ++ refreshSubscribers s ->
                    refreshes (snd rk) <> 0 -> isRefreshing s = true).
  { intros rk Hin Hne. unfold singleFlight, refreshOps in Inv.
    destruct (isRefreshing s); [reflexivity|]. exfalso. apply Hne.
    rewrite <- refreshesOf_app in Inv.
    apply list_elem_of_lookup in Hin as [i Hi]. destruct rk as [c k].
    rewrite (refreshesOf_delete _ _ _ _ Hi) in Inv. cbn [snd]. lia. }
  split.
  - intros req orig token k Hin.
    pose proof (Hfr _ Hin) as (H1 & H2 & H3 & H4 & H5). cbn [fst] in H1.
    repeat split; try done. by apply (Hflag _ Hin).
  - intros req orig token error k Hin.
    pose proof (Hfr _ Hin) as (H1 & H2 & H3 & H4 & H5). cbn [fst] in H1.
    repeat split; try done. by apply (Hflag _ Hin).
Qed.

Lemma refresh_in_progress_keeps_its_token_witness :
  localStorage
    (mkState true [] Samples.restaurantStorage
       [(authorize "t0" meRequest,
         KFallback (set_retry true (authorize "t0" Samples.ordersRequest))
                   "t0" (AxiosError (Some 500) None) (KCaller 1))]
       [authorize "t0" Samples.ordersRequest;
        authorize "t0" (refreshTokenRequest "t0");
        authorize "t0" meRequest] []) !! "token" = Some "t0".
Proof.
  destruct (refresh_in_progress_keeps_its_token Samples.restaurantStorage
    [Call 1 Samples.ordersRequest; Respond 0 unauthorized;
     Respond 0 Samples.serverError]
    (mkState true [] Samples.restaurantStorage
       [(authorize "t0" meRequest,
         KFallback (set_retry true (authorize "t0" Samples.ordersRequest))
                   "t0" (AxiosError (Some 500) None) (KCaller 1))]
       [authorize "t0" Samples.ordersRequest;
        authorize "t0" (refreshTokenRequest "t0");
        authorize "t0" meRequest] [])) as (_ & H);
    [vm_compute; reflexivity|].
  destruct (H (authorize "t0" meRequest)
              (set_retry true (authorize "t0" Samples.ordersRequest)) "t0"
              (AxiosError (Some 500) None) (KCaller 1))
    as (_ & _ & Htok & _).
  - cbn [pending refreshSubscribers app]. apply list_elem_of_here.
  - exact Htok.
Defined.

(** X3. The refresh call of [UserService] goes through the interceptor it
    was made from.  When the server answers the refresh call with 401, the
    interceptor puts the refresh call itself into the queue; from then on,
    whatever happens, [isRefreshing] stays set, no refresh call is on the
    wire or is made again, the stored token is not touched, the queue only
    grows (so the request that started the refresh and every request that
    fails authentication later wait for ever), and the only requests that
    go on the wire are the ones the application makes. *)
Theorem unauthorized_refresh_call_blocks_all_refreshing
    storage evs s i req originalRequest token k message s1 evs' s' :
  run (initial storage) evs = Some s ->
  pending s !! i = Some (req, KRefresh originalRequest token k) ->
  step s (Respond i (Failed (Some 401) message)) = Some s1 ->
  run s1 evs' = Some s' ->
  isRefreshing s' = true /\
  refreshCallsInFlight s' = 0 /\
  localStorage s' = localStorage s /\
  (exists more,
     refreshSubscribers s'
     = refreshSubscribers s
       ++ (req, KRefresh originalRequest token k) :: more) /\
  wire s' = wire s ++ map (authorize token) (calledConfigs evs').
Proof.
  intros Hrun Hi Hstep Hrun'.
  destruct (framesOK_run evs (initial storage) s) as (Inv & Hfr);
    [apply singleFlight_initial | constructor | exact Hrun |].
  assert (Hin : (req, KRefresh originalRequest token k)
                  ∈ pending s ++ refreshSubscribers s).
  { apply elem_of_app. left. eapply list_elem_of_lookup_2. exact Hi. }
  unfold framesOK in Hfr. rewrite Forall_forall in Hfr.
  pose proof (Hfr _ Hin) as Hframe.
  pose proof (frameOK_refresh_request _ _ _ _ _ Hframe) as Hretry.
  destruct Hframe as (_ & _ & Htok & Htruthy & _).
  rewrite (refresh_call_unauthorized_is_queued _ _ _ _ _ _ _ Inv Hi Hretry)
    in Hstep.
  injection Hstep as <-.
  assert (Hstuck : stuck
    (mkState true
       (refreshSubscribers s ++ [(req, KRefresh originalRequest token k)])
       (localStorage s) (delete i (pending s)) (wire s) (settled s))).
  { split; [reflexivity|]. state_simpl.
    unfold singleFlight, refreshOps in Inv.
    rewrite (refreshesOf_delete _ _ _ _ Hi) in Inv. cbn [refreshes] in Inv.
    destruct (isRefreshing s); lia. }
  destruct (stuck_run _ _ _ Hstuck Hrun')
    as ((Hflag & Hzero) & Hls & (more & Hq) & Hw).
  state_simpl.
  split; [exact Hflag|]. split.
  { pose proof (refreshCalls_le (pending s')). unfold refreshCallsInFlight.
    lia. }
  split; [exact Hls|]. split.
  - exists more. rewrite Hq. state_simpl. by rewrite <- app_assoc.
  - rewrite Hw. state_simpl. f_equal. apply map_ext. intros c.
    apply requestInterceptor_token; [exact Htok | by apply truthy_spec].
Qed.

Lemma unauthorized_refresh_call_blocks_all_refreshing_witness :
  isRefreshing
    (mkState true
       [(authorize "t0" (refreshTokenRequest "t0"),
         KRefresh (set_retry true (authorize "t0" Samples.ordersRequest))
                  "t0" (KCaller 1));
        (authorize "t0" Samples.menuRequest, KCaller 2)]
       Samples.restaurantStorage []
       [authorize "t0" Samples.ordersRequest;
        authorize "t0" (refreshTokenRequest "t0");
        authorize "t0" Samples.menuRequest] []) = true /\
  wire
    (mkState true
       [(authorize "t0" (refreshTokenRequest "t0"),
         KRefresh (set_retry true (authorize "t0" Samples.ordersRequest))
                  "t0" (KCaller 1));
        (authorize "t0" Samples.menuRequest, KCaller 2)]
       Samples.restaurantStorage []
       [authorize "t0" Samples.ordersRequest;
        authorize "t0" (refreshTokenRequest "t0");
        authorize "t0" Samples.menuRequest] [])
  = [authorize "t0" Samples.ordersRequest;
     authorize "t0" (refreshTokenRequest "t0")]
    ++ map (authorize "t0") [Samples.menuRequest].
Proof.
  destruct (unauthorized_refresh_call_blocks_all_refreshing
    Samples.restaurantStorage
    [Call 1 Samples.ordersRequest; Respond 0 unauthorized]
    (mkState true [] Samples.restaurantStorage
       [(authorize "t0" (refreshTokenRequest "t0"),
         KRefresh (set_retry true (authorize "t0" Samples.ordersRequest))
                  "t0" (KCaller 1))]
       [authorize "t0" Samples.ordersRequest;
        authorize "t0" (refreshTokenRequest "t0")] [])
    0 (authorize "t0" (refreshTokenRequest "t0"))
    (set_retry true (authorize "t0" Samples.ordersRequest)) "t0" (KCaller 1)
    None
    (mkState true
       [(authorize "t0" (refreshTokenRequest "t0"),
         KRefresh (set_retry true (authorize "t0" Samples.ordersRequest))
                  "t0" (KCaller 1))]
       Samples.restaurantStorage []
       [authorize "t0" Samples.ordersRequest;
        authorize "t0" (refreshTokenRequest "t0")] [])
    [Call 2 Samples.menuRequest; Respond 0 unauthorized]
    (mkState true
       [(authorize "t0" (refreshTokenRequest "t0"),
         KRefresh (set_retry true (authorize "t0" Samples.ordersRequest))
                  "t0" (KCaller 1));
        (authorize "t0" Samples.menuRequest, KCaller 2)]
       Samples.restaurantStorage []
       [authorize "t0" Samples.ordersRequest;
        authorize "t0" (refreshTokenRequest "t0");
        authorize "t0" Samples.menuRequest] []))
    as (H1 & _ & _ & _ & H2);
    [vm_compute; reflexivity | reflexivity | vm_compute; reflexivity
    | vm_compute; reflexivity |].
  split; [exact H1 | exact H2].
Defined.

(** X4. An authentication failure in [UserService] while no token is stored
    (none, or the empty string) starts no refresh: nothing goes on the wire,
    the promise of the caller is rejected with the error "No token found"
    in place of the 401 answer, the key [token] is removed, and
    [isRefreshing] is left unset; the queue is not touched. *)
Theorem unauthorized_without_token_is_rejected s i req id message :
  pending s !! i = Some (req, KCaller id) -> _retry req = false ->
  isRefreshing s = false ->
  truthy_opt (localStorage s !! "token") = false ->
  exists s',
    step s (Respond i (Failed (Some 401) message)) = Some s' /\
    wire s' = wire s /\
    pending s' = delete i (pending s) /\
    settled s' = settled s ++ [(id, Rejected (JsError "No token found"))] /\
    localStorage s' !! "token" = None /\
    isRefreshing s' = false /\
    refreshSubscribers s' = refreshSubscribers s.
Proof.
  intros Hi Hretry Hflag Htok. eexists.
  rewrite (step_respond _ _ _ _ _ Hi). split; [reflexivity|].
  cbn [responseInterceptor]. unfold responseError.
  rewrite Hretry. cbn [is401 Nat.eqb andb negb isRefreshing set_pending].
  rewrite Hflag. cbn [set_isRefreshing localStorage set_pending].
  destruct (localStorage s !! "token") as [t|]; cbn [truthy_opt] in Htok;
    [rewrite Htok|]; unfold refreshRejected; cbn [resume]; state_simpl;
    repeat split; apply lookup_delete_eq.
Qed.

Lemma unauthorized_without_token_is_rejected_witness :
  exists s',
    step (mkState false [] ∅ [(Samples.ordersRequest, KCaller 1)]
            [Samples.ordersRequest] [])
         (Respond 0 unauthorized) = Some s' /\
    wire s' = [Samples.ordersRequest] /\
    settled s' = [(1, Rejected (JsError "No token found"))].
Proof.
  destruct (unauthorized_without_token_is_rejected
    (mkState false [] ∅ [(Samples.ordersRequest, KCaller 1)]
       [Samples.ordersRequest] [])
    0 Samples.ordersRequest 1 None)
    as (s' & Hstep & Hw & _ & Hset & _);
    [reflexivity | reflexivity | reflexivity | reflexivity |].
  exists s'. split; [exact Hstep|]. split; [exact Hw | exact Hset].
Defined.

(** X5. A refresh does not hold up the requests that do not fail
    authentication.  In any state of [UserService], also while a refresh is
    in flight, a success answer or an error other than 401 to a request of
    the application (and a 401 to a request that is already flagged
    [_retry]) settles the promise of the caller with exactly that answer;
    flag, queue, storage and wire stay as they are. *)
Theorem other_answers_pass_through s i req id r :
  pending s !! i = Some (req, KCaller id) ->
  notAuthFailure r \/ _retry req = true ->
  step s (Respond i r)
  = Some (mkState (isRefreshing s) (refreshSubscribers s) (localStorage s)
            (delete i (pending s)) (wire s)
            (settled s ++ [(id, outcomeOf r)])).
Proof.
  intros Hi Hr. rewrite (step_respond _ _ _ _ _ Hi).
  destruct r as [d | status message]; cbn [responseInterceptor outcomeOf].
  - reflexivity.
  - rewrite responseError_surface; [reflexivity|].
    destruct Hr as [Hr | Hr]; [cbn [notAuthFailure] in Hr; by rewrite Hr|].
    rewrite Hr. apply andb_false_r.
Qed.

Lemma other_answers_pass_through_witness :
  step (mkState true [] Samples.restaurantStorage
          [(authorize "t0" Samples.menuRequest, KCaller 2);
           (authorize "t0" (refreshTokenRequest "t0"),
            KRefresh (set_retry true (authorize "t0" Samples.ordersRequest))
                     "t0" (KCaller 1))]
          [] [])
       (Respond 0 Samples.serverError)
  = Some (mkState true [] Samples.restaurantStorage
            [(authorize "t0" (refreshTokenRequest "t0"),
              KRefresh (set_retry true (authorize "t0" Samples.ordersRequest))
                       "t0" (KCaller 1))]
            [] [(2, Rejected (AxiosError (Some 500) None))]).
Proof.
  apply (other_answers_pass_through
    (mkState true [] Samples.restaurantStorage
       [(authorize "t0" Samples.menuRequest, KCaller 2);
        (authorize "t0" (refreshTokenRequest "t0"),
         KRefresh (set_retry true (authorize "t0" Samples.ordersRequest))
                  "t0" (KCaller 1))]
       [] [])
    0 (authorize "t0" Samples.menuRequest) 2 Samples.serverError);
    [reflexivity | left; reflexivity].
Defined.

(** X6. [UserService] writes no key of the local storage but [token]: over
    any run, from any state, every other key keeps its value. *)
Theorem only_the_token_key_is_written s evs s' key :
  key <> "token" -> run s evs = Some s' ->
  localStorage s' !! key = localStorage s !! key.
Proof.
  intros Hkey. revert s. induction evs as [|ev evs IH]; intros s Hrun;
    cbn [run] in Hrun.
  - by injection Hrun as <-.
  - destruct (step s ev) as [s1|] eqn:Hstep; [|discriminate].
    rewrite (IH _ Hrun). by apply (step_other_keys key s ev).
Qed.

Lemma only_the_token_key_is_written_witness :
  localStorage
    (mkState false [] (<["token" := "t1"]> (<["theme" := "dark"]> ∅))
       [(set_retry true (authorize "t1" Samples.ordersRequest), KCaller 1)]
       [authorize "t0" Samples.ordersRequest;
        authorize "t0" (refreshTokenRequest "t0");
        set_retry true (authorize "t1" Samples.ordersRequest)] [])
    !! "theme" = Some "dark".
Proof.
  rewrite (only_the_token_key_is_written
    (mkState true [] (<["token" := "t0"]> (<["theme" := "dark"]> ∅))
       [(authorize "t0" (refreshTokenRequest "t0"),
         KRefresh (set_retry true (authorize "t0" Samples.ordersRequest))
                  "t0" (KCaller 1))]
       [authorize "t0" Samples.ordersRequest;
        authorize "t0" (refreshTokenRequest "t0")] [])
    [Respond 0 (Fulfilled (Samples.tokens "t1" "r1"))]);
    [vm_compute; reflexivity | discriminate | vm_compute; reflexivity].
Defined.

End RestaurantPortalExtras.

(** ** Admin portal *)

Module AdminPortalMoreFacts.
Import AdminPortal AdminPortalSpec AdminPortalFacts AdminPortalMore.

Lemma userStored_clearSession s : userStored (clearSession s).
Proof.
  unfold userStored, clearSession. state_simpl. by rewrite lookup_delete_eq.
Qed.

Lemma userStored_logout k after s :
  userStored s -> (forall s', userStored s' -> userStored (after s')) ->
  userStored (logout k after s).
Proof.
  intros Hs Hafter. unfold logout.
  destruct (sessionStorage s !! "adminToken") as [t|];
    [destruct (truthy_json t)|]; try exact Hs;
    apply Hafter, userStored_clearSession.
Qed.

Lemma userStored_storeTokens d s :
  userStored s -> userStored (storeTokens d s).
Proof.
  intros Hu. unfold userStored, storeTokens. state_simpl.
  by rewrite !lookup_insert_ne.
Qed.

Lemma userStored_installSession d s : userStored (installSession d s).
Proof.
  unfold userStored, installSession. state_simpl.
  by rewrite lookup_insert_eq.
Qed.

Lemma userStored_resume k :
  forall r s, userStored s -> userStored (resume k r s).
Proof.
  induction k as [id | k IH | k IH | e k IH | k IH | c k IH | e k IH];
    intros r s Hs; cbn [resume].
  - exact Hs.
  - destruct r as [[d| |]|e]; try by apply IH.
    destruct (truthy (d_token d)) eqn:Ht; [|by apply IH].
    apply IH. by apply userStored_installSession.
  - assert (Hcatch : forall e, userStored (refreshCatch e k (resume k) s)).
    { intros e. unfold refreshCatch. apply userStored_logout; [exact Hs|].
      intros s' Hs'. by apply IH. }
    destruct r as [[d| |]|e]; try apply Hcatch.
    destruct (truthy (d_token d)) eqn:Ht; [|apply Hcatch].
    apply IH. by apply userStored_storeTokens.
  - by apply IH.
  - apply IH, userStored_clearSession.
  - destruct r as [v|e]; [exact Hs|].
    apply userStored_logout; [exact Hs|]. intros s' Hs'. by apply IH.
  - by apply IH.
Qed.

Lemma userStored_step s ev s' :
  userStored s -> step s ev = Some s' -> userStored s'.
Proof.
  intros Hs Hstep. destruct ev as [id c | id e p | id | id | i r];
    cbn [step] in Hstep.
  - by injection Hstep as <-.
  - by injection Hstep as <-.
  - injection Hstep as <-. apply userStored_logout; [exact Hs|].
    intros s' Hs'. exact (userStored_resume (KApp id) (Ok VVoid) s' Hs').
  - injection Hstep as <-. unfold refreshToken.
    assert (Hcatch : forall e,
      userStored (refreshCatch e (KApp id) (resume (KApp id)) s)).
    { intros e. unfold refreshCatch. apply userStored_logout; [exact Hs|].
      intros s' Hs'. exact (userStored_resume (KApp id) (Err e) s' Hs'). }
    destruct (sessionStorage s !! "refreshToken") as [rt|];
      [destruct (truthy_json rt)|]; try apply Hcatch. exact Hs.
  - destruct (pending s !! i) as [[req k]|]; [|discriminate].
    injection Hstep as <-.
    set (s0 := set_pending (delete i (pending s)) s).
    assert (Hs0 : userStored s0) by exact Hs.
    destruct r as [d | status message]; cbn [responseInterceptor];
      [by apply userStored_resume|].
    unfold responseError. destruct (is401 status);
      [|by apply userStored_resume].
    unfold refreshToken.
    assert (Hcatch : forall e,
      userStored (refreshCatch e (KIntercept req k)
                    (resume (KIntercept req k)) s0)).
    { intros e. unfold refreshCatch. apply userStored_logout; [exact Hs0|].
      intros s' Hs'.
      exact (userStored_resume (KIntercept req k) (Err e) s' Hs'). }
    destruct (sessionStorage s0 !! "refreshToken") as [rt|];
      [destruct (truthy_json rt)|]; try apply Hcatch. exact Hs0.
Qed.

(** [getCurrentUser] and [init] keep the user and the stored user equal. *)
Lemma userStored_finish caller id r s :
  userStored (AdminSession.provider s) ->
  userStored (AdminSession.provider (AdminSession.finish caller id r s)).
Proof.
  intros Hs. destruct caller; [exact Hs|].
  destruct r; [exact Hs|]. apply userStored_clearSession.
Qed.

Lemma userStored_getCurrentUser caller id s :
  userStored (AdminSession.provider s) ->
  userStored
    (AdminSession.provider (AdminSession.getCurrentUser caller id s)).
Proof.
  intros Hs. unfold AdminSession.getCurrentUser.
  destruct (sessionStorage (AdminSession.provider s) !! "adminToken")
    as [t|]; [destruct (truthy_json t)|];
    try by apply userStored_finish.
  exact Hs.
Qed.

Lemma userStored_settleOne s entry :
  userStored (AdminSession.provider s) ->
  userStored (AdminSession.provider (AdminSession.settleOne s entry)).
Proof.
  intros Hs. unfold AdminSession.settleOne.
  destruct (AdminSession.getting s !! entry.1) as [caller|]; [|exact Hs].
  unfold AdminSession.resumeGetCurrentUser.
  destruct entry.2 as [[d| |]|e]; try by apply userStored_finish.
  apply userStored_finish. unfold userStored, AdminSession.gotUser.
  cbn [AdminSession.provider AdminSession.set_provider]. state_simpl.
  by rewrite lookup_insert_eq.
Qed.

Lemma userStored_deliver entries : forall s,
  userStored (AdminSession.provider s) ->
  userStored
    (AdminSession.provider (fold_left AdminSession.settleOne entries s)).
Proof.
  induction entries as [|entry entries IH]; intros s Hs; [exact Hs|].
  cbn [fold_left]. by apply IH, userStored_settleOne.
Qed.

Lemma userStored_session_step s ev s' :
  userStored (AdminSession.provider s) ->
  AdminSession.step s ev = Some s' ->
  userStored (AdminSession.provider s').
Proof.
  intros Hs. destruct ev as [ev | n | n]; cbn [AdminSession.step].
  - destruct (step (AdminSession.provider s) (AdminSession.renumber ev))
      as [p'|] eqn:Hstep; [|discriminate].
    intros [= <-]. unfold AdminSession.deliver. apply userStored_deliver.
    cbn [AdminSession.provider AdminSession.set_provider].
    by eapply userStored_step.
  - destruct (AdminSession.getting s !! (2 * n + 1)); [discriminate|].
    intros [= <-]. by apply userStored_getCurrentUser.
  - destruct (AdminSession.getting s !! (2 * n + 1)); [discriminate|].
    intros [= <-]. unfold AdminSession.init.
    destruct (sessionStorage (AdminSession.provider s) !! "adminToken")
      as [t|]; [destruct (truthy_json t)|]; try exact Hs.
    by apply userStored_getCurrentUser.
Qed.

Lemma userStored_initial storage : userStored (initial storage).
Proof. reflexivity. Qed.

Lemma deliver_none p p' s :
  settled p' = settled p ->
  AdminSession.deliver p p' s = AdminSession.set_provider p' s.
Proof.
  intros H. unfold AdminSession.deliver. by rewrite H, drop_all.
Qed.

Lemma deliver_one p p' s entry :
  settled p' = settled p ++ [entry] ->
  AdminSession.deliver p p' s
  = AdminSession.settleOne (AdminSession.set_provider p' s) entry.
Proof.
  intros H. unfold AdminSession.deliver. by rewrite H, drop_app_length.
Qed.

(** *** The interceptor, step by step *)

Lemma last_index {A} (l : list A) i x :
  l !! i = Some x -> length l - 1 = length (delete i l).
Proof. intros H. rewrite length_delete; [reflexivity | by rewrite H]. Qed.

(** An authentication failure makes the interceptor call [refreshToken];
    with a stored refresh token the refresh call goes on the wire. *)
Lemma intercept_starts_refresh s i req k message token rt :
  hasTokens token rt s -> pending s !! i = Some (req, k) ->
  step s (Respond i (Failed (Some 401) message))
  = Some (mkState (sessionStorage s) (user s) (isAuthenticated s)
            (delete i (pending s)
             ++ [(authorize token (refreshRequest rt),
                  KRefreshPost (KIntercept req k))])
            (wire s ++ [authorize token (refreshRequest rt)]) (settled s)).
Proof.
  intros (Ht & Hrt & Htt & Hrtt) Hi.
  rewrite (admin_step_respond _ _ _ _ _ Hi).
  cbn [responseInterceptor]. unfold responseError.
  cbn [is401 Nat.eqb]. unfold refreshToken. state_simpl. rewrite Hrt.
  cbn [truthy_json to_string]. rewrite Hrtt. unfold axios. state_simpl.
  by rewrite (admin_requestInterceptor_token _ _ _ Ht Htt).
Qed.

Lemma refreshChain_shift config n k :
  refreshChain config n (KIntercept config (KRefreshPost k))
  = KIntercept config (KRefreshPost (refreshChain config n k)).
Proof. induction n as [|n IH]; cbn [refreshChain]; [done | by rewrite IH]. Qed.

Lemma logoutChain_shift error config n k :
  logoutChain error config n
    (KRefreshCatch error (KIntercept config (KLogoutPost k)))
  = KRefreshCatch error
      (KIntercept config (KLogoutPost (logoutChain error config n k))).
Proof. induction n as [|n IH]; cbn [logoutChain]; [done | by rewrite IH]. Qed.

(** The refresh call answered 401, [n] times over. *)
Lemma run_refresh_unauthorized token rt n : forall s k,
  hasTokens token rt s ->
  pending s = [(authorize token (refreshRequest rt), KRefreshPost k)] ->
  run s (repeat (Respond 0 unauthorized) n)
  = Some (mkState (sessionStorage s) (user s) (isAuthenticated s)
            [(authorize token (refreshRequest rt),
              KRefreshPost
                (refreshChain (authorize token (refreshRequest rt)) n k))]
            (wire s ++ repeat (authorize token (refreshRequest rt)) n)
            (settled s)).
Proof.
  induction n as [|n IH]; intros s k Htok Hp; cbn [repeat run].
  - cbn [refreshChain]. rewrite app_nil_r, <- Hp. by destruct s.
  - unfold unauthorized at 1.
    rewrite (intercept_starts_refresh s 0 _ (KRefreshPost k) None token rt)
      by (try done; by rewrite Hp).
    rewrite Hp. cbn [delete list_delete app].
    rewrite (IH _ (KIntercept (authorize token (refreshRequest rt))
                              (KRefreshPost k))) by done.
    state_simpl. rewrite refreshChain_shift, <- app_assoc. reflexivity.
Qed.

(** The logout call answered 401 and the refresh call failed, [n] times
    over, with what then awaits the logout call. *)
Lemma run_rejectThenFail_chain token rt status message n : forall s k,
  hasTokens token rt s -> is401 status = false ->
  pending s = [(authorize token (logoutRequest token), KLogoutPost k)] ->
  run s (rejectThenFail status message n)
  = Some (mkState (sessionStorage s) (user s) (isAuthenticated s)
            [(authorize token (logoutRequest token),
              KLogoutPost
                (logoutChain (AxiosError status message)
                   (authorize token (logoutRequest token)) n k))]
            (wire s
             ++ concat (repeat [authorize token (refreshRequest rt);
                                authorize token (logoutRequest token)] n))
            (settled s)).
Proof.
  induction n as [|n IH]; intros s k Htok Hst Hp.
  - cbn. rewrite app_nil_r, <- Hp. by destruct s.
  - unfold rejectThenFail. cbn [repeat concat].
    rewrite admin_run_app,
      (round_logout s token rt k status message Htok Hst Hp).
    fold (rejectThenFail status message n).
    rewrite (IH _ (KRefreshCatch (AxiosError status message)
                     (KIntercept (authorize token (logoutRequest token))
                                 (KLogoutPost k)))) by done.
    state_simpl. rewrite logoutChain_shift, <- app_assoc. reflexivity.
Qed.

(** When the logout call at the end of the chain settles, every [logout]
    and [refreshToken] that waits in the chain returns, and what awaited the
    first [logout] goes on in a state without session. *)
Lemma logoutChain_unwinds error config k n : forall r s,
  exists s0,
    resume (KLogoutPost (logoutChain error config n k)) r s
    = resume k (Ok VVoid) s0 /\
    NoSession s0 /\ pending s0 = pending s /\ wire s0 = wire s /\
    settled s0 = settled s.
Proof.
  induction n as [|n IH]; intros r s; cbn [logoutChain resume].
  - exists (clearSession s). split; [reflexivity|].
    split; [apply clearSession_NoSession | done].
  - rewrite logout_no_token by apply (clearSession_NoSession s).
    destruct (IH (Err error) (clearSession (clearSession s)))
      as (s0 & Heq & Hno & Hp & Hw & Hs).
    exists s0. split; [exact Heq|]. split; [exact Hno | done].
Qed.

End AdminPortalMoreFacts.

Section AdminPortalExtras.
Import AdminPortal AdminPortalSpec AdminPortalFacts AdminPortalMore
  AdminPortalMoreFacts.

(** X7. The user of the admin provider is always the stored user.  After
    any run of axios calls, [login], [logout], [refreshToken],
    [getCurrentUser], the [init] effect and answers of the network from the
    initial state, [user] is the stored [adminUser] (none when the key is
    absent).  The authenticated flag is not tied to the stored token in
    that way: when [logout] runs while the request of [getCurrentUser] is
    on the wire, the late answer of /auth/me leaves the provider
    authenticated, with a user, while no [adminToken] is stored. *)
Theorem provider_state_agrees_with_storage :
  (forall storage evs s,
     AdminSession.run (AdminSession.initial storage) evs = Some s ->
     user (AdminSession.provider s)
     = match sessionStorage (AdminSession.provider s) !! "adminUser" with
       | Some (JUser u) => Some u
       | _ => None
       end) /\
  (forall s token n m r d,
     sessionStorage (AdminSession.provider s) !! "adminToken"
       = Some (JString token) ->
     token <> "" ->
     pending (AdminSession.provider s) = [] ->
     AdminSession.getting s = ∅ ->
     notAuthFailure r ->
     exists s',
       AdminSession.run s
         [AdminSession.GetCurrentUser n;
          AdminSession.Provider (Logout m);
          AdminSession.Provider (Respond 1 r);
          AdminSession.Provider (Respond 0 (Fulfilled d))] = Some s' /\
       isAuthenticated (AdminSession.provider s') = true /\
       user (AdminSession.provider s') = Some (d_user d) /\
       sessionStorage (AdminSession.provider s') !! "adminToken" = None /\
       AdminSession.returned s'
         = AdminSession.returned s ++ [((2 * n + 1)%nat, Ok VVoid)]).
Proof.
  split.
  - intros storage evs s.
    pose proof (userStored_initial storage) as Hinit.
    change (userStored (AdminSession.provider
                          (AdminSession.initial storage))) in Hinit.
    revert Hinit. generalize (AdminSession.initial storage).
    induction evs as [|ev evs IH]; intros s0 Hs0 Hrun;
      cbn [AdminSession.run] in Hrun.
    + by injection Hrun as <-.
    + destruct (AdminSession.step s0 ev) as [s1|] eqn:Hstep; [|discriminate].
      eapply IH; [|exact Hrun]. by eapply userStored_session_step.
  - intros s token n m r d Ht Hne Hp Hg Hr.
    destruct s as [p g ini ret]. destruct p as [st u a pe w se].
    cbn [AdminSession.provider AdminSession.getting AdminSession.returned
         sessionStorage pending] in *. subst pe g.
    apply truthy_spec in Hne.
    set (me := authorize token (AdminSession.meRequest token)).
    set (lo := authorize token (logoutRequest token)).
    set (waiting := <[(2 * n + 1)%nat := AdminSession.App]>
                      (∅ : gmap nat AdminSession.Caller)).
    set (p1 := mkState st u a [(me, KApp (2 * n + 1))] (w ++ [me]) se).
    set (p2 := mkState st u a
                 [(me, KApp (2 * n + 1)); (lo, KLogoutPost (KApp (2 * m)))]
                 ((w ++ [me]) ++ [lo]) se).
    set (p3 := mkState
                 (delete "adminUser"
                    (delete "refreshToken" (delete "adminToken" st)))
                 None false [(me, KApp (2 * n + 1))]
                 ((w ++ [me]) ++ [lo]) (se ++ [((2 * m)%nat, Ok VVoid)])).
    set (p4 := mkState
                 (<["adminUser" := JUser (d_user d)]>
                    (delete "adminUser"
                       (delete "refreshToken" (delete "adminToken" st))))
                 (Some (d_user d)) true [] ((w ++ [me]) ++ [lo])
                 ((se ++ [((2 * m)%nat, Ok VVoid)])
                    ++ [((2 * n + 1)%nat, Ok (VResponse d))])).
    assert (H1 : AdminSession.step
                   (AdminSession.mkState (mkState st u a [] w se) ∅ ini ret)
                   (AdminSession.GetCurrentUser n)
                 = Some (AdminSession.mkState p1 waiting ini ret)).
    { cbn [AdminSession.step AdminSession.getting]. rewrite lookup_empty.
      unfold AdminSession.getCurrentUser.
      cbn [AdminSession.provider sessionStorage]. rewrite Ht.
      cbn [truthy_json to_string]. rewrite Hne. unfold axios.
      cbn [sessionStorage].
      by rewrite (admin_requestInterceptor_token _ token). }
    assert (H2 : AdminSession.step
                   (AdminSession.mkState p1 waiting ini ret)
                   (AdminSession.Provider (Logout m))
                 = Some (AdminSession.mkState p2 waiting ini ret)).
    { cbn [AdminSession.step AdminSession.renumber AdminSession.provider
           step].
      rewrite (logout_token _ _ _ token) by done.
      by rewrite deliver_none. }
    assert (H3 : AdminSession.step
                   (AdminSession.mkState p2 waiting ini ret)
                   (AdminSession.Provider (Respond 1 r))
                 = Some (AdminSession.mkState p3 waiting ini ret)).
    { cbn [AdminSession.step AdminSession.renumber AdminSession.provider].
      rewrite (admin_step_respond _ 1 r lo (KLogoutPost (KApp (2 * m))))
        by reflexivity.
      assert (responseInterceptor lo r (KLogoutPost (KApp (2 * m)))
                (set_pending (delete 1 (pending p2)) p2) = p3) as ->.
      { destruct r as [d' | status' message'];
          cbn [responseInterceptor]; [reflexivity|].
        cbn [notAuthFailure] in Hr. unfold responseError. by rewrite Hr. }
      rewrite (deliver_one _ _ _ ((2 * m)%nat, Ok VVoid)) by reflexivity.
      unfold AdminSession.settleOne.
      cbn [AdminSession.set_provider AdminSession.getting fst].
      unfold waiting. rewrite lookup_insert_ne by lia.
      by rewrite lookup_empty. }
    assert (H4 : AdminSession.step
                   (AdminSession.mkState p3 waiting ini ret)
                   (AdminSession.Provider (Respond 0 (Fulfilled d)))
                 = Some (AdminSession.mkState p4
                           (delete (2 * n + 1)%nat waiting) ini
                           (ret ++ [((2 * n + 1)%nat, Ok VVoid)]))).
    { cbn [AdminSession.step AdminSession.renumber AdminSession.provider].
      rewrite (admin_step_respond _ 0 (Fulfilled d) me (KApp (2 * n + 1)))
        by reflexivity.
      cbn [responseInterceptor resume].
      rewrite (deliver_one _ _ _ ((2 * n + 1)%nat, Ok (VResponse d)))
        by reflexivity.
      unfold AdminSession.settleOne.
      cbn [AdminSession.set_provider AdminSession.getting fst snd].
      unfold waiting at 1. rewrite lookup_insert_eq. reflexivity. }
    eexists. cbn [AdminSession.run]. rewrite H1, H2, H3, H4.
    split; [reflexivity|].
    cbn [AdminSession.provider AdminSession.returned].
    split; [reflexivity|]. split; [reflexivity|]. split; [|reflexivity].
    unfold p4. cbn [sessionStorage].
    rewrite lookup_insert_ne by done.
    rewrite lookup_delete_ne by done. rewrite lookup_delete_ne by done.
    apply lookup_delete_eq.
Qed.

Lemma provider_state_agrees_with_storage_witness :
  exists s',
    AdminSession.run (AdminSession.initial Samples.adminStorage)
      [AdminSession.GetCurrentUser 0;
       AdminSession.Provider (Logout 0);
       AdminSession.Provider (Respond 1 Samples.serverError);
       AdminSession.Provider
         (Respond 0 (Fulfilled (Samples.tokens "t1" "r1")))] = Some s' /\
    isAuthenticated (AdminSession.provider s') = true /\
    user (AdminSession.provider s') = Some Samples.alice /\
    sessionStorage (AdminSession.provider s') !! "adminToken" = None.
Proof.
  destruct provider_state_agrees_with_storage as (_ & H).
  destruct (H (AdminSession.initial Samples.adminStorage) "t0" 0 0
              Samples.serverError (Samples.tokens "t1" "r1"))
    as (s' & Hrun & Ha & Hu & Ht & _);
    [reflexivity | discriminate | reflexivity | reflexivity | reflexivity |].
  exists s'. split; [exact Hrun|]. split; [exact Ha|].
  split; [exact Hu | exact Ht].
Defined.

(** X8. The admin interceptor recovers a request whose token expired.  When
    a request of the application is answered 401 and the refresh call
    succeeds with a token, the new token and refresh token are stored, the
    request goes on the wire again with the new token, and the answer to
    that second attempt (a success, or an error other than 401) settles the
    promise of the caller.  User and authenticated flag are not touched, and
    exactly two requests were added to the wire. *)
Theorem expired_request_is_refreshed_and_answered
    s i req id token rt d r :
  hasTokens token rt s -> pending s !! i = Some (req, KApp id) ->
  d_token d <> "" -> notAuthFailure r ->
  exists s',
    run s [Respond i unauthorized;
           Respond (length (pending s) - 1) (Fulfilled d);
           Respond (length (pending s) - 1) r] = Some s' /\
    settled s' = settled s ++ [(id, resultOf r)] /\
    wire s' = wire s ++ [authorize token (refreshRequest rt);
                         authorize (d_token d) req] /\
    pending s' = delete i (pending s) /\
    sessionStorage s' !! "adminToken" = Some (JString (d_token d)) /\
    sessionStorage s' !! "refreshToken" = Some (JString (d_refreshToken d)) /\
    user s' = user s /\ isAuthenticated s' = isAuthenticated s.
Proof.
  intros Htok Hi Hd Hr. apply truthy_spec in Hd. eexists. cbn [run].
  unfold unauthorized.
  rewrite (intercept_starts_refresh _ _ _ _ _ _ _ Htok Hi).
  rewrite (last_index _ _ _ Hi).
  rewrite (admin_step_respond _ (length (delete i (pending s))) _
             (authorize token (refreshRequest rt))
             (KRefreshPost (KIntercept req (KApp id))))
    by (state_simpl; by apply list_lookup_middle).
  state_simpl. cbn [responseInterceptor resume]. rewrite Hd.
  rewrite delete_middle, app_nil_r. cbn [resume].
  unfold storeTokens at 1 2. state_simpl.
  rewrite lookup_insert_ne by done. rewrite lookup_insert_eq.
  cbn [to_string_opt to_string]. unfold axios.
  rewrite (admin_requestInterceptor_token _ (d_token d))
    by (try done; unfold storeTokens; state_simpl;
        rewrite lookup_insert_ne by done; apply lookup_insert_eq).
  rewrite authorize_authorize. unfold storeTokens. state_simpl.
  rewrite (admin_step_respond _ (length (delete i (pending s))) _
             (authorize (d_token d) req) (KApp id))
    by (state_simpl; by apply list_lookup_middle).
  split; [reflexivity|]. state_simpl.
  rewrite delete_middle, app_nil_r.
  assert (Hres : forall s0,
    responseInterceptor (authorize (d_token d) req) r (KApp id) s0
    = resume (KApp id) (resultOf r) s0).
  { intros s0. destruct r as [d' | status message];
      cbn [responseInterceptor resultOf]; [reflexivity|].
    cbn [notAuthFailure] in Hr. unfold responseError. by rewrite Hr. }
  rewrite Hres. cbn [resume]. state_simpl.
  split; [reflexivity|]. split; [by rewrite <- app_assoc|].
  split; [reflexivity|]. split.
  - rewrite lookup_insert_ne by done. apply lookup_insert_eq.
  - split; [apply lookup_insert_eq | done].
Qed.

Lemma expired_request_is_refreshed_and_answered_witness :
  exists s',
    run (mkState Samples.adminStorage (Some Samples.alice) true
           [(authorize "t0" Samples.ordersRequest, KApp 1)]
           [authorize "t0" Samples.ordersRequest] [])
        [Respond 0 unauthorized;
         Respond 0 (Fulfilled (Samples.tokens "t1" "r1"));
         Respond 0 Samples.serverError] = Some s' /\
    settled s' = [(1, Err (AxiosError (Some 500) None))] /\
    wire s' = [authorize "t0" Samples.ordersRequest;
               authorize "t0" (refreshRequest "r0");
               authorize "t1" (authorize "t0" Samples.ordersRequest)].
Proof.
  destruct (expired_request_is_refreshed_and_answered
    (mkState Samples.adminStorage (Some Samples.alice) true
       [(authorize "t0" Samples.ordersRequest, KApp 1)]
       [authorize "t0" Samples.ordersRequest] [])
    0 (authorize "t0" Samples.ordersRequest) 1 "t0" "r0"
    (Samples.tokens "t1" "r1") Samples.serverError)
    as (s' & Hrun & Hset & Hw & _);
    [repeat split | reflexivity | discriminate | reflexivity |].
  exists s'. split; [exact Hrun|]. split; [exact Hset | exact Hw].
Defined.

(** X9. When the refresh fails, the admin interceptor ends the session and
    hands the caller the error of the refresh call, not the 401 of its own
    request.  A request is answered 401, the refresh call fails with an
    error other than 401, and the logout call that [refreshToken] then
    makes is answered (with anything but 401): the three storage keys, the
    user and the authenticated flag are cleared, the promise of the caller
    is rejected with the refresh error, and the request is not sent
    again. *)
Theorem failed_refresh_ends_the_session
    s i req id token rt status message r :
  hasTokens token rt s -> pending s !! i = Some (req, KApp id) ->
  is401 status = false -> notAuthFailure r ->
  exists s',
    run s [Respond i unauthorized;
           Respond (length (pending s) - 1) (Failed status message);
           Respond (length (pending s) - 1) r] = Some s' /\
    NoSession s' /\
    settled s' = settled s ++ [(id, Err (AxiosError status message))] /\
    wire s' = wire s ++ [authorize token (refreshRequest rt);
                         authorize token (logoutRequest token)] /\
    pending s' = delete i (pending s).
Proof.
  intros Htok Hi Hst Hr. eexists. cbn [run]. unfold unauthorized.
  rewrite (intercept_starts_refresh _ _ _ _ _ _ _ Htok Hi).
  rewrite (last_index _ _ _ Hi).
  rewrite (admin_step_respond _ (length (delete i (pending s))) _
             (authorize token (refreshRequest rt))
             (KRefreshPost (KIntercept req (KApp id))))
    by (state_simpl; by apply list_lookup_middle).
  state_simpl. cbn [responseInterceptor]. unfold responseError.
  rewrite Hst. cbn [resume]. unfold refreshCatch.
  destruct Htok as (Ht & Hrt & Htt & Hrtt).
  rewrite (logout_token _ _ _ token) by done. state_simpl.
  rewrite delete_middle, app_nil_r.
  rewrite (admin_step_respond _ (length (delete i (pending s))) _
             (authorize token (logoutRequest token))
             (KLogoutPost (KRefreshCatch (AxiosError status message)
                             (KIntercept req (KApp id)))))
    by (state_simpl; by apply list_lookup_middle).
  split; [reflexivity|]. state_simpl.
  rewrite delete_middle, app_nil_r.
  assert (Hres : forall s0 k,
    responseInterceptor (authorize token (logoutRequest token)) r
      (KLogoutPost k) s0
    = resume k (Ok VVoid) (clearSession s0)).
  { intros s0 k. destruct r as [d' | status' message'];
      cbn [responseInterceptor]; [reflexivity|].
    cbn [notAuthFailure] in Hr. unfold responseError. by rewrite Hr. }
  rewrite Hres. cbn [resume].
  rewrite logout_no_token by apply clearSession_NoSession.
  cbn [resume]. state_simpl.
  split; [|split; [reflexivity|split; [by rewrite <- app_assoc|done]]].
  apply (clearSession_NoSession (clearSession _)).
Qed.

Lemma failed_refresh_ends_the_session_witness :
  exists s',
    run (mkState Samples.adminStorage (Some Samples.alice) true
           [(authorize "t0" Samples.ordersRequest, KApp 1)]
           [authorize "t0" Samples.ordersRequest] [])
        [Respond 0 unauthorized; Respond 0 Samples.badRequest;
         Respond 0 Samples.networkError] = Some s' /\
    NoSession s' /\
    settled s' = [(1, Err (AxiosError (Some 400) None))].
Proof.
  destruct (failed_refresh_ends_the_session
    (mkState Samples.adminStorage (Some Samples.alice) true
       [(authorize "t0" Samples.ordersRequest, KApp 1)]
       [authorize "t0" Samples.ordersRequest] [])
    0 (authorize "t0" Samples.ordersRequest) 1 "t0" "r0" (Some 400) None
    Samples.networkError)
    as (s' & Hrun & Hno & Hset & _);
    [repeat split | reflexivity | reflexivity | reflexivity |].
  exists s'. split; [exact Hrun|]. split; [exact Hno | exact Hset].
Defined.

(** X10. The refresh call of the admin portal is itself intercepted.  When
    a request is answered 401 and the server then answers every refresh
    call with 401 too, each answer makes the interceptor send another
    refresh call: after [n] such answers [n + 1] refresh calls went on the
    wire, one of them still unanswered, the session is as it was, and
    neither [logout] nor the caller's promise has been reached. *)
Theorem unauthorized_refresh_calls_repeat n s req k token rt :
  hasTokens token rt s -> pending s = [(req, k)] ->
  run s (repeat (Respond 0 unauthorized) (S n))
  = Some (mkState (sessionStorage s) (user s) (isAuthenticated s)
            [(authorize token (refreshRequest rt),
              KRefreshPost
                (refreshChain (authorize token (refreshRequest rt)) n
                   (KIntercept req k)))]
            (wire s ++ repeat (authorize token (refreshRequest rt)) (S n))
            (settled s)).
Proof.
  intros Htok Hp. cbn [repeat run]. unfold unauthorized at 1.
  rewrite (intercept_starts_refresh s 0 req k None token rt)
    by (try done; by rewrite Hp).
  rewrite Hp. cbn [delete list_delete app].
  rewrite (run_refresh_unauthorized token rt n _ (KIntercept req k))
    by done.
  state_simpl. by rewrite <- app_assoc.
Qed.

Lemma unauthorized_refresh_calls_repeat_witness :
  run (mkState Samples.adminStorage (Some Samples.alice) true
         [(authorize "t0" Samples.ordersRequest, KApp 1)]
         [authorize "t0" Samples.ordersRequest] [])
      [Respond 0 unauthorized; Respond 0 unauthorized]
  = Some (mkState Samples.adminStorage (Some Samples.alice) true
            [(authorize "t0" (refreshRequest "r0"),
              KRefreshPost
                (KIntercept (authorize "t0" (refreshRequest "r0"))
                   (KRefreshPost
                      (KIntercept (authorize "t0" Samples.ordersRequest)
                                  (KApp 1)))))]
            [authorize "t0" Samples.ordersRequest;
             authorize "t0" (refreshRequest "r0");
             authorize "t0" (refreshRequest "r0")] []).
Proof.
  apply (unauthorized_refresh_calls_repeat 1
    (mkState Samples.adminStorage (Some Samples.alice) true
       [(authorize "t0" Samples.ordersRequest, KApp 1)]
       [authorize "t0" Samples.ordersRequest] [])
    (authorize "t0" Samples.ordersRequest) (KApp 1) "t0" "r0");
    [repeat split | reflexivity].
Defined.

(** X11. [logout] of the admin portal never rejects, and it finishes as soon
    as one logout call is answered with anything but 401.  After [n] rounds
    in which the server answered the logout call with 401 and failed the
    refresh call, one such answer runs every pending [finally] block: there
    is no session, nothing is on the wire, and the promise of the caller of
    [logout] resolves. *)
Theorem logout_finishes_when_the_server_relents
    n s id token rt status message r :
  hasTokens token rt s -> pending s = [] ->
  is401 status = false -> notAuthFailure r ->
  exists s',
    run s (Logout id :: rejectThenFail status message n ++ [Respond 0 r])
      = Some s' /\
    NoSession s' /\
    settled s' = settled s ++ [(id, Ok VVoid)] /\
    pending s' = [] /\
    wire s' = wire s
      ++ authorize token (logoutRequest token)
      :: concat (repeat [authorize token (refreshRequest rt);
                         authorize token (logoutRequest token)] n).
Proof.
  intros Htok Hp Hst Hr. cbn [run step].
  pose proof Htok as (Ht & Hrt & Htt & Hrtt).
  rewrite (logout_token _ _ _ token) by done. rewrite Hp. cbn [app].
  rewrite admin_run_app.
  rewrite (run_rejectThenFail_chain token rt status message n _ (KApp id))
    by done.
  state_simpl. cbn [run].
  rewrite (admin_step_respond _ 0 _ (authorize token (logoutRequest token))
             (KLogoutPost
                (logoutChain (AxiosError status message)
                   (authorize token (logoutRequest token)) n (KApp id))))
    by reflexivity.
  state_simpl. cbn [delete list_delete].
  set (s0 := mkState (sessionStorage s) (user s) (isAuthenticated s) []
               ((wire s ++ [authorize token (logoutRequest token)])
                ++ concat (repeat [authorize token (refreshRequest rt);
                                   authorize token (logoutRequest token)] n))
               (settled s)).
  assert (Hres : forall k,
    responseInterceptor (authorize token (logoutRequest token)) r
      (KLogoutPost k) s0
    = resume (KLogoutPost k) (Ok VVoid) s0).
  { intros k. destruct r as [d' | status' message'];
      cbn [responseInterceptor]; [reflexivity|].
    cbn [notAuthFailure] in Hr. unfold responseError. by rewrite Hr. }
  rewrite Hres.
  destruct (logoutChain_unwinds (AxiosError status message)
              (authorize token (logoutRequest token)) (KApp id) n
              (Ok VVoid) s0) as (s1 & Heq & Hno & Hp1 & Hw1 & Hs1).
  rewrite Heq. eexists. split; [reflexivity|]. cbn [resume]. state_simpl.
  split; [exact Hno|]. rewrite Hs1, Hp1, Hw1. unfold s0. state_simpl.
  split; [reflexivity|]. split; [reflexivity|].
  by rewrite <- app_assoc.
Qed.

Lemma logout_finishes_when_the_server_relents_witness :
  exists s',
    run (initial Samples.adminStorage)
      (Logout 1 :: rejectThenFail (Some 400) None 2
       ++ [Respond 0 Samples.serverError]) = Some s' /\
    NoSession s' /\ settled s' = [(1, Ok VVoid)] /\ pending s' = [].
Proof.
  destruct (logout_finishes_when_the_server_relents 2
    (initial Samples.adminStorage) 1 "t0" "r0" (Some 400) None
    Samples.serverError)
    as (s' & Hrun & Hno & Hset & Hp & _);
    [repeat split | reflexivity | reflexivity | reflexivity |].
  exists s'. split; [exact Hrun|]. split; [exact Hno|].
  split; [exact Hset | exact Hp].
Defined.

(** X12. [refreshToken] of the admin portal without a stored refresh token
    makes no refresh call and ends the session.  Without a stored token
    either, the session state is cleared at once and the caller is rejected
    with "No refresh token found".  With a stored token the only request is
    the logout call; when it is answered (with anything but 401) the
    session is cleared and the caller is rejected with the same error. *)
Theorem refreshToken_without_refresh_token s id :
  match sessionStorage s !! "refreshToken" with
  | Some rt => truthy_json rt
  | None => false
  end = false ->
  (match sessionStorage s !! "adminToken" with
   | Some token => truthy_json token
   | None => false
   end = false ->
   exists s',
     step s (RefreshToken id) = Some s' /\
     NoSession s' /\ wire s' = wire s /\ pending s' = pending s /\
     settled s'
       = settled s ++ [(id, Err (JsError "No refresh token found"))]) /\
  (forall token r,
     sessionStorage s !! "adminToken" = Some (JString token) ->
     token <> "" -> notAuthFailure r ->
     exists s',
       run s [RefreshToken id; Respond (length (pending s)) r] = Some s' /\
       NoSession s' /\
       wire s' = wire s ++ [authorize token (logoutRequest token)] /\
       pending s' = pending s /\
       settled s'
         = settled s ++ [(id, Err (JsError "No refresh token found"))]).
Proof.
  intros Hrt.
  assert (Hcall : step s (RefreshToken id)
                  = Some (refreshCatch (JsError "No refresh token found")
                            (KApp id) (resume (KApp id)) s)).
  { cbn [step]. unfold refreshToken.
    destruct (sessionStorage s !! "refreshToken") as [rt|];
      [by rewrite Hrt | reflexivity]. }
  split.
  - intros Ht. eexists. rewrite Hcall.
    split; [reflexivity|]. unfold refreshCatch, logout.
    destruct (sessionStorage s !! "adminToken") as [t|]; [rewrite Ht|];
      cbn [resume]; state_simpl;
      (split; [apply (clearSession_NoSession s) | done]).
  - intros token r Ht Htoken Hr. apply truthy_spec in Htoken.
    eexists. cbn [run]. rewrite Hcall. unfold refreshCatch.
    rewrite (logout_token _ _ _ token) by done.
    rewrite (admin_step_respond _ (length (pending s)) _
               (authorize token (logoutRequest token))
               (KLogoutPost
                  (KRefreshCatch (JsError "No refresh token found")
                                 (KApp id))))
      by (state_simpl; by apply list_lookup_middle).
    split; [reflexivity|]. state_simpl. rewrite delete_middle, app_nil_r.
    assert (Hres : forall s0 k,
      responseInterceptor (authorize token (logoutRequest token)) r
        (KLogoutPost k) s0
      = resume k (Ok VVoid) (clearSession s0)).
    { intros s0 k. destruct r as [d' | status' message'];
        cbn [responseInterceptor]; [reflexivity|].
      cbn [notAuthFailure] in Hr. unfold responseError. by rewrite Hr. }
    rewrite Hres. cbn [resume]. state_simpl.
    split; [|done]. apply (clearSession_NoSession _).
Qed.

Lemma refreshToken_without_refresh_token_witness :
  exists s',
    run (initial {["adminToken" := JString "t0"]})
      [RefreshToken 1; Respond 0 Samples.networkError] = Some s' /\
    NoSession s' /\
    wire s' = [authorize "t0" (logoutRequest "t0")] /\
    settled s' = [(1, Err (JsError "No refresh token found"))].
Proof.
  destruct (refreshToken_without_refresh_token
    (initial {["adminToken" := JString "t0"]}) 1) as (_ & H);
    [reflexivity|].
  destruct (H "t0" Samples.networkError)
    as (s' & Hrun & Hno & Hw & _ & Hset);
    [reflexivity | discriminate | reflexivity |].
  exists s'. split; [exact Hrun|]. split; [exact Hno|].
  split; [exact Hw | exact Hset].
Defined.

(** X13. What [refreshToken] of the admin portal does with the answer to
    the refresh call.  A response with a token stores the new token and the
    new refresh token, leaves user, stored user and authenticated flag as
    they are, and resolves with the new token.  A response without a token
    (the empty string) counts as a failure: [logout] is called, and when its
    call is answered (with anything but 401) the session is cleared and the
    caller is rejected with "No token in response". *)
Theorem refreshToken_stores_tokens_or_ends_session s id token rt d :
  hasTokens token rt s ->
  (d_token d <> "" ->
   exists s',
     run s [RefreshToken id; Respond (length (pending s)) (Fulfilled d)]
       = Some s' /\
     sessionStorage s' !! "adminToken" = Some (JString (d_token d)) /\
     sessionStorage s' !! "refreshToken"
       = Some (JString (d_refreshToken d)) /\
     sessionStorage s' !! "adminUser" = sessionStorage s !! "adminUser" /\
     user s' = user s /\ isAuthenticated s' = isAuthenticated s /\
     settled s' = settled s ++ [(id, Ok (VToken (d_token d)))] /\
     wire s' = wire s ++ [authorize token (refreshRequest rt)] /\
     pending s' = pending s) /\
  (forall r,
     d_token d = "" -> notAuthFailure r ->
     exists s',
       run s [RefreshToken id; Respond (length (pending s)) (Fulfilled d);
              Respond (length (pending s)) r] = Some s' /\
       NoSession s' /\
       settled s' = settled s ++ [(id, Err (JsError "No token in response"))] /\
       wire s' = wire s ++ [authorize token (refreshRequest rt);
                            authorize token (logoutRequest token)] /\
       pending s' = pending s).
Proof.
  intros (Ht & Hrt & Htt & Hrtt).
  assert (Hcall : step s (RefreshToken id)
    = Some (mkState (sessionStorage s) (user s) (isAuthenticated s)
              (pending s ++ [(authorize token (refreshRequest rt),
                              KRefreshPost (KApp id))])
              (wire s ++ [authorize token (refreshRequest rt)])
              (settled s))).
  { cbn [step]. unfold refreshToken. rewrite Hrt.
    cbn [truthy_json to_string]. rewrite Hrtt. unfold axios.
    by rewrite (admin_requestInterceptor_token _ _ _ Ht Htt). }
  split.
  - intros Hd. apply truthy_spec in Hd. eexists. cbn [run]. rewrite Hcall.
    rewrite (admin_step_respond _ (length (pending s)) _
               (authorize token (refreshRequest rt)) (KRefreshPost (KApp id)))
      by (state_simpl; by apply list_lookup_middle).
    split; [reflexivity|]. state_simpl.
    cbn [responseInterceptor resume]. rewrite Hd. cbn [resume].
    unfold storeTokens. state_simpl. rewrite delete_middle, app_nil_r.
    split; [rewrite lookup_insert_ne by done; apply lookup_insert_eq|].
    split; [apply lookup_insert_eq|].
    split; [by rewrite !lookup_insert_ne|]. done.
  - intros r Hd Hr. eexists. cbn [run]. rewrite Hcall.
    rewrite (admin_step_respond _ (length (pending s)) _
               (authorize token (refreshRequest rt)) (KRefreshPost (KApp id)))
      by (state_simpl; by apply list_lookup_middle).
    state_simpl. cbn [responseInterceptor resume]. rewrite Hd.
    cbn [truthy String.eqb negb]. unfold refreshCatch.
    rewrite (logout_token _ _ _ token) by done. state_simpl.
    rewrite delete_middle, app_nil_r.
    rewrite (admin_step_respond _ (length (pending s)) _
               (authorize token (logoutRequest token))
               (KLogoutPost
                  (KRefreshCatch (JsError "No token in response") (KApp id))))
      by (state_simpl; by apply list_lookup_middle).
    split; [reflexivity|]. state_simpl. rewrite delete_middle, app_nil_r.
    assert (Hres : forall s0 k,
      responseInterceptor (authorize token (logoutRequest token)) r
        (KLogoutPost k) s0
      = resume k (Ok VVoid) (clearSession s0)).
    { intros s0 k. destruct r as [d' | status' message'];
        cbn [responseInterceptor]; [reflexivity|].
      cbn [notAuthFailure] in Hr. unfold responseError. by rewrite Hr. }
    rewrite Hres. cbn [resume]. state_simpl.
    split; [apply (clearSession_NoSession _)|].
    split; [reflexivity|]. split; [by rewrite <- app_assoc | done].
Qed.

Lemma refreshToken_stores_tokens_or_ends_session_witness :
  exists s',
    run (initial Samples.adminStorage)
      [RefreshToken 1; Respond 0 (Fulfilled (Samples.tokens "" "r1"));
       Respond 0 Samples.serverError] = Some s' /\
    NoSession s' /\
    settled s' = [(1, Err (JsError "No token in response"))].
Proof.
  destruct (refreshToken_stores_tokens_or_ends_session
    (initial Samples.adminStorage) 1 "t0" "r0" (Samples.tokens "" "r1"))
    as (_ & H); [repeat split|].
  destruct (H Samples.serverError) as (s' & Hrun & Hno & Hset & _);
    [reflexivity | reflexivity |].
  exists s'. split; [exact Hrun|]. split; [exact Hno | exact Hset].
Defined.

End AdminPortalExtras.

(** ** Customer portal *)

(** Deleting another entry keeps an entry in the list. *)
Lemma elem_of_delete_other {A} (l : list A) i x y :
  l !! i = Some y -> x <> y -> x ∈ l -> x ∈ delete i l.
Proof.
  intros Hi Hne Hin. rewrite (delete_Permutation l i y Hi) in Hin.
  apply elem_of_cons in Hin as [-> | Hin]; done.
Qed.

Module CustomerPortalMoreFacts.
Import CustomerPortal CustomerPortalSpec CustomerPortalFacts
  CustomerPortalMore.

Local Open Scope Q_scope.

Lemma roundHalfEven_comp (x y : Q) :
  x == y -> roundHalfEven x = roundHalfEven y.
Proof.
  intros H. unfold roundHalfEven. rewrite (Qfloor_comp _ _ H).
  assert (x - inject_Z (Qfloor y) == y - inject_Z (Qfloor y)) as H'
    by (by rewrite H).
  by rewrite (Qcompare_comp _ _ H' (1 # 2) (1 # 2) (Qeq_refl _)).
Qed.

Lemma roundHalfEven_mono (x y : Q) :
  x <= y -> (roundHalfEven x <= roundHalfEven y)%Z.
Proof.
  intros H. destruct (Z.le_gt_cases (roundHalfEven x) (roundHalfEven y))
    as [Hle|Hgt]; [exact Hle|].
  pose proof (roundHalfEven_error x) as Hx.
  pose proof (roundHalfEven_error y) as Hy.
  apply Qabs_Qle_condition in Hx as [Hx1 Hx2].
  apply Qabs_Qle_condition in Hy as [Hy1 Hy2].
  assert (inject_Z (roundHalfEven y) + 1 <= inject_Z (roundHalfEven x)) as Hz.
  { change 1 with (inject_Z 1). rewrite <- inject_Z_plus, <- Zle_Qle. lia. }
  assert (x == y) as Heq by lra.
  rewrite (roundHalfEven_comp _ _ Heq) in Hgt. lia.
Qed.

Lemma exponentOf_upper (a : Q) :
  0 < a -> a < Qpower 2 53 * Qpower 2 (exponentOf a).
Proof.
  intros Ha. unfold exponentOf.
  destruct (log2_bounds a Ha) as [_ Hup].
  set (e0 := (Z.log2 (Qnum a) - Z.log2 (Zpos (Qden a)) - 52)%Z) in *.
  replace (Z.log2 (Qnum a) - Z.log2 (Zpos (Qden a)) + 1)%Z
    with (e0 + 53)%Z in Hup by lia.
  set (e := if Qle_bool (Qpower 2 (e0 + 52)) a then e0 else (e0 - 1)%Z).
  assert (a < Qpower 2 (53 + e)) as He.
  { subst e. destruct (Qle_bool (Qpower 2 (e0 + 52)) a) eqn:Ht.
    - by replace (53 + e0)%Z with (e0 + 53)%Z by lia.
    - replace (53 + (e0 - 1))%Z with (e0 + 52)%Z by lia.
      destruct (Qlt_le_dec a (Qpower 2 (e0 + 52))) as [Hlt|Hge]; [exact Hlt|].
      apply Qle_bool_iff in Hge. congruence. }
  rewrite <- pow2_plus. eapply Qlt_le_trans; [exact He|].
  apply pow2_le. lia.
Qed.

Lemma rounded_nonneg (a : Q) : 0 < a -> 0 <= rounded a.
Proof.
  intros Ha. unfold rounded. pose proof (pow2_pos (exponentOf a)) as HP.
  assert (0 <= a / Qpower 2 (exponentOf a)) as Hx.
  { apply Qle_shift_div_l; [exact HP|]. lra. }
  pose proof (roundHalfEven_mono _ _ Hx) as Hm.
  rewrite (roundHalfEven_integer 0 0) in Hm by reflexivity.
  rewrite Zle_Qle in Hm. change (inject_Z 0) with 0 in Hm.
  set (m := inject_Z (roundHalfEven (a / Qpower 2 (exponentOf a)))) in *.
  nra.
Qed.

Lemma rounded_mono (a b : Q) :
  0 < a -> a <= b -> rounded a <= rounded b.
Proof.
  intros Ha Hab. assert (0 < b) as Hb by lra.
  pose proof (exponentOf_upper a Ha) as Ua.
  pose proof (exponentOf_upper b Hb) as Ub.
  pose proof (exponentOf_ulp a Ha) as La.
  pose proof (exponentOf_ulp b Hb) as Lb.
  assert (-1074 <= exponentOf a)%Z as Ma by (unfold exponentOf; lia).
  assert (-1074 <= exponentOf b)%Z as Mb by (unfold exponentOf; lia).
  unfold rounded.
  set (ea := exponentOf a) in *. set (eb := exponentOf b) in *.
  pose proof (pow2_pos ea) as Pa. pose proof (pow2_pos eb) as Pb.
  assert (T52 : Qpower 2 53 == 2 * Qpower 2 52) by reflexivity.
  pose proof (pow2_pos 52) as P52.
  destruct (Z.lt_trichotomy ea eb) as [Hlt | [Heq | Hgt]].
  - (* the doubles around [b] are coarser *)
    destruct Lb as [Lb | Lb]; [lia|].
    assert (Qpower 2 ea * 2 <= Qpower 2 eb) as Hstep.
    { change 2 with (Qpower 2 1) at 2. rewrite <- pow2_plus.
      apply pow2_le. lia. }
    assert (a / Qpower 2 ea <= Qpower 2 53) as Hxa.
    { apply Qle_shift_div_r; [exact Pa|]. lra. }
    assert (Qpower 2 52 <= b / Qpower 2 eb) as Hxb.
    { apply Qle_shift_div_l; [exact Pb|]. lra. }
    pose proof (roundHalfEven_mono _ _ Hxa) as Hma.
    pose proof (roundHalfEven_mono _ _ Hxb) as Hmb.
    rewrite (roundHalfEven_integer (Qpower 2 53) (2 ^ 53)) in Hma
      by reflexivity.
    rewrite (roundHalfEven_integer (Qpower 2 52) (2 ^ 52)) in Hmb
      by reflexivity.
    rewrite Zle_Qle in Hma, Hmb.
    change (inject_Z (2 ^ 53)) with (Qpower 2 53) in Hma.
    change (inject_Z (2 ^ 52)) with (Qpower 2 52) in Hmb.
    set (ma := inject_Z (roundHalfEven (a / Qpower 2 ea))) in *.
    set (mb := inject_Z (roundHalfEven (b / Qpower 2 eb))) in *.
    set (A := Qpower 2 ea) in *. set (B := Qpower 2 eb) in *.
    set (T := Qpower 2 52) in *. set (T' := Qpower 2 53) in *.
    apply Qle_trans with (T' * A); [nra|].
    apply Qle_trans with (T * B); nra.
  - rewrite Heq in *.
    assert (a / Qpower 2 eb <= b / Qpower 2 eb) as Hx.
    { apply Qle_shift_div_l; [exact Pb|].
      assert (a / Qpower 2 eb * Qpower 2 eb == a) as -> by (field; lra).
      exact Hab. }
    pose proof (roundHalfEven_mono _ _ Hx) as Hm. rewrite Zle_Qle in Hm.
    set (ma := inject_Z (roundHalfEven (a / Qpower 2 eb))) in *.
    set (mb := inject_Z (roundHalfEven (b / Qpower 2 eb))) in *.
    nra.
  - (* impossible: [a] would be above [b] *)
    destruct La as [La | La]; [lia|].
    assert (Qpower 2 eb * 2 <= Qpower 2 ea) as Hstep.
    { change 2 with (Qpower 2 1) at 2. rewrite <- pow2_plus.
      apply pow2_le. lia. }
    set (A := Qpower 2 ea) in *. set (B := Qpower 2 eb) in *.
    set (T := Qpower 2 52) in *. set (T' := Qpower 2 53) in *.
    assert (b < a) by nra. lra.
Qed.

Lemma round64_spec (q : Q) : Rounding q (round64 q).
Proof.
  unfold round64.
  destruct (Qcompare_spec q 0) as [H|H|H]; [by constructor| |];
    destruct (Qle_bool (Qpower 2 1024) (rounded (Qabs q))) eqn:Hov.
  - apply (RoundOverflow q true); [exact H|]. by apply Qle_bool_iff.
  - apply (RoundFinite q true); [exact H| |apply Qred_correct].
    destruct (Qlt_le_dec (rounded (Qabs q)) (Qpower 2 1024)) as [Hlt|Hge];
      [exact Hlt|]. apply Qle_bool_iff in Hge. congruence.
  - apply (RoundOverflow q false); [exact H|]. by apply Qle_bool_iff.
  - apply (RoundFinite q false); [exact H| |apply Qred_correct].
    destruct (Qlt_le_dec (rounded (Qabs q)) (Qpower 2 1024)) as [Hlt|Hge];
      [exact Hlt|]. apply Qle_bool_iff in Hge. congruence.
Qed.

Lemma Qabs_positive (q : Q) : ~ q == 0 -> 0 < Qabs q.
Proof.
  intros Hq. destruct (Qlt_le_dec q 0) as [Hneg|Hnn].
  - rewrite Qabs_neg by lra. lra.
  - rewrite Qabs_pos by lra. destruct (Qlt_le_dec 0 q) as [H|H]; [lra|].
    destruct Hq. lra.
Qed.

Lemma round64_mono (p q : Q) : p <= q -> atMost (round64 p) (round64 q).
Proof.
  intros Hpq.
  destruct (round64_spec p) as [Hp | sp Hp Hop | sp rp Hp Hfp Hrp];
    destruct (round64_spec q) as [Hq | sq Hq Hoq | sq rq Hq Hfq Hrq];
    cbn [atMost].
  - lra.
  - destruct sq; [lra|done].
  - destruct sq; [lra|]. rewrite Hrq.
    pose proof (rounded_nonneg (Qabs q) ltac:(apply Qabs_positive; lra)).
    lra.
  - destruct sp; [done|lra].
  - destruct sp, sq; try done. lra.
  - destruct sp; [done|]. destruct sq; [lra|].
    assert (Qabs p <= Qabs q) as Habs
      by (rewrite !Qabs_pos by lra; exact Hpq).
    pose proof (rounded_mono (Qabs p) (Qabs q) ltac:(apply Qabs_positive; lra) Habs).
    lra.
  - destruct sp; [|lra]. rewrite Hrp.
    pose proof (rounded_nonneg (Qabs p) ltac:(apply Qabs_positive; lra)).
    lra.
  - destruct sp, sq; try done; [|lra].
    assert (Qabs q <= Qabs p) as Habs.
    { pose proof (Qabs_neg p ltac:(lra)). pose proof (Qabs_neg q ltac:(lra)).
      lra. }
    pose proof (rounded_mono (Qabs q) (Qabs p) ltac:(apply Qabs_positive; lra) Habs).
    lra.
  - rewrite Hrp, Hrq.
    pose proof (rounded_nonneg (Qabs p) ltac:(apply Qabs_positive;
      destruct sp; lra)) as Np.
    pose proof (rounded_nonneg (Qabs q) ltac:(apply Qabs_positive;
      destruct sq; lra)) as Nq.
    destruct sp, sq; try lra.
    + assert (Qabs q <= Qabs p) as Habs.
      { pose proof (Qabs_neg p ltac:(lra)).
        pose proof (Qabs_neg q ltac:(lra)). lra. }
      pose proof (rounded_mono (Qabs q) (Qabs p) ltac:(apply Qabs_positive; lra) Habs).
      lra.
    + assert (Qabs p <= Qabs q) as Habs
        by (rewrite !Qabs_pos by lra; exact Hpq).
      pose proof (rounded_mono (Qabs p) (Qabs q) ltac:(apply Qabs_positive; lra) Habs).
      lra.
Qed.

Lemma round64_number (q : Q) : round64 q <> NaN.
Proof. by destruct (round64_spec q). Qed.

Lemma atMost_refl (a : JsNumber) : a <> NaN -> atMost a a.
Proof. destruct a as [|x|[|]]; cbn; [done|lra|done|done]. Qed.

Lemma js_div_1000_mono (a b : JsNumber) :
  atMost a b -> atMost (js_div a (Num 1000)) (js_div b (Num 1000)).
Proof.
  destruct a as [|x|sa], b as [|y|sb]; cbn [atMost js_div];
    change (Qeq_bool 1000 0) with false;
    change (1000 ?= 0) with Gt; cbv iota; try done.
  - intros H. apply round64_mono. unfold Qdiv.
    apply Qmult_le_compat_r; [exact H | discriminate].
  - destruct sb; [done|]. intros _.
    pose proof (round64_number (x / 1000)).
    by destruct (round64 (x / 1000)) as [|?|[|]].
  - destruct sa; [|done]. intros _.
    pose proof (round64_number (y / 1000)).
    by destruct (round64 (y / 1000)) as [|?|[|]].
Qed.

Lemma Math_floor_mono (a b : JsNumber) :
  atMost a b -> atMost (Math_floor a) (Math_floor b).
Proof.
  destruct a as [|x|sa], b as [|y|sb]; cbn [atMost Math_floor]; try done.
  intros H. rewrite <- Zle_Qle. by apply Qfloor_resp_le.
Qed.

Lemma clamped_mono (a b : JsNumber) :
  atMost a b -> atMost (clamped a) (clamped b).
Proof.
  unfold clamped.
  destruct a as [|x|[|]], b as [|y|[|]]; cbn [atMost js_gt]; try done.
  - intros H. destruct (Qcompare_spec x 0), (Qcompare_spec y 0);
      cbn [atMost]; lra.
  - intros _. by destruct (x ?= 0).
  - intros _. destruct (Qcompare_spec y 0); cbn [atMost]; lra.
Qed.

Lemma shown_antitone (v : JsNumber) (now now' : Z) :
  (now <= now')%Z -> atMost (shown v now') (shown v now).
Proof.
  intros H.
  assert (Hshown : forall n,
    shown v n
    = clamped (Math_floor (js_div (js_sub (js_mul v (Num 1000))
                                     (Num (inject_Z n))) (Num 1000))))
    by reflexivity.
  rewrite !Hshown.
  destruct (js_mul v (Num 1000)) as [|x|s]; cbn [js_sub].
  - cbn. lra.
  - apply clamped_mono, Math_floor_mono, js_div_1000_mono, round64_mono.
    rewrite Zle_Qle in H. lra.
  - by destruct s; vm_compute.
Qed.

Local Close Scope Q_scope.

(** [split] cuts at the first separator. *)
Lemma split_prefix (h t : string) :
  occurs "."%char h = false ->
  split "."%char (h ++ String "."%char t) = h :: split "."%char t.
Proof.
  induction h as [|c h IH]; intros Hh.
  - change ("" ++ String "."%char t)%string with (String "."%char t).
    cbn [split]. by rewrite Ascii.eqb_refl.
  - cbn [occurs] in Hh. apply orb_false_iff in Hh as [Hc Hh].
    change (String c h ++ String "."%char t)%string
      with (String c (h ++ String "."%char t)%string).
    cbn [split]. rewrite Hc. by rewrite (IH Hh).
Qed.

Lemma split_no_separator (h : string) :
  occurs "."%char h = false -> split "."%char h = [h].
Proof.
  induction h as [|c h IH]; intros Hh; [reflexivity|].
  cbn [occurs] in Hh. apply orb_false_iff in Hh as [Hc Hh].
  cbn [split]. rewrite Hc. by rewrite (IH Hh).
Qed.

(** The segment the timer decodes is the second one. *)
Lemma payload_segment (h p sig : string) :
  occurs "."%char h = false -> occurs "."%char p = false ->
  nth 1 (split "."%char (h ++ "." ++ p ++ "." ++ sig)) "undefined" = p.
Proof.
  intros Hh Hp. change ("." ++ p ++ "." ++ sig)%string
    with (String "."%char (p ++ String "."%char sig)%string).
  by rewrite (split_prefix _ _ Hh), (split_prefix _ _ Hp).
Qed.

End CustomerPortalMoreFacts.

Section CustomerPortalExtras.
Import CustomerPortal CustomerPortalSpec CustomerPortalFacts
  CustomerPortalMore CustomerPortalMoreFacts.

Variable atob : string -> option string.
Variable JSON_parse : string -> option JsValue.
Variable StringToNumber : string -> JsNumber.
Variable ObjectToNumber : JsValue -> JsNumber.

(** X14. The session timer counts down by whole seconds.  When the expiry
    time that the code computes for the token is a whole number of
    milliseconds below 2^53, and the clock is below 2^53,
    [checkTokenExpiration] run again 1000 ms later sets the earlier value
    minus one, and 0 once the value is 0.  Beyond that range the doubles
    are too coarse: there is an expiry for which the timer shows the same
    positive value 1000 ms later. *)
Theorem session_timer_counts_down :
  (forall (t : string) exp D now,
     decodeExp atob JSON_parse t = Some exp ->
     wholeMilliseconds (ToNumber StringToNumber ObjectToNumber exp) D ->
     (0 <= now)%Z -> (now + 1000 < 2 ^ 53)%Z ->
     exists r r',
       checkTokenExpiration atob JSON_parse StringToNumber ObjectToNumber
         t now = Some r /\
       checkTokenExpiration atob JSON_parse StringToNumber ObjectToNumber
         t (now + 1000) = Some r' /\
       oneSecondLater r r') /\
  (exists v now,
     (0 <= now)%Z /\ (now + 1000 < 2 ^ 53)%Z /\
     js_gt (shown v now) (Num 0) = true /\
     shown v (now + 1000) = shown v now).
Proof.
  split.
  - intros t exp D now He (d & Hmul & Hd & HD) Hnow Hnow'.
    rewrite !checkTokenExpiration_shown, He.
    rewrite (shown_whole_milliseconds _ d D now) by (try done; lia).
    rewrite (shown_whole_milliseconds _ d D (now + 1000))
      by (try done; lia).
    eexists _, _. split; [reflexivity|]. split; [reflexivity|].
    exists (Z.max 0 ((D - now) / 1000)). split; [reflexivity|].
    replace (D - (now + 1000))%Z with (D - now + (-1) * 1000)%Z by lia.
    rewrite Z.div_add by lia. do 2 f_equal. lia.
  - exists (Num 10000000000000000), 0%Z.
    split; [lia|]. split; [reflexivity|]. split; vm_compute; reflexivity.
Qed.

(** X15. The value the session timer sets never goes up as time passes:
    for any token, the value [checkTokenExpiration] sets at a later time of
    the clock is at most the value it set before, and it is never below 0.
    This holds in double arithmetic for every expiry claim, also where the
    doubles are too coarse to count the seconds. *)
Theorem session_timer_never_goes_up (t : string) (now now' : Z) r :
  (now <= now')%Z ->
  checkTokenExpiration atob JSON_parse StringToNumber ObjectToNumber t now
    = Some r ->
  exists r',
    checkTokenExpiration atob JSON_parse StringToNumber ObjectToNumber t now'
      = Some r' /\
    atMost r' r /\ atMost (Num 0) r'.
Proof.
  intros Hle. rewrite !checkTokenExpiration_shown.
  destruct (decodeExp atob JSON_parse t) as [exp|]; [|discriminate].
  intros [= <-]. eexists. split; [reflexivity|].
  split; [by apply shown_antitone|].
  destruct (shown_never_negative
              (ToNumber StringToNumber ObjectToNumber exp) now')
    as [-> | (z & -> & Hz)]; [done|].
  cbn [atMost]. change 0%Q with (inject_Z 0). by rewrite <- Zle_Qle.
Qed.

(** X16. Of a token the session timer reads the second dot-separated
    segment only: for a header and a payload without dots the decoded expiry
    is that of the payload, whatever the header and the signature are, and
    also when the signature has dots of its own.  For a token without any
    dot [split(".")[1]] is [undefined], and what is decoded is the text
    "undefined". *)
Theorem session_timer_reads_only_the_payload (h p sig t : string) :
  occurs "."%char h = false ->
  occurs "."%char p = false ->
  occurs "."%char t = false ->
  decodeExp atob JSON_parse (h ++ "." ++ p ++ "." ++ sig)
    = decodePayload atob JSON_parse p /\
  decodeExp atob JSON_parse (h ++ "." ++ p)
    = decodePayload atob JSON_parse p /\
  decodeExp atob JSON_parse t = decodePayload atob JSON_parse "undefined" /\
  forall h' sig' now,
    occurs "."%char h' = false ->
    checkTokenExpiration atob JSON_parse StringToNumber ObjectToNumber
      (h' ++ "." ++ p ++ "." ++ sig') now
    = checkTokenExpiration atob JSON_parse StringToNumber ObjectToNumber
        (h ++ "." ++ p ++ "." ++ sig) now.
Proof.
  intros Hh Hp Ht. unfold decodeExp, decodePayload.
  split; [by rewrite payload_segment|].
  split.
  { change ("." ++ p)%string with (String "."%char p).
    by rewrite (split_prefix _ _ Hh), (split_no_separator _ Hp). }
  split; [by rewrite (split_no_separator _ Ht)|].
  intros h' sig' now Hh'. rewrite !checkTokenExpiration_shown.
  unfold decodeExp. by rewrite !payload_segment.
Qed.

End CustomerPortalExtras.

Lemma session_timer_counts_down_witness :
  exists r r',
    CustomerPortal.checkTokenExpiration CustomerPortalSpec.sample_atob
      CustomerPortalSpec.sample_JSON_parse CustomerPortalSpec.sample_ToNumber
      CustomerPortalSpec.sample_ObjectToNumber "aa.exp.cc" 1500000
      = Some r /\
    CustomerPortal.checkTokenExpiration CustomerPortalSpec.sample_atob
      CustomerPortalSpec.sample_JSON_parse CustomerPortalSpec.sample_ToNumber
      CustomerPortalSpec.sample_ObjectToNumber "aa.exp.cc" (1500000 + 1000)
      = Some r' /\
    CustomerPortalMore.oneSecondLater r r'.
Proof.
  destruct (session_timer_counts_down CustomerPortalSpec.sample_atob
              CustomerPortalSpec.sample_JSON_parse
              CustomerPortalSpec.sample_ToNumber
              CustomerPortalSpec.sample_ObjectToNumber) as (H & _).
  apply (H "aa.exp.cc" (Some (CustomerPortal.JsNum 2000)) 2000000%Z);
    [reflexivity | | lia | reflexivity].
  exists 2000000%Q. split; [vm_compute; reflexivity|].
  split; [reflexivity|]. split; [lia | reflexivity].
Defined.

Lemma session_timer_never_goes_up_witness :
  exists r',
    CustomerPortal.checkTokenExpiration CustomerPortalSpec.sample_atob
      CustomerPortalSpec.sample_JSON_parse CustomerPortalSpec.sample_ToNumber
      CustomerPortalSpec.sample_ObjectToNumber "aa.exp.cc" 1999001
      = Some r' /\
    CustomerPortalMore.atMost r' (CustomerPortal.Num 500) /\
    CustomerPortalMore.atMost (CustomerPortal.Num 0) r'.
Proof.
  apply (session_timer_never_goes_up CustomerPortalSpec.sample_atob
           CustomerPortalSpec.sample_JSON_parse
           CustomerPortalSpec.sample_ToNumber
           CustomerPortalSpec.sample_ObjectToNumber "aa.exp.cc" 1500000
           1999001 (CustomerPortal.Num 500)); [lia | reflexivity].
Defined.

Lemma session_timer_reads_only_the_payload_witness :
  CustomerPortal.decodeExp CustomerPortalSpec.sample_atob
    CustomerPortalSpec.sample_JSON_parse "aa.exp.c.c"
  = Some (Some (CustomerPortal.JsNum 2000)) /\
  CustomerPortal.decodeExp CustomerPortalSpec.sample_atob
    CustomerPortalSpec.sample_JSON_parse "token" = None.
Proof.
  destruct (session_timer_reads_only_the_payload
              CustomerPortalSpec.sample_atob
              CustomerPortalSpec.sample_JSON_parse
              CustomerPortalSpec.sample_ToNumber
              CustomerPortalSpec.sample_ObjectToNumber
              "aa" "exp" "c.c" "token")
    as (H1 & _ & H3 & _); [reflexivity | reflexivity | reflexivity |].
  split; [exact H1 | exact H3].
Defined.

Module CustomerAccountFacts.
Import CustomerPortal CustomerAccount.

Lemma agree_provider_resume k r p :
  agree p -> agree (CustomerPortal.resume k r p).
Proof.
  unfold agree. intros H.
  destruct k, r; cbn [CustomerPortal.resume logout token localStorage];
    rewrite ?lookup_insert_eq, ?lookup_delete_eq; done.
Qed.

Lemma agree_provider_step p ev p' :
  agree p -> CustomerPortal.step p ev = Some p' -> agree p'.
Proof.
  intros H. destruct ev as [|id email password| |id|i r];
    cbn [CustomerPortal.step].
  - intros [= <-]. unfold loadUser.
    destruct (token p) as [t|] eqn:Ht; [|done].
    destruct (user p); [done|]. destruct (truthy t); [|done].
    exact H.
  - intros [= <-]. exact H.
  - intros [= <-]. unfold agree, logout. cbn [token localStorage].
    by rewrite lookup_delete_eq.
  - intros [= <-]. exact H.
  - destruct (pending p !! i) as [[req k]|]; [|discriminate].
    intros [= <-]. by apply agree_provider_resume.
Qed.

Lemma agree_resume k r p : agree p -> agree (CustomerAccount.resume k r p).
Proof.
  unfold agree. intros H.
  destruct k, r; cbn [CustomerAccount.resume token localStorage];
    rewrite ?lookup_insert_eq; done.
Qed.

Lemma agree_step s ev s' :
  agree (provider s) -> CustomerAccount.step s ev = Some s' ->
  agree (provider s').
Proof.
  intros H. destruct ev as [ev|id name email password phone|id userData|i r];
    cbn [CustomerAccount.step].
  - destruct (CustomerPortal.step (provider s) ev) as [p|] eqn:Hp;
      [|discriminate].
    intros [= <-]. cbn [provider]. by eapply agree_provider_step.
  - intros [= <-]. exact H.
  - intros [= <-]. exact H.
  - destruct (awaited s !! i) as [[req k]|]; [|discriminate].
    intros [= <-]. cbn [provider]. by apply agree_resume.
Qed.

Lemma agree_run evs : forall s s',
  agree (provider s) -> CustomerAccount.run s evs = Some s' ->
  agree (provider s').
Proof.
  induction evs as [|ev evs IH]; intros s s' H; cbn [CustomerAccount.run].
  - by intros [= <-].
  - destruct (CustomerAccount.step s ev) as [s1|] eqn:Hstep; [|discriminate].
    apply IH. by eapply agree_step.
Qed.

Lemma busy_pending s s' :
  (forall req id, (req, KLogin id) ∈ pending (provider s) ->
                  (req, KLogin id) ∈ pending (provider s')) ->
  awaited s' = awaited s ->
  busy s -> busy s'.
Proof.
  intros Hp Ha [(req & id & Hin) | Hne].
  - left. exists req, id. by apply Hp.
  - right. by rewrite Ha.
Qed.

(** An answer to [loadUser] or [refreshToken] keeps the flag and the
    suspended logins. *)
Lemma loadingHasCause_respond s i req k r :
  pending (provider s) !! i = Some (req, k) ->
  (forall id, k <> KLogin id) ->
  loadingHasCause s ->
  loadingHasCause
    (CustomerAccount.mkState
       (CustomerPortal.resume k r
          (set_pending (delete i (pending (provider s))) (provider s)))
       (awaited s)).
Proof.
  unfold loadingHasCause. intros Hi Hk H. cbn [provider]. intros Hl.
  assert (isLoading (provider s) = true) as Hl0.
  { revert Hl. destruct k as [|id|id]; [|by destruct (Hk id)|];
      by destruct r. }
  eapply busy_pending; [| |exact (H Hl0)]; [|reflexivity].
  intros req0 id0 Hin. cbn [provider].
  assert ((req0, KLogin id0) ∈ delete i (pending (provider s))) as Hd.
  { eapply elem_of_delete_other; [exact Hi| |exact Hin].
    intros [= _ <-]. by destruct (Hk id0). }
  destruct k as [|id|id]; [|by destruct (Hk id)|]; by destruct r.
Qed.

Lemma loadingHasCause_step s ev s' :
  loadingHasCause s -> CustomerAccount.step s ev = Some s' ->
  loadingHasCause s'.
Proof.
  intros H.
  destruct ev as [ev|id name email password phone|id userData|i r];
    cbn [CustomerAccount.step].
  - destruct ev as [|id email password| |id|i r]; cbn [CustomerPortal.step].
    + intros [= <-]. unfold loadingHasCause in *. cbn [provider]. intros Hl.
      assert (isLoading (provider s) = true) as Hl0.
      { revert Hl. unfold loadUser. by repeat case_match. }
      eapply busy_pending; [| |exact (H Hl0)]; [|reflexivity].
      intros req0 id0 Hx. cbn [provider]. unfold loadUser.
      repeat case_match; try done.
      unfold axios. cbn [pending]. apply elem_of_app. by left.
    + intros [= <-] _. left. eexists _, id. cbn [provider].
      unfold login, axios. cbn [pending]. apply elem_of_app. right.
      apply list_elem_of_here.
    + intros [= <-]. unfold loadingHasCause in *.
      cbn [provider logout isLoading]. intros Hl.
      eapply busy_pending; [| |exact (H Hl)]; done.
    + intros [= <-]. unfold loadingHasCause in *. cbn [provider].
      unfold refreshToken, axios. cbn [isLoading]. intros Hl.
      eapply busy_pending; [| |exact (H Hl)]; [|reflexivity].
      intros req0 id0 Hx. cbn [provider pending]. apply elem_of_app.
      by left.
    + destruct (pending (provider s) !! i) as [[req k]|] eqn:Hi;
        [|discriminate].
      intros [= <-].
      destruct k as [|id|id].
      * by apply (loadingHasCause_respond s i req).
      * unfold loadingHasCause. cbn [provider]. by destruct r.
      * by apply (loadingHasCause_respond s i req).
  - intros [= <-] _. right. unfold register, start. cbn [awaited].
    by destruct (awaited s).
  - intros [= <-] _. right. unfold updateProfile, start. cbn [awaited].
    by destruct (awaited s).
  - destruct (awaited s !! i) as [[req k]|]; [|discriminate].
    intros [= <-]. unfold loadingHasCause. cbn [provider]. by destruct k, r.
Qed.

Lemma loadingHasCause_run evs : forall s s',
  loadingHasCause s -> CustomerAccount.run s evs = Some s' ->
  loadingHasCause s'.
Proof.
  induction evs as [|ev evs IH]; intros s s' H; cbn [CustomerAccount.run].
  - by intros [= <-].
  - destruct (CustomerAccount.step s ev) as [s1|] eqn:Hstep; [|discriminate].
    apply IH. by eapply loadingHasCause_step.
Qed.

End CustomerAccountFacts.

Section CustomerAccountExtras.
Import CustomerPortal CustomerAccount CustomerAccountFacts.

(** X17. [refreshToken] of the customer provider posts the current token (or
    [null]) to /auth/refresh-token.  When the call succeeds the new token
    replaces the old one in the provider and in storage, the user is kept
    and the promise resolves to true.  When it fails, with any error
    whatever, the user is logged out: no token in the provider or in
    storage, no user, the "user-logout" event and then the error toast, and
    the promise resolves to false. *)
Theorem customer_refresh_replaces_token_or_logs_out (s : CustomerPortal.State)
    (id : nat) :
  let s1 := refreshToken id s in
  let i := length (pending s) in
  wire s1 = wire s ++ [refreshRequest (token s)] /\
  (forall d, exists s2,
     CustomerPortal.step s1 (Respond i (Fulfilled d)) = Some s2 /\
     token s2 = Some (d_token d) /\
     localStorage s2 !! "token" = Some (d_token d) /\
     user s2 = user s /\
     settled s2 = settled s ++ [(id, true)]) /\
  (forall status message, exists s2,
     CustomerPortal.step s1 (Respond i (Failed status message)) = Some s2 /\
     NoSession s2 /\
     settled s2 = settled s ++ [(id, false)] /\
     notices s2
       = notices s ++ [WindowEvent "user-logout";
                       ToastError "Session expired. Please login again."]).
Proof.
  cbv zeta. split; [reflexivity|].
  assert (Hi : pending (refreshToken id s) !! length (pending s)
               = Some (refreshRequest (token s), KRefresh id)).
  { unfold refreshToken, axios. cbn [pending]. by apply list_lookup_middle. }
  split.
  - intros d. eexists. cbn [CustomerPortal.step]. rewrite Hi.
    split; [reflexivity|]. cbn [CustomerPortal.resume set_pending token
      localStorage user settled refreshToken axios].
    by rewrite lookup_insert_eq.
  - intros status message. eexists. cbn [CustomerPortal.step]. rewrite Hi.
    split; [reflexivity|]. unfold NoSession.
    cbn [CustomerPortal.resume set_pending logout token localStorage user
         settled notices refreshToken axios].
    rewrite lookup_delete_eq, <- app_assoc. done.
Qed.

(** X18. In the customer provider the [token] of the React state is always
    the "token" item of the local storage.  This holds after any run of
    [loadUser], [login], [register], [updateProfile], [refreshToken],
    [logout] and answers of the network, in any order, from the initial
    state; so an authenticated provider always has its token persisted. *)
Theorem customer_token_agrees_with_storage storage evs s :
  CustomerAccount.run (CustomerAccount.initial storage) evs = Some s ->
  token (provider s) = localStorage (provider s) !! "token" /\
  (isAuthenticated (provider s) = true ->
   exists t u, localStorage (provider s) !! "token" = Some t /\ t <> "" /\
               user (provider s) = Some u).
Proof.
  intros Hrun.
  assert (agree (provider s)) as H
    by (eapply agree_run; [|exact Hrun]; reflexivity).
  split; [exact H|]. unfold isAuthenticated. rewrite <- H.
  destruct (token (provider s)) as [t|]; [|done].
  destruct (user (provider s)) as [u|]; [|by rewrite andb_false_r].
  cbn [truthy_opt]. rewrite andb_true_r. intros Ht.
  exists t, u. by apply truthy_spec in Ht.
Qed.

(** X19. The [isLoading] flag of the customer provider is never left set
    with nothing to wait for: after any run from the initial state, when
    [isLoading] is true a [login], a [register] or an [updateProfile] is
    still awaiting its answer. *)
Theorem loading_flag_has_a_pending_call storage evs s :
  CustomerAccount.run (CustomerAccount.initial storage) evs = Some s ->
  isLoading (provider s) = true ->
  busy s.
Proof.
  intros Hrun.
  apply (loadingHasCause_run evs (CustomerAccount.initial storage) s);
    [|exact Hrun].
  intros Hl. discriminate Hl.
Qed.

(** X20. [logout] does not cancel the calls that are on the wire.  When the
    answer to a [login] or a [register] arrives after a [logout], the user
    is signed in again, token in storage included; when a successful answer
    to [updateProfile] arrives after a [logout], the provider has a user
    again but no token, and is not authenticated. *)
Theorem logout_does_not_cancel_pending_calls (s : CustomerAccount.State)
    (id : nat) (d : Data) :
  (forall email password, exists s',
     CustomerAccount.run s
       [Provider (Login id email password); Provider Logout;
        Provider (Respond (length (pending (provider s))) (Fulfilled d))]
       = Some s' /\
     token (provider s') = Some (d_token d) /\
     user (provider s') = Some (d_user d) /\
     localStorage (provider s') !! "token" = Some (d_token d)) /\
  (forall name email password phoneNumber, exists s',
     CustomerAccount.run s
       [Register id name email password phoneNumber; Provider Logout;
        Settle (length (awaited s)) (Fulfilled d)] = Some s' /\
     token (provider s') = Some (d_token d) /\
     user (provider s') = Some (d_user d) /\
     localStorage (provider s') !! "token" = Some (d_token d)) /\
  (forall userData, exists s',
     CustomerAccount.run s
       [UpdateProfile id userData; Provider Logout;
        Settle (length (awaited s)) (Fulfilled d)] = Some s' /\
     token (provider s') = None /\
     user (provider s') = Some (d_user d) /\
     localStorage (provider s') !! "token" = None /\
     isAuthenticated (provider s') = false).
Proof.
  split; [|split].
  - intros email password. eexists.
    cbn [CustomerAccount.run CustomerAccount.step CustomerPortal.step
         provider awaited].
    unfold login, axios, logout. cbn [pending].
    rewrite list_lookup_middle by done.
    split; [reflexivity|].
    cbn [provider CustomerPortal.resume set_pending token user localStorage].
    by rewrite lookup_insert_eq.
  - intros name email password phoneNumber. eexists.
    cbn [CustomerAccount.run CustomerAccount.step CustomerPortal.step
         provider awaited register start].
    rewrite list_lookup_middle by done.
    split; [reflexivity|].
    cbn [provider CustomerAccount.resume token user localStorage].
    by rewrite lookup_insert_eq.
  - intros userData. eexists.
    cbn [CustomerAccount.run CustomerAccount.step CustomerPortal.step
         provider awaited updateProfile start].
    rewrite list_lookup_middle by done.
    split; [reflexivity|].
    unfold isAuthenticated.
    cbn [provider CustomerAccount.resume logout token user localStorage
         truthy_opt andb].
    by rewrite lookup_delete_eq.
Qed.

End CustomerAccountExtras.

Lemma customer_token_agrees_with_storage_witness :
  <["token" := "t1"]> Samples.customerStorage !! "token" = Some "t1" /\
  exists t u,
    <["token" := "t1"]> Samples.customerStorage !! "token" = Some t /\
    t <> "" /\ Some Samples.alice = Some u.
Proof.
  destruct (customer_token_agrees_with_storage Samples.customerStorage
    [CustomerAccount.Register 1 "Alice" "alice@example.org" "pw" "555";
     CustomerAccount.Settle 0 (Fulfilled (Samples.tokens "t1" "r1"))]
    (CustomerAccount.mkState
       (CustomerPortal.mkState (Some Samples.alice) (Some "t1") false None
          (<["token" := "t1"]> Samples.customerStorage) []
          [CustomerAccount.registerRequest "Alice" "alice@example.org" "pw"
             "555"]
          [(1, true)]
          [CustomerPortal.ToastSuccess "Registration successful!"])
       [])) as (H1 & H2); [vm_compute; reflexivity|].
  split; [symmetry; exact H1 | apply H2; reflexivity].
Defined.

Lemma loading_flag_has_a_pending_call_witness :
  CustomerAccount.busy
    (CustomerAccount.mkState
       (CustomerPortal.mkState None (Some "aa.exp.cc") true None
          Samples.customerStorage []
          [CustomerAccount.registerRequest "Alice" "alice@example.org" "pw"
             "555"]
          [] [])
       [(CustomerAccount.registerRequest "Alice" "alice@example.org" "pw"
           "555",
         CustomerAccount.KRegister 1)]).
Proof.
  apply (loading_flag_has_a_pending_call Samples.customerStorage
    [CustomerAccount.Register 1 "Alice" "alice@example.org" "pw" "555"]);
    [vm_compute; reflexivity | reflexivity].
Defined.

(** ** Notifications *)

Module NotificationsFacts.
Import Notifications.

Ltac state_simpl :=
  unfold call, set_awaited, set_notifications, set_unreadCount,
    set_isLoading, set_sessionStorage in *;
  cbn [notifications isLoading unreadCount sessionStorage awaited calls
       fst snd] in *.

Lemma mapAccum_Forall2 {A B : Type} (R : A -> B -> Prop)
    (f : nat -> A -> B * nat) :
  (forall n x, R x (fst (f n x))) ->
  forall l n, Forall2 R l (fst (mapAccum f n l)).
Proof.
  intros Hf. induction l as [|x l IH]; intros n; cbn [mapAccum].
  - constructor.
  - pose proof (Hf n x) as Hx. destruct (f n x) as [y n1].
    pose proof (IH n1) as Hl. destruct (mapAccum f n1 l) as [ys n2].
    cbn [fst] in *. by constructor.
Qed.

Lemma markData_marked clock n d : dataMarked d (fst (markData clock n d)).
Proof. unfold dataMarked, markData. cbn. eauto. Qed.

Lemma markReceiver_marked clock n r :
  receiverMarked r (fst (markReceiver clock n r)).
Proof.
  unfold receiverMarked, markReceiver.
  pose proof (mapAccum_Forall2 dataMarked (markData clock)
                (markData_marked clock) (receivingData r) n) as H.
  destruct (mapAccum (markData clock) n (receivingData r)) as [ds n'].
  cbn [fst userId receivingData] in *. done.
Qed.

Lemma markNotification_marked clock n x :
  marked x (fst (markNotification clock n x)).
Proof.
  unfold marked, markNotification.
  pose proof (mapAccum_Forall2 receiverMarked (markReceiver clock)
                (markReceiver_marked clock) (receivers x) n) as H.
  destruct (mapAccum (markReceiver clock) n (receivers x)) as [rs n'].
  cbn [fst _id title message createdAt receivers] in *. done.
Qed.

Lemma markOne_markedIf clock id n x :
  markedIf id x (fst (markOne clock id n x)).
Proof.
  unfold markedIf, markOne. destruct (String.eqb (_id x) id); [|done].
  apply markNotification_marked.
Qed.

Section Provider.

Variable getAll : string.
Variable JSON_parse : string -> option CustomerPortal.JsValue.
Variable ToString : CustomerPortal.JsValue -> string.

Local Abbreviation run := (run getAll JSON_parse ToString).
Local Abbreviation step := (step getAll JSON_parse ToString).

(** The answer to the call made last. *)
Lemma step_settle_last s config k a clock :
  step (call config k s) (Settle (length (awaited s)) a clock)
  = Some (resume getAll ToString k a clock
            (mkState (notifications s) (isLoading s) (unreadCount s)
               (sessionStorage s) (awaited s) (calls s ++ [config]))).
Proof.
  cbn [Notifications.step]. state_simpl.
  rewrite list_lookup_middle by done.
  by rewrite delete_middle, app_nil_r.
Qed.

(** The loop of [markAllAsRead] when every call succeeds. *)
Lemma markAll_loop_succeeds token clock rest : forall x s bs,
  length bs = S (length rest) ->
  run (call (readRequest getAll token (_id x)) (KMarkAll rest token) s)
      (map (fun b => Settle (length (awaited s)) (Returned b) clock) bs)
  = Some (mkState
            (fst (mapAccum (markNotification clock) 0 (notifications s)))
            (isLoading s) 0 (sessionStorage s) (awaited s)
            (calls s ++ map (fun y => readRequest getAll token (_id y))
                            (x :: rest))).
Proof.
  induction rest as [|y rest IH]; intros x s bs Hlen;
    (destruct bs as [|b bs]; [discriminate|]); cbn [map Notifications.run];
    rewrite step_settle_last; cbn [resume markAllLoop].
  - destruct bs; [|discriminate]. reflexivity.
  - cbn [length] in Hlen.
    pose proof (IH y (mkState (notifications s) (isLoading s)
                        (unreadCount s) (sessionStorage s) (awaited s)
                        (calls s ++ [readRequest getAll token (_id x)])) bs)
      as Hrest.
    cbn [notifications isLoading sessionStorage awaited calls] in Hrest.
    rewrite Hrest by lia. by rewrite <- app_assoc.
Qed.

(** The loop of [markAllAsRead] when a call fails. *)
Lemma markAll_loop_fails token clock bs : forall rest x s,
  length bs <= length rest ->
  run (call (readRequest getAll token (_id x)) (KMarkAll rest token) s)
      (map (fun b => Settle (length (awaited s)) (Returned b) clock) bs
         ++ [Settle (length (awaited s)) Threw clock])
  = Some (mkState (notifications s) (isLoading s) (unreadCount s)
            (sessionStorage s) (awaited s)
            (calls s ++ map (fun y => readRequest getAll token (_id y))
                            (take (S (length bs)) (x :: rest)))).
Proof.
  induction bs as [|b bs IH]; intros rest x s Hlen;
    cbn [map app Notifications.run]; rewrite step_settle_last;
    cbn [resume].
  - cbn [length take]. by rewrite take_0.
  - destruct rest as [|y rest]; [cbn [length] in Hlen; lia|].
    cbn [markAllLoop length take map].
    pose proof (IH rest y (mkState (notifications s) (isLoading s)
                             (unreadCount s) (sessionStorage s) (awaited s)
                             (calls s ++ [readRequest getAll token (_id x)])))
      as Hrest.
    cbn [notifications isLoading unreadCount sessionStorage awaited calls]
      in Hrest.
    rewrite Hrest by (cbn [length] in Hlen; lia).
    cbn [take map]. by rewrite <- app_assoc.
Qed.

Lemma unreadCount_markAllLoop rest token clock s :
  (0 <= unreadCount s)%Z ->
  (0 <= unreadCount (markAllLoop getAll rest token clock s))%Z.
Proof. destruct rest; cbn [markAllLoop]; state_simpl; lia. Qed.

Lemma unreadCount_step s ev s' :
  countsNonNegative [ev] = true ->
  (0 <= unreadCount s)%Z -> step s ev = Some s' -> (0 <= unreadCount s')%Z.
Proof.
  intros Hev Hs. cbn [countsNonNegative forallb] in Hev.
  rewrite andb_true_r in Hev. destruct ev as [|id|clock|i a clock|st];
    cbn [Notifications.step].
  - intros [= <-]. unfold fetchNotifications.
    repeat case_match; by state_simpl.
  - intros [= <-]. unfold markAsRead. case_match; by state_simpl.
  - intros [= <-]. unfold markAllAsRead. repeat case_match; try done.
    by apply unreadCount_markAllLoop.
  - destruct (awaited s !! i) as [[req k]|]; [|discriminate].
    intros [= <-].
    destruct k as [uid token| |id|rest token], a as [b|]; cbn [resume];
      try (by state_simpl).
    + apply Z.leb_le in Hev. destruct (b_success b); by state_simpl.
    + destruct (b_success b); by state_simpl.
    + state_simpl. lia.
    + by apply unreadCount_markAllLoop.
  - intros [= <-]. by state_simpl.
Qed.

Lemma fetching_keep s s' :
  (forall rk, rk ∈ awaited s ->
     match snd rk with KCount _ _ | KList => True | _ => False end ->
     rk ∈ awaited s') ->
  fetching s -> fetching s'.
Proof.
  intros H (req & k & Hin & Hk). exists req, k.
  split; [by apply (H (req, k))|done].
Qed.

Lemma loadingHasCause_markAllLoop rest token clock s :
  loadingHasCause s ->
  loadingHasCause (markAllLoop getAll rest token clock s).
Proof.
  unfold loadingHasCause. intros H.
  destruct rest as [|x rest]; cbn [markAllLoop]; state_simpl; intros Hl.
  - eapply fetching_keep; [|exact (H Hl)]. done.
  - eapply fetching_keep; [|exact (H Hl)]. intros rk Hin _.
    cbn [awaited]. apply elem_of_app. by left.
Qed.

Lemma fetching_step s ev s' :
  loadingHasCause s -> step s ev = Some s' -> loadingHasCause s'.
Proof.
  intros H. destruct ev as [|id|clock|i a clock|st];
    cbn [Notifications.step].
  - intros [= <-]. unfold loadingHasCause, fetchNotifications.
    repeat case_match; state_simpl; try done.
    intros _. eexists _, _. split.
    + cbn [awaited]. apply elem_of_app. right. apply list_elem_of_here.
    + done.
  - intros [= <-]. unfold markAsRead. case_match; [|done].
    unfold loadingHasCause in *. state_simpl. intros Hl.
    eapply fetching_keep; [|exact (H Hl)]. intros rk Hin _.
    cbn [awaited]. apply elem_of_app. by left.
  - intros [= <-]. unfold markAllAsRead. repeat case_match; try done.
    by apply loadingHasCause_markAllLoop.
  - destruct (awaited s !! i) as [[req k]|] eqn:Hi; [|discriminate].
    intros [= <-].
    assert (Hother : match k with KCount _ _ | KList => False | _ => True end
      -> loadingHasCause (set_awaited (delete i (awaited s)) s)).
    { intros Hk. unfold loadingHasCause in *. state_simpl. intros Hl.
      eapply fetching_keep; [|exact (H Hl)]. intros rk Hin Hrk.
      cbn [awaited]. eapply elem_of_delete_other;
        [exact Hi| |exact Hin].
      intros ->. cbn [snd] in Hrk. by destruct k. }
    destruct k as [uid token| |id|rest token], a as [b|]; cbn [resume];
      try (by unfold loadingHasCause; state_simpl).
    + unfold loadingHasCause. intros _. eexists _, KList. split; [|done].
      destruct (b_success b); state_simpl; apply elem_of_app; right;
        apply list_elem_of_here.
    + specialize (Hother I). unfold loadingHasCause in *. state_simpl.
      intros Hl. eapply fetching_keep; [|exact (Hother Hl)]. done.
    + by apply Hother.
    + apply loadingHasCause_markAllLoop. by apply Hother.
    + by apply Hother.
  - intros [= <-]. unfold loadingHasCause in *. state_simpl. intros Hl.
    eapply fetching_keep; [|exact (H Hl)]. done.
Qed.

End Provider.

End NotificationsFacts.

Section NotificationsExtras.
Import Notifications NotificationsFacts.

Variable getAll : string.
Variable JSON_parse : string -> option CustomerPortal.JsValue.
Variable ToString : CustomerPortal.JsValue -> string.

Local Abbreviation run := (run getAll JSON_parse ToString).
Local Abbreviation step := (step getAll JSON_parse ToString).

(** X21. [markAllAsRead] posts the notifications one at a time, in list
    order, each after the answer to the one before, and changes the local
    state only when every post succeeded: then every receiving entry of
    every notification is read and time-stamped, nothing else of a
    notification changes, and the unread count is 0.  When a post fails the
    later ones are never sent, and list and count stay as they were,
    although the earlier posts reached the server. *)
Theorem markAllAsRead_is_sequential_and_all_or_nothing
    (s : State) (token : string) (uid : CustomerPortal.JsValue)
    (clock0 clock : Clock) (bs : list Body) :
  adminToken s = Some token ->
  currentUserId JSON_parse s = Some uid ->
  let i := length (awaited s) in
  let posts := map (fun x => readRequest getAll token (_id x)) in
  (length bs = length (notifications s) ->
   exists s',
     run s (MarkAllAsRead clock
              :: map (fun b => Settle i (Returned b) clock) bs) = Some s' /\
     Forall2 marked (notifications s) (notifications s') /\
     unreadCount s' = 0%Z /\
     calls s' = calls s ++ posts (notifications s) /\
     awaited s' = awaited s) /\
  (length bs < length (notifications s) ->
   exists s',
     run s (MarkAllAsRead clock0
              :: map (fun b => Settle i (Returned b) clock) bs
              ++ [Settle i Threw clock]) = Some s' /\
     notifications s' = notifications s /\
     unreadCount s' = unreadCount s /\
     calls s' = calls s ++ posts (take (S (length bs)) (notifications s)) /\
     awaited s' = awaited s).
Proof.
  intros Ht Hu. cbv zeta. split; intros Hlen.
  - cbn [Notifications.run Notifications.step]. unfold markAllAsRead.
    rewrite Ht, Hu.
    destruct (notifications s) as [|x rest] eqn:Hn.
    + destruct bs; [|discriminate]. eexists. split; [reflexivity|].
      cbn [markAllLoop]. state_simpl. rewrite Hn. cbn [mapAccum fst map].
      by rewrite app_nil_r.
    + cbn [markAllLoop]. rewrite markAll_loop_succeeds by done.
      eexists. split; [reflexivity|]. state_simpl. rewrite Hn.
      split; [|done].
      apply mapAccum_Forall2, markNotification_marked.
  - cbn [Notifications.run Notifications.step]. unfold markAllAsRead.
    rewrite Ht, Hu.
    destruct (notifications s) as [|x rest] eqn:Hn;
      [cbn [length] in Hlen; lia|].
    cbn [markAllLoop]. rewrite markAll_loop_fails
      by (cbn [length] in Hlen; lia).
    eexists. split; [reflexivity|]. by state_simpl.
Qed.

(** X22. [markAsRead] posts to /read/<id> with the token, whether or not a
    user is stored.  When the post succeeds, the notifications with that id
    have every receiving entry read and time-stamped, all others are as
    they were, in the same order, and the unread count goes down by one but
    not below 0; it goes down also when no notification has that id or it
    was read already.  When the post fails nothing changes. *)
Theorem markAsRead_marks_one_and_decrements
    (s : State) (token id : string) (clock : Clock) :
  adminToken s = Some token ->
  let i := length (awaited s) in
  (forall b, exists s',
     run s [MarkAsRead id; Settle i (Returned b) clock] = Some s' /\
     Forall2 (markedIf id) (notifications s) (notifications s') /\
     unreadCount s' = Z.max 0 (unreadCount s - 1) /\
     calls s' = calls s ++ [readRequest getAll token id] /\
     awaited s' = awaited s) /\
  (exists s',
     run s [MarkAsRead id; Settle i Threw clock] = Some s' /\
     notifications s' = notifications s /\
     unreadCount s' = unreadCount s /\
     calls s' = calls s ++ [readRequest getAll token id] /\
     awaited s' = awaited s).
Proof.
  intros Ht. cbv zeta. split; [intros b|]; eexists;
    cbn [Notifications.run]; unfold Notifications.step at 1, markAsRead;
    rewrite Ht, step_settle_last; (split; [reflexivity|]); cbn [resume];
    state_simpl; [|done].
  split; [|done]. apply mapAccum_Forall2, markOne_markedIf.
Qed.

(** X23. The unread count is never negative: after any run from the initial
    state it is at least 0, provided the counts the server sends are not
    negative. *)
Theorem unread_count_is_never_negative storage evs s :
  countsNonNegative evs = true ->
  run (initial storage) evs = Some s ->
  (0 <= unreadCount s)%Z.
Proof.
  assert (H0 : (0 <= unreadCount (initial storage))%Z) by done.
  revert H0. generalize (initial storage).
  induction evs as [|ev evs IH]; intros s0 Hs0 Hev; cbn [Notifications.run].
  - by intros [= <-].
  - destruct (step s0 ev) as [s1|] eqn:Hstep; [|discriminate].
    unfold countsNonNegative in Hev. cbn [forallb] in Hev.
    apply andb_true_iff in Hev as [Hev Hevs].
    apply IH; [|exact Hevs].
    eapply unreadCount_step; [|exact Hs0|exact Hstep].
    unfold countsNonNegative. cbn [forallb]. by rewrite Hev.
Qed.

(** X24. Without a truthy [adminToken] in the session storage the functions
    of the provider do nothing: whatever sequence of [fetchNotifications],
    [markAsRead] and [markAllAsRead] is called, no request is made, and
    list, count and awaited calls stay as they were.  Without a usable user
    id ([adminUser] missing, not JSON, or without a truthy [_id])
    [fetchNotifications] and [markAllAsRead] make no request either. *)
Theorem no_token_no_requests (s : State) (evs : list Event) :
  (adminToken s = None /\ forallb isCall evs = true) \/
  (currentUserId JSON_parse s = None /\
   forallb (fun ev => match ev with
                      | FetchNotifications | MarkAllAsRead _ => true
                      | _ => false
                      end) evs = true) ->
  exists s',
    run s evs = Some s' /\
    calls s' = calls s /\
    notifications s' = notifications s /\
    unreadCount s' = unreadCount s /\
    awaited s' = awaited s /\
    sessionStorage s' = sessionStorage s.
Proof.
  revert s. induction evs as [|ev evs IH]; intros s H.
  - exists s. done.
  - cbn [Notifications.run].
    assert (exists s1, step s ev = Some s1 /\
              calls s1 = calls s /\ notifications s1 = notifications s /\
              unreadCount s1 = unreadCount s /\ awaited s1 = awaited s /\
              sessionStorage s1 = sessionStorage s) as (s1 & -> & Hs1).
    { destruct H as [[Ht Hev] | [Hu Hev]]; cbn [forallb] in Hev;
        apply andb_true_iff in Hev as [Hev _];
        destruct ev; try discriminate; cbn [Notifications.step];
        eexists; (split; [reflexivity|]);
        unfold fetchNotifications, markAsRead, markAllAsRead.
      - change (adminToken (set_isLoading true s)) with (adminToken s).
        by rewrite Ht.
      - by rewrite Ht.
      - by rewrite Ht.
      - change (adminToken (set_isLoading true s)) with (adminToken s).
        change (currentUserId JSON_parse (set_isLoading true s))
          with (currentUserId JSON_parse s).
        rewrite Hu. by destruct (adminToken s).
      - rewrite Hu. by destruct (adminToken s). }
    destruct Hs1 as (Hc & Hn & Hr & Ha & Hst).
    destruct (IH s1) as (s' & Hrun & Hc' & Hn' & Hr' & Ha' & Hst').
    { unfold adminToken, currentUserId in *. rewrite Hst.
      destruct H as [[Ht Hev] | [Hu Hev]]; cbn [forallb] in Hev;
        apply andb_true_iff in Hev as [_ Hev]; [left | right]; done. }
    exists s'. split; [exact Hrun|]. by rewrite Hc', Hn', Hr', Ha', Hst'.
Qed.


(** X26. The loading flag of the notification provider is never left set
    with nothing to wait for: after any run from the initial state, when
    [isLoading] is true a [fetchNotifications] is still awaiting an
    answer. *)
Theorem notifications_loading_has_a_pending_fetch storage evs s :
  run (initial storage) evs = Some s ->
  isLoading s = true ->
  fetching s.
Proof.
  assert (H0 : loadingHasCause (initial storage)) by (intros Hl; done).
  revert H0. generalize (initial storage).
  induction evs as [|ev evs IH]; intros s0 Hs0; cbn [Notifications.run].
  - intros [= <-]. exact Hs0.
  - destruct (step s0 ev) as [s1|] eqn:Hstep; [|discriminate].
    apply IH. by eapply fetching_step.
Qed.

End NotificationsExtras.

Lemma markAllAsRead_is_sequential_and_all_or_nothing_witness :
  exists s',
    Notifications.run NotificationSamples.getAll
      NotificationSamples.JSON_parse NotificationSamples.ToString
      NotificationSamples.loaded
      [Notifications.MarkAllAsRead NotificationSamples.clock;
       Notifications.Settle 0
         (Notifications.Returned NotificationSamples.unread)
         NotificationSamples.clock] = Some s' /\
    Notifications.unreadCount s' = 0%Z.
Proof.
  destruct (markAllAsRead_is_sequential_and_all_or_nothing
              NotificationSamples.getAll NotificationSamples.JSON_parse
              NotificationSamples.ToString
              NotificationSamples.loaded "t0" (CustomerPortal.JsStr "u1")
              NotificationSamples.clock NotificationSamples.clock
              [NotificationSamples.unread]) as (H & _);
    [vm_compute; reflexivity | vm_compute; reflexivity |].
  destruct (H eq_refl) as (s' & Hrun & _ & Hc & _).
  exists s'. split; [exact Hrun | exact Hc].
Defined.

Lemma markAsRead_marks_one_and_decrements_witness :
  exists s',
    Notifications.run NotificationSamples.getAll
      NotificationSamples.JSON_parse NotificationSamples.ToString
      NotificationSamples.loaded
      [Notifications.MarkAsRead "n2";
       Notifications.Settle 0
         (Notifications.Returned NotificationSamples.unread)
         NotificationSamples.clock] = Some s' /\
    Notifications.unreadCount s' = 0%Z.
Proof.
  destruct (markAsRead_marks_one_and_decrements
              NotificationSamples.getAll NotificationSamples.JSON_parse
              NotificationSamples.ToString
              NotificationSamples.loaded "t0" "n2"
              NotificationSamples.clock) as (H & _);
    [vm_compute; reflexivity|].
  destruct (H NotificationSamples.unread) as (s' & Hrun & _ & Hc & _).
  exists s'. split; [exact Hrun | exact Hc].
Defined.

Lemma unread_count_is_never_negative_witness :
  (0 <= 1)%Z.
Proof.
  apply (unread_count_is_never_negative
           NotificationSamples.getAll NotificationSamples.JSON_parse
           NotificationSamples.ToString NotificationSamples.storage
           [Notifications.FetchNotifications;
            Notifications.Settle 0
              (Notifications.Returned NotificationSamples.unread)
              NotificationSamples.clock]
           (Notifications.mkState [] true 1 NotificationSamples.storage
              [(Notifications.listRequest NotificationSamples.getAll
                  NotificationSamples.ToString (CustomerPortal.JsStr "u1")
                  "t0",
                Notifications.KList)]
              [Notifications.countRequest NotificationSamples.getAll
                 NotificationSamples.ToString (CustomerPortal.JsStr "u1")
                 "t0";
               Notifications.listRequest NotificationSamples.getAll
                 NotificationSamples.ToString (CustomerPortal.JsStr "u1")
                 "t0"]));
    [reflexivity | vm_compute; reflexivity].
Defined.

Lemma no_token_no_requests_witness :
  exists s',
    Notifications.run NotificationSamples.getAll
      NotificationSamples.JSON_parse NotificationSamples.ToString
      (Notifications.initial ∅)
      [Notifications.FetchNotifications; Notifications.MarkAsRead "n1";
       Notifications.MarkAllAsRead NotificationSamples.clock] = Some s' /\
    Notifications.calls s' = [].
Proof.
  destruct (no_token_no_requests
              NotificationSamples.getAll NotificationSamples.JSON_parse
              NotificationSamples.ToString (Notifications.initial ∅)
              [Notifications.FetchNotifications;
               Notifications.MarkAsRead "n1";
               Notifications.MarkAllAsRead NotificationSamples.clock])
    as (s' & Hrun & Hc & _);
    [left; split; reflexivity|].
  exists s'. split; [exact Hrun | exact Hc].
Defined.


Lemma notifications_loading_has_a_pending_fetch_witness :
  Notifications.fetching
    (Notifications.mkState [] true 0 NotificationSamples.storage
       [(Notifications.countRequest NotificationSamples.getAll
           NotificationSamples.ToString (CustomerPortal.JsStr "u1") "t0",
         Notifications.KCount (CustomerPortal.JsStr "u1") "t0")]
       [Notifications.countRequest NotificationSamples.getAll
          NotificationSamples.ToString (CustomerPortal.JsStr "u1") "t0"]).
Proof.
  apply (notifications_loading_has_a_pending_fetch
           NotificationSamples.getAll NotificationSamples.JSON_parse
           NotificationSamples.ToString NotificationSamples.storage
           [Notifications.FetchNotifications]);
    [vm_compute; reflexivity | reflexivity].
Defined.
